(** * Secondary-interface protocol engine of [airobot.utils.ur_tcp_util]

    A shallow embedding of [ParserUtils] (frame scanner and packet decoder)
    and of the sequential behaviour of [SecondaryMonitor] (state dictionary,
    typed getters, command queue, one iteration of the receive loop),
    followed by theorems about them.

    Conventions of the embedding:
    - a Python [bytes] object is a [list byte];
    - a Python [int] is a [Z]; lengths and loop indices are [nat];
    - a Python [dict] with string keys is a [gmap string _];
    - a raised exception is the [Raise] outcome of [result];
    - [self.version] and the records handed to [self.logger] are the state
      of a small state-and-exception monad [M];
    - a Python [float] is kept as the big-endian IEEE-754 bytes it was
      unpacked from. *)

From Stdlib Require Import ZArith Ascii String List Lia.
From Stdlib.Strings Require Import Byte.
From stdpp Require Import base gmap strings list fin_maps pretty.

Local Open Scope Z_scope.

(** ** Exceptions and outcomes *)

Inductive exn : Type :=
| ParsingException
| KeyError
| IndexError
| TypeError
| ValueError
| StructError.

Inductive result (A : Type) : Type :=
| Ok (a : A)
| Raise (e : exn).
Arguments Ok {A} a.
Arguments Raise {A} e.

Definition result_bind {A B} (r : result A) (k : A -> result B) : result B :=
  match r with
  | Ok a => k a
  | Raise e => Raise e
  end.

Notation "'try!' x <- r 'in' k" := (result_bind r (fun x => k))
  (at level 10, x pattern, r at level 100, k at level 200).

(** ** Bytes and Python values *)

Abbreviation bytes := (list byte).

Inductive value : Type :=
| VInt (z : Z)
| VBool (b : bool)
| VBytes (bs : bytes)
| VFloat (bs : bytes).

Abbreviation record := (gmap string value).
Abbreviation batch := (gmap string (gmap string value)).

Definition byte_val (b : byte) : Z := Z.of_N (Byte.to_N b).

(** Big-endian unsigned and two's-complement signed integers. *)
Definition be_uint (bs : bytes) : Z :=
  fold_left (fun acc b => acc * 256 + byte_val b) bs 0.

Definition be_int (bs : bytes) : Z :=
  let u := be_uint bs in
  let w := 8 * Z.of_nat (length bs) in
  if u <? 2 ^ (w - 1) then u else u - 2 ^ w.

(** [data[0:n]] and [data[n:]] for a Python integer [n]: a negative bound
    counts from the end, and bounds are clipped to the object. *)
Definition slice_bound (n : Z) (len : nat) : nat :=
  if n <? 0 then Z.to_nat (Z.max 0 (Z.of_nat len + n)) else Z.to_nat n.

Definition slice_to {A} (n : Z) (l : list A) : list A :=
  take (slice_bound n (length l)) l.

Definition slice_from {A} (n : Z) (l : list A) : list A :=
  drop (slice_bound n (length l)) l.

(** [l[z]] for a Python integer index. *)
Definition py_nth {A} (l : list A) (z : Z) : result A :=
  let idx := if z <? 0 then Z.of_nat (length l) + z else z in
  if idx <? 0 then Raise IndexError
  else match l !! Z.to_nat idx with
       | Some a => Ok a
       | None => Raise IndexError
       end.

(** The [__index__] protocol used by slicing and shifting. *)
Definition py_index (v : value) : result Z :=
  match v with
  | VInt z => Ok z
  | VBool b => Ok (if b then 1 else 0)
  | _ => Raise TypeError
  end.

(** [d[k]] on a dictionary. *)
Definition getitem {V} (d : gmap string V) (k : string) : result V :=
  match d !! k with
  | Some v => Ok v
  | None => Raise KeyError
  end.

(** ** The [struct] module, for the single-character formats the parser uses *)

(** The formats of [parse] are built from twelve codes, [c b B ? h H i I
    q Q f d], whose native size is their standard size.  [calcsize] and
    [unpack] are the library's functions on these codes only; the
    library knows further codes ([s p e x], and [l L n N P], sized by
    the platform), which no format of this module uses and which are
    outside this model.  A statement about an arbitrary format is
    therefore made under [struct_format] below. *)

Definition is_code (f : ascii) (codes : string) : bool :=
  existsb (Ascii.eqb f) (list_ascii_of_string codes).

(** [struct.calcsize(f)], for [f] one of the twelve codes *)
Definition calcsize (f : ascii) : result nat :=
  if is_code f "cbB?" then Ok 1%nat
  else if is_code f "hH" then Ok 2%nat
  else if is_code f "iIf" then Ok 4%nat
  else if is_code f "qQd" then Ok 8%nat
  else Raise StructError.

(** [struct.unpack("!" + f, bs)[0]], for [f] one of the twelve codes and
    [bs] of length [calcsize f] *)
Definition unpack (f : ascii) (bs : bytes) : result value :=
  if is_code f "BHIQ" then Ok (VInt (be_uint bs))
  else if is_code f "bhiq" then Ok (VInt (be_int bs))
  else if is_code f "?" then Ok (VBool (negb (be_uint bs =? 0)))
  else if is_code f "c" then Ok (VBytes bs)
  else if is_code f "fd" then Ok (VFloat bs)
  else Raise StructError.

(** ** String helpers *)

(** [str.isspace] on the ASCII range, and the whitespace of [bytes.strip]. *)
Definition py_isspace (c : ascii) : bool :=
  let n := nat_of_ascii c in
  ((9 <=? n) && (n <=? 13) || (28 <=? n) && (n <=? 32))%nat.

Definition bytes_isspace (c : ascii) : bool :=
  let n := nat_of_ascii c in
  ((9 <=? n) && (n <=? 13) || (n =? 32))%nat.

Fixpoint lstrip (sp : ascii -> bool) (l : list ascii) : list ascii :=
  match l with
  | c :: l' => if sp c then lstrip sp l' else l
  | [] => []
  end.

Definition rstrip (sp : ascii -> bool) (l : list ascii) : list ascii :=
  rev (lstrip sp (rev l)).

(** [s.strip()] on a [str] *)
Definition strip (s : string) : string :=
  string_of_list_ascii (rstrip py_isspace (lstrip py_isspace (list_ascii_of_string s))).

(** [b.strip()] and [b.rstrip()] on a [bytes] *)
Definition bytes_strip (b : bytes) : bytes :=
  map byte_of_ascii
    (rstrip bytes_isspace (lstrip bytes_isspace (map ascii_of_byte b))).

Definition bytes_rstrip (b : bytes) : bytes :=
  map byte_of_ascii (rstrip bytes_isspace (map ascii_of_byte b)).

(** [s.endswith(suffix)] *)
Definition endswith (s suffix : string) : bool :=
  String.prefix (string_of_list_ascii (rev (list_ascii_of_string suffix)))
                (string_of_list_ascii (rev (list_ascii_of_string s))).

(** ** [ParserUtils._get_data] *)

(** The size of the array field met at an ["A"] of the format; [fmt'] is
    the format after that ["A"].  The source tests [j == len(fmt) - 2],
    that is, exactly one character follows the ["A"]. *)
Definition array_size (fmt' : list ascii) (key_names : list string)
    (i : nat) (d : record) (tmpdata : bytes) : result value :=
  if (length fmt' =? 1)%nat then Ok (VInt (Z.of_nat (length tmpdata)))
  else
    try! asn <- py_nth key_names (Z.of_nat i - 1) in
    if negb (endswith asn "Size") then Raise ParsingException
    else getitem d asn.

(** The [while j < len(fmt) and i < len(key_names)] loop.  The first
    argument is [fmt[j:]]: [j += 1] moves to its tail and [j += 2] to the
    tail of its tail. *)
Fixpoint _get_data_loop (fmt : list ascii) (key_names : list string)
    (i : nat) (d : record) (tmpdata : bytes) : result record :=
  match fmt with
  | [] => Ok d
  | f :: fmt' =>
    if (length key_names <=? i)%nat then Ok d
    else if is_code f " !><" then _get_data_loop fmt' key_names i d tmpdata
    else if is_code f "A" then
      try! arraysize <- array_size fmt' key_names i d tmpdata in
      try! n <- py_index arraysize in
      try! name <- py_nth key_names (Z.of_nat i) in
      let d := <[name := VBytes (slice_to n tmpdata)]> d in
      let tmpdata := slice_from n tmpdata in
      match fmt' with
      | [] => Ok d
      | _ :: fmt'' => _get_data_loop fmt'' key_names (S i) d tmpdata
      end
    else
      try! fmtsize <- calcsize f in
      if (length tmpdata <? fmtsize)%nat then Raise ParsingException
      else
        try! v <- unpack f (take fmtsize tmpdata) in
        try! name <- py_nth key_names (Z.of_nat i) in
        _get_data_loop fmt' key_names (S i) (<[name := v]> d)
                       (drop fmtsize tmpdata)
  end.

Definition _get_data (data : bytes) (struct_fmt : string)
    (key_names : list string) : result record :=
  let tmpdata := data in
  let fmt := strip struct_fmt in
  _get_data_loop (list_ascii_of_string fmt) key_names 0 ∅ tmpdata.

(** ** Python [==] between an unpacked value and an integer literal *)

(** The number held by IEEE-754 big-endian bytes, as [(m, e)] for
    [m * 2^e]; [None] for infinities and NaN. *)
Definition float_decode (bs : bytes) : option (Z * Z) :=
  let '(ebits, mbits) := if (length bs =? 4)%nat then (8, 23) else (11, 52) in
  let bias := 2 ^ (ebits - 1) - 1 in
  let u := be_uint bs in
  let e := Z.land (Z.shiftr u mbits) (2 ^ ebits - 1) in
  let m := Z.land u (2 ^ mbits - 1) in
  if e =? 2 ^ ebits - 1 then None
  else
    let '(mant, ex) :=
      if e =? 0 then (m, 1 - bias - mbits) else (m + 2 ^ mbits, e - bias - mbits) in
    Some (if Z.testbit u (ebits + mbits) then - mant else mant, ex).

Definition py_eq_int (v : value) (n : Z) : bool :=
  match v with
  | VInt z => z =? n
  | VBool b => (if b then 1 else 0) =? n
  | VBytes _ => false
  | VFloat bs =>
    match float_decode bs with
    | Some (m, e) => if 0 <=? e then m * 2 ^ e =? n else m =? n * 2 ^ (- e)
    | None => false
    end
  end.

(** ** Parser state: [self.version] and the records given to [self.logger] *)

Inductive log_record : Type :=
| DebugUnknownPacket (ptype psize : Z)
| DebugNotImplemented (tmp : record)
| WarningTried (counter : nat) (psize ptype : Z)
| WarningDataLength (len : nat)
| DebugGotPacket (psize ptype : Z)
| InfoGarbage (counter : nat)
| DebugNotComplete (psize : Z) (len : nat) (ptype : Z)
| DebugEnqueueing (prog : bytes)
| WarningParseError
| WarningNoRobotModeData
| ErrorNotRunning (rmd : record).

Record ParserUtils : Type := mkParserUtils {
  version : Z * Z;
  logger : list log_record
}.

(** [ParserUtils.__init__] *)
Definition new_ParserUtils : ParserUtils :=
  {| version := (0, 0); logger := [] |}.

(** Tuple comparison [v < w] and [v >= w]. *)
Definition version_lt (v w : Z * Z) : bool :=
  (v.1 <? w.1) || ((v.1 =? w.1) && (v.2 <? w.2)).

Definition version_ge (v w : Z * Z) : bool := negb (version_lt v w).

(** The state-and-exception monad of the parser's methods: an exception
    keeps the state reached when it was raised. *)
Definition M (A : Type) : Type := ParserUtils -> ParserUtils * result A.

#[global] Instance M_ret : MRet M := fun A a s => (s, Ok a).

#[global] Instance M_bind : MBind M := fun A B k m s =>
  match m s with
  | (s', Ok a) => k a s'
  | (s', Raise e) => (s', Raise e)
  end.

Definition lift {A} (r : result A) : M A := fun s => (s, r).

Definition get_version : M (Z * Z) := fun s => (s, Ok (version s)).

Definition set_version (v : Z * Z) : M unit := fun s =>
  ({| version := v; logger := logger s |}, Ok tt).

Definition log (r : log_record) : M unit := fun s =>
  ({| version := version s; logger := logger s ++ [r] |}, Ok tt).

(** ** [ParserUtils.get_header] and [ParserUtils.analyze_header] *)

(** [struct.unpack("!iB", data[0:5])]: [struct.error] unless five bytes
    are there. *)
Definition get_header (data : bytes) : result (Z * Z) :=
  let hd := slice_to 5 data in
  if (length hd =? 5)%nat then Ok (be_int (take 4 hd), be_uint (drop 4 hd))
  else Raise StructError.

Definition analyze_header (data : bytes) : result (Z * Z * bytes * bytes) :=
  if (length data <? 5)%nat then Raise ParsingException
  else
    try! (packet_size, packet_type) <- get_header data in
    if packet_size <? 5 then Raise ParsingException
    else if Z.of_nat (length data) <? packet_size then Raise ParsingException
    else Ok (packet_size, packet_type,
             slice_to packet_size data, slice_from packet_size data).

(** ** [ParserUtils.parse] *)

(** The layouts: the tuples of key names given to [_get_data]. *)
Definition robot_mode_names_30 : list string :=
  ["size"; "type"; "timestamp"; "isRobotConnected"; "isRealRobotEnabled";
   "isPowerOnRobot"; "isEmergencyStopped"; "isSecurityStopped";
   "isProgramRunning"; "isProgramPaused"; "robotMode"; "controlMode";
   "speedFraction"; "speedScaling"].

Definition robot_mode_names_32 : list string :=
  robot_mode_names_30 ++ ["speedFractionLimit"].

Definition robot_mode_names_35 : list string :=
  robot_mode_names_30 ++ ["speedFractionLimit"; "reservedByUR"].

Definition robot_mode_names_legacy : list string :=
  ["size"; "type"; "timestamp"; "isRobotConnected"; "isRealRobotEnabled";
   "isPowerOnRobot"; "isEmergencyStopped"; "isSecurityStopped";
   "isProgramRunning"; "isProgramPaused"; "robotMode"; "speedFraction"].

(** [tmpstr], built by the [for i in range(0, 6)] loop. *)
Definition joint_names : list string :=
  ["size"; "type"] ++
  flat_map (fun i : nat =>
    let s := pretty i in
    ["q_actual" +:+ s; "q_target" +:+ s; "qd_actual" +:+ s;
     "I_actual" +:+ s; "V_actual" +:+ s; "T_motor" +:+ s;
     "T_micro" +:+ s; "jointMode" +:+ s]) (seq 0 6).

Definition master_board_names : list string :=
  ["size"; "type"; "digitalInputBits"; "digitalOutputBits";
   "analogInputRange0"; "analogInputRange1"; "analogInput0"; "analogInput1";
   "analogInputDomain0"; "analogInputDomain1"; "analogOutput0";
   "analogOutput1"; "masterBoardTemperature"; "robotVoltage48V";
   "robotCurrent"; "masterIOCurrent"].

Definition message_names (tail : list string) : list string :=
  ["size"; "type"; "timestamp"; "source"; "robotMessageType"] ++ tail.

(** [allData[key] = self._get_data(pdata, fmt, names)] *)
Definition decode_into (allData : batch) (key : string) (pdata : bytes)
    (fmt : string) (names : list string) : M batch :=
  r ← lift (_get_data pdata fmt names);
  mret (<[key := r]> allData).

(** The [ptype == 20] branch: the common header is decoded first, then
    the same bytes again with the layout of its [robotMessageType]. *)
Definition parse_message (allData : batch) (pdata : bytes) : M batch :=
  tmp ← lift (_get_data pdata "!iB Qbb" (message_names []));
  mt ← lift (getitem tmp "robotMessageType");
  if py_eq_int mt 3 then
    decode_into allData "VersionMessage" pdata "!iBQbb bAbBBiAb"
      (message_names ["projectNameSize"; "projectName"; "majorVersion";
                      "minorVersion"; "svnRevision"; "buildDate"])
  else if py_eq_int mt 6 then
    decode_into allData "robotCommMessage" pdata "!iBQbb iiAc"
      (message_names ["code"; "argument"; "messageText"])
  else if py_eq_int mt 1 then
    decode_into allData "labelMessage" pdata "!iBQbb iAc"
      (message_names ["id"; "messageText"])
  else if py_eq_int mt 2 then
    decode_into allData "popupMessage" pdata "!iBQbb ??BAcAc"
      (message_names ["warning"; "error"; "titleSize"; "messageTitle";
                      "messageText"])
  else if py_eq_int mt 0 then
    decode_into allData "messageText" pdata "!iBQbb Ac"
      (message_names ["messageText"])
  else if py_eq_int mt 8 then
    decode_into allData "varMessage" pdata "!iBQbb iiBAcAc"
      (message_names ["code"; "argument"; "titleSize"; "messageTitle";
                      "messageText"])
  else if py_eq_int mt 7 then
    decode_into allData "keyMessage" pdata "!iBQbb iiBAcAc"
      (message_names ["code"; "argument"; "titleSize"; "messageTitle";
                      "messageText"])
  else if py_eq_int mt 5 then
    decode_into allData "keyMessage" pdata "!iBQbb iiAc"
      (message_names ["code"; "argument"; "messageText"])
  else
    log (DebugNotImplemented tmp);; mret allData.

(** The [ptype == 0] branch: the layout follows the declared size, and
    the three known sizes assign [self.version] before decoding. *)
Definition parse_robot_mode (allData : batch) (psize : Z) (pdata : bytes)
    : M batch :=
  if psize =? 38 then
    set_version (3, 0);;
    decode_into allData "RobotModeData" pdata "!IBQ???????BBdd"
      robot_mode_names_30
  else if psize =? 46 then
    set_version (3, 2);;
    decode_into allData "RobotModeData" pdata "!IBQ???????BBdd"
      robot_mode_names_32
  else if psize =? 47 then
    set_version (3, 5);;
    decode_into allData "RobotModeData" pdata "!IBQ???????BBddc"
      robot_mode_names_35
  else
    decode_into allData "RobotModeData" pdata "!iBQ???????Bd"
      robot_mode_names_legacy.

(** The [if ptype == ...] chain of one iteration of [while data:], after
    [analyze_header]; the result is the dictionary and the [data] of the
    next iteration.  [ver] is [self.version], which no test of the chain
    changes. *)
Definition parse_packet (allData : batch) (psize ptype : Z)
    (pdata data : bytes) : M (batch * bytes) :=
  ver ← get_version;
  if ptype =? 16 then
    allData ← decode_into allData "SecondaryClientData" pdata "!iB"
                ["size"; "type"];
    mret (allData, slice_from 5 (pdata ++ data))
  else if ptype =? 0 then
    allData ← parse_robot_mode allData psize pdata;
    mret (allData, data)
  else if ptype =? 1 then
    allData ← decode_into allData "JointData" pdata
                "!iB dddffffB dddffffB dddffffBdddffffB dddffffB dddffffB"
                joint_names;
    mret (allData, data)
  else if ptype =? 4 then
    allData ←
      (if version_lt ver (3, 2) then
         decode_into allData "CartesianInfo" pdata "iBdddddd"
           ["size"; "type"; "X"; "Y"; "Z"; "Rx"; "Ry"; "Rz"]
       else
         decode_into allData "CartesianInfo" pdata "iBdddddddddddd"
           ["size"; "type"; "X"; "Y"; "Z"; "Rx"; "Ry"; "Rz";
            "tcpOffsetX"; "tcpOffsetY"; "tcpOffsetZ";
            "tcpOffsetRx"; "tcpOffsetRy"; "tcpOffsetRz"]);
    mret (allData, data)
  else if ptype =? 5 then
    allData ← decode_into allData "LaserPointer(OBSOLETE)" pdata "iBddd"
                ["size"; "type"];
    mret (allData, data)
  else if ptype =? 3 then
    let fmt := if version_ge ver (3, 0) then "iBiibbddbbddffffBBb"
               else "iBhhbbddbbddffffBBb" in
    allData ← decode_into allData "MasterBoardData" pdata fmt
                master_board_names;
    mret (allData, data)
  else if ptype =? 2 then
    allData ← decode_into allData "ToolData" pdata "iBbbddfBffB"
                ["size"; "type"; "analoginputRange2"; "analoginputRange3";
                 "analogInput2"; "analogInput3"; "toolVoltage48V";
                 "toolOutputVoltage"; "toolCurrent"; "toolTemperature";
                 "toolMode"];
    mret (allData, data)
  else if ptype =? 9 then
    mret (allData, data)
  else if (ptype =? 8) && version_ge ver (3, 2) then
    allData ← decode_into allData "AdditionalInfo" pdata "iB??"
                ["size"; "type"; "teachButtonPressed"; "teachButtonEnabled"];
    mret (allData, data)
  else if (ptype =? 7) && version_ge ver (3, 2) then
    allData ← decode_into allData "ForceModeData" pdata "iBddddddd"
                ["size"; "type"; "x"; "y"; "z"; "rx"; "ry"; "rz";
                 "robotDexterity"];
    mret (allData, data)
  else if ptype =? 20 then
    allData ← parse_message allData pdata;
    mret (allData, data)
  else
    log (DebugUnknownPacket ptype psize);;
    mret (allData, data).

(** One iteration of [while data:]. *)
Definition parse_body (allData : batch) (data : bytes) : M (batch * bytes) :=
  '(psize, ptype, pdata, data) ← lift (analyze_header data);
  parse_packet allData psize ptype pdata data.

(** The [while data:] loop.  Every iteration shortens [data], so
    [length data] iterations are enough ([parse_loop_fuel] below);
    [None] stands for an exhausted iteration budget. *)
Fixpoint parse_loop (fuel : nat) (allData : batch) (data : bytes)
    : ParserUtils -> ParserUtils * option (result batch) :=
  fun s =>
  match data with
  | [] => (s, Some (Ok allData))
  | _ :: _ =>
    match fuel with
    | O => (s, None)
    | S fuel =>
      match parse_body allData data s with
      | (s', Ok (allData, data)) => parse_loop fuel allData data s'
      | (s', Raise e) => (s', Some (Raise e))
      end
    end
  end.

Definition parse (data : bytes) : ParserUtils -> ParserUtils * option (result batch) :=
  parse_loop (length data) ∅ data.

(** ** [ParserUtils.find_first_packet] *)

(** The [while True] loop, by recursion on [data]: the only iteration that
    does not return sets [data = data[1:]].  On the empty buffer
    [len(data) >= 5] fails and the method returns [None]. *)
Fixpoint find_first_packet_loop (counter limit : nat) (data : bytes)
    : M (option (bytes * bytes)) :=
  match data with
  | [] => mret None
  | _ :: data1 =>
    if (5 <=? length data)%nat then
      '(psize, ptype) ← lift (get_header data);
      if (psize <? 5) || (2000 <? psize) || negb (ptype =? 16) then
        let counter := S counter in
        if (limit <? counter)%nat then
          log (WarningTried counter psize ptype);;
          log (WarningDataLength (length data1));;
          find_first_packet_loop counter (limit * 10)%nat data1
        else find_first_packet_loop counter limit data1
      else if psize <=? Z.of_nat (length data) then
        log (DebugGotPacket psize ptype);;
        (if (counter =? 0)%nat then mret tt else log (InfoGarbage counter));;
        mret (Some (slice_to psize data, slice_from psize data))
      else
        log (DebugNotComplete psize (length data) ptype);;
        mret None
    else mret None
  end.

Definition find_first_packet (data : bytes) : M (option (bytes * bytes)) :=
  find_first_packet_loop 0 10 data.

(** ** [SecondaryMonitor] *)

(** [Program]: the bytes to send; its [condition] is represented by the
    list [notified] of the monitor. *)
Record Program : Type := mkProgram { program : bytes }.

(** The monitor's fields, followed by what the outside world has seen of
    it: the writes to the socket, the programs whose condition was
    notified, and the number of [_dataEvent.notifyAll()] calls.  Both
    classes log to the logger named "monitor", so the monitor's records go
    to the list kept in [_parser]. *)
Record SecondaryMonitor : Type := mkMonitor {
  _parser : ParserUtils;
  _dict : batch;
  _prog_queue : list Program;
  _dataqueue : bytes;
  running : bool;
  lastpacket_timestamp : Z;
  socket_sent : list bytes;
  notified : list Program;
  data_events : nat
}.

(** The fields set by [SecondaryMonitor.__init__] before [self.start()]. *)
Definition new_SecondaryMonitor : SecondaryMonitor :=
  {| _parser := new_ParserUtils; _dict := ∅; _prog_queue := [];
     _dataqueue := []; running := false; lastpacket_timestamp := 0;
     socket_sent := []; notified := []; data_events := 0 |}.

Definition with_parser (p : ParserUtils) (m : SecondaryMonitor) : SecondaryMonitor :=
  {| _parser := p; _dict := _dict m; _prog_queue := _prog_queue m;
     _dataqueue := _dataqueue m; running := running m;
     lastpacket_timestamp := lastpacket_timestamp m;
     socket_sent := socket_sent m; notified := notified m;
     data_events := data_events m |}.

Definition monitor_log (r : log_record) (m : SecondaryMonitor) : SecondaryMonitor :=
  with_parser (log r (_parser m)).1 m.

(** The argument of [send_program]: a [bytes] object, or a [str], which
    is represented by its UTF-8 encoding. *)
Inductive prog_arg : Type :=
| PStr (utf8 : string)
| PBytes (b : bytes).

(** [prog.encode()] *)
Definition encode (s : string) : bytes := list_byte_of_string s.

(** [prog.strip()], on either kind of argument. *)
Definition prog_strip (prog : prog_arg) : prog_arg :=
  match prog with
  | PStr s => PStr (strip s)
  | PBytes b => PBytes (bytes_strip b)
  end.

Definition prog_bytes (prog : prog_arg) : bytes :=
  match prog with
  | PStr s => encode s
  | PBytes b => b
  end.

(** [send_program] up to [data.condition.wait()]: the caller then sleeps
    until [data] is in [notified].  The value of [prog.strip()] is
    dropped by the source, and [prog] is unchanged by it. *)
Definition send_program (prog : prog_arg) (m : SecondaryMonitor) : SecondaryMonitor :=
  let _ := prog_strip prog in
  let m := monitor_log (DebugEnqueueing (prog_bytes prog)) m in
  let prog := prog_bytes prog in
  let data := {| program := prog ++ [x0a] |} in
  {| _parser := _parser m; _dict := _dict m;
     _prog_queue := _prog_queue m ++ [data];
     _dataqueue := _dataqueue m; running := running m;
     lastpacket_timestamp := lastpacket_timestamp m;
     socket_sent := socket_sent m; notified := notified m;
     data_events := data_events m |}.

(** The first block of the loop of [run]: at most one queued program is
    written to the socket and its condition notified. *)
Definition drain_one (m : SecondaryMonitor) : SecondaryMonitor :=
  match _prog_queue m with
  | [] => m
  | data :: queue =>
    {| _parser := _parser m; _dict := _dict m; _prog_queue := queue;
       _dataqueue := _dataqueue m; running := running m;
       lastpacket_timestamp := lastpacket_timestamp m;
       socket_sent := socket_sent m ++ [program data];
       notified := notified m ++ [data];
       data_events := data_events m |}
  end.

(** [SecondaryMonitor._get_data]: [incoming] lists what the successive
    [recv(1024)] calls return.  The result is the packet, the monitor and
    the unread chunks; [None] when the loop is still waiting in [recv]
    after the last chunk.  [find_first_packet] raises nothing
    ([find_first_packet_returns] below). *)
Fixpoint monitor_get_data (incoming : list bytes) (m : SecondaryMonitor)
    : option bytes * SecondaryMonitor * list bytes :=
  let '(p, ans) := find_first_packet (_dataqueue m) (_parser m) in
  let m := with_parser p m in
  let set_queue (q : bytes) :=
    {| _parser := _parser m; _dict := _dict m; _prog_queue := _prog_queue m;
       _dataqueue := q; running := running m;
       lastpacket_timestamp := lastpacket_timestamp m;
       socket_sent := socket_sent m; notified := notified m;
       data_events := data_events m |} in
  match ans with
  | Ok (Some (packet, rest)) => (Some packet, set_queue rest, incoming)
  | Ok None | Raise _ =>
    match incoming with
    | [] => (None, m, [])
    | tmp :: incoming => monitor_get_data incoming (set_queue (_dataqueue m ++ tmp))
    end
  end.

(** [x is True] and [x is False] *)
Definition is_bool (expected : bool) (v : value) : bool :=
  match v with
  | VBool b => Bool.eqb b expected
  | _ => false
  end.

(** [status = (status and (self._dict["RobotModeData"][key] ...))]: the
    right operand is evaluated only when [status] is true. *)
Definition and_field (d : batch) (status : bool) (key : string)
    (test : value -> bool) : result bool :=
  if status then
    try! rmd <- getitem d "RobotModeData" in
    try! v <- getitem rmd key in
    Ok (test v)
  else Ok false.

Definition check_if_running (d : batch) (rmode : Z) : result bool :=
  let status := true in
  try! status <- and_field d status "robotMode" (fun v => py_eq_int v rmode) in
  try! status <- and_field d status "isRealRobotEnabled" (is_bool true) in
  try! status <- and_field d status "isEmergencyStopped" (is_bool false) in
  try! status <- and_field d status "isSecurityStopped" (is_bool false) in
  try! status <- and_field d status "isRobotConnected" (is_bool true) in
  try! status <- and_field d status "isPowerOnRobot" (is_bool true) in
  Ok status.

(** How one pass through the body of [while not self._trystop] ends:
    at the end of the body or at a [continue] ([Next]), in [recv] with
    no more input ([Waiting]), with an exception that [run] does not
    catch ([Died]), or inside [parse] ([Diverged], excluded by
    [parse_returns]). *)
Inductive pass : Type :=
| Next (m : SecondaryMonitor)
| Waiting (m : SecondaryMonitor)
| Died (e : exn) (m : SecondaryMonitor)
| Diverged (m : SecondaryMonitor).

Definition set_dict (d : batch) (m : SecondaryMonitor) : SecondaryMonitor :=
  {| _parser := _parser m; _dict := d; _prog_queue := _prog_queue m;
     _dataqueue := _dataqueue m; running := running m;
     lastpacket_timestamp := lastpacket_timestamp m;
     socket_sent := socket_sent m; notified := notified m;
     data_events := data_events m |}.

(** The body of the loop from [try:] on, for the packet [data] returned by
    [self._get_data()]; [now] is what [time.time()] returns. *)
Definition run_packet (now : Z) (data : bytes) (m : SecondaryMonitor) : pass :=
  match parse data (_parser m) with
  | (p, None) => Diverged (with_parser p m)
  | (p, Some (Raise ParsingException)) =>
    Next (monitor_log WarningParseError (with_parser p m))
  | (p, Some (Raise e)) => Died e (with_parser p m)
  | (p, Some (Ok tmpdict)) =>
    let m := set_dict tmpdict (with_parser p m) in
    match _dict m !! "RobotModeData" with
    | None => Next (monitor_log WarningNoRobotModeData m)
    | Some rmd =>
      let rmode := if version_ge (version (_parser m)) (3, 0) then 7 else 0 in
      match check_if_running (_dict m) rmode with
      | Raise e =>
        Died e {| _parser := _parser m; _dict := _dict m;
                  _prog_queue := _prog_queue m; _dataqueue := _dataqueue m;
                  running := running m; lastpacket_timestamp := now;
                  socket_sent := socket_sent m; notified := notified m;
                  data_events := data_events m |}
      | Ok ok =>
        let m := if ok || negb (running m) then m
                 else monitor_log (ErrorNotRunning rmd) m in
        Next {| _parser := _parser m; _dict := _dict m;
                _prog_queue := _prog_queue m; _dataqueue := _dataqueue m;
                running := ok; lastpacket_timestamp := now;
                socket_sent := socket_sent m; notified := notified m;
                data_events := S (data_events m) |}
      end
    end
  end.

(** One pass through the body of the loop of [run]. *)
Definition run_pass (now : Z) (incoming : list bytes) (m : SecondaryMonitor)
    : pass * list bytes :=
  let m := drain_one m in
  match monitor_get_data incoming m with
  | (None, m, incoming) => (Waiting m, incoming)
  | (Some data, m, incoming) => (run_packet now data m, incoming)
  end.

(** ** Getters of [SecondaryMonitor], called with [wait=False] *)

(** [None] in the result is Python's [None]. *)
Definition get_cartesian_info (m : SecondaryMonitor) : result (option record) :=
  match _dict m !! "CartesianInfo" with
  | Some r => Ok (Some r)
  | None => Ok None
  end.

Definition get_joint_data (m : SecondaryMonitor) : result (option record) :=
  match _dict m !! "JointData" with
  | Some r => Ok (Some r)
  | None => Ok None
  end.

(** [1 << nb] *)
Definition py_lshift (a nb : Z) : result Z :=
  if nb <? 0 then Raise ValueError else Ok (Z.shiftl a nb).

(** [output & mask], for an unpacked [output] *)
Definition py_and (output : value) (mask : Z) : result Z :=
  try! z <- py_index output in Ok (Z.land z mask).

Definition get_bit (m : SecondaryMonitor) (key : string) (nb : Z) : result Z :=
  try! mb <- getitem (_dict m) "MasterBoardData" in
  try! output <- getitem mb key in
  try! mask <- py_lshift 1 nb in
  try! bit <- py_and output mask in
  Ok (if bit =? 0 then 0 else 1).

Definition get_digital_out (nb : Z) (m : SecondaryMonitor) : result Z :=
  get_bit m "digitalOutputBits" nb.

Definition get_digital_in (nb : Z) (m : SecondaryMonitor) : result Z :=
  get_bit m "digitalInputBits" nb.

Definition get_digital_out_bits (m : SecondaryMonitor) : result value :=
  try! mb <- getitem (_dict m) "MasterBoardData" in
  getitem mb "digitalOutputBits".

Definition get_digital_in_bits (m : SecondaryMonitor) : result value :=
  try! mb <- getitem (_dict m) "MasterBoardData" in
  getitem mb "digitalInputBits".

(** The key is ["analogInput" + str(nb)]. *)
Definition get_analog_in (nb : Z) (m : SecondaryMonitor) : result value :=
  try! mb <- getitem (_dict m) "MasterBoardData" in
  getitem mb ("analogInput" +:+ pretty nb).

Definition is_program_running (m : SecondaryMonitor) : result value :=
  try! rmd <- getitem (_dict m) "RobotModeData" in
  getitem rmd "isProgramRunning".

(** The parser of a connection, after the packets [frames] were given to
    [parse] one after the other. *)
Fixpoint parse_frames (frames : list bytes) (s : ParserUtils) : ParserUtils :=
  match frames with
  | [] => s
  | data :: frames => parse_frames frames (parse data s).1
  end.

(** ** Measures of a format string, used to state what [_get_data] decodes *)

(** The number of fields a format describes: skipped characters describe
    none, and an array takes its ["A"] and the character after it. *)
Fixpoint field_count (fmt : list ascii) : nat :=
  match fmt with
  | [] => 0
  | f :: fmt' =>
    if is_code f " !><" then field_count fmt'
    else if is_code f "A" then
      S (match fmt' with [] => 0 | _ :: fmt'' => field_count fmt'' end)
    else S (field_count fmt')
  end.

(** The bytes taken by the first [n] fields of a format without arrays;
    [None] for a format with an array or an unknown code among them. *)
Fixpoint fixed_size (fmt : list ascii) (n : nat) : option nat :=
  match fmt with
  | [] => Some 0%nat
  | f :: fmt' =>
    match n with
    | O => Some 0%nat
    | S n' =>
      if is_code f " !><" then fixed_size fmt' n
      else if is_code f "A" then None
      else
        match calcsize f with
        | Ok sz => Nat.add sz <$> fixed_size fmt' n'
        | Raise _ => None
        end
    end
  end.

(** The formats within the model of [struct]: after [strip], every
    character is a padding character skipped by [_get_data], the array
    marker [A] or one of the twelve codes. *)
Definition struct_format (struct_fmt : string) : bool :=
  forallb (fun f => is_code f " !><AcbB?hHiIqQfd")
          (list_ascii_of_string (strip struct_fmt)).

(** [layout fmt names]: the keys [_get_data] assigns when it does not
    raise, the first [field_count fmt] names. *)
Definition layout (struct_fmt : string) (key_names : list string) : list string :=
  take (field_count (list_ascii_of_string (strip struct_fmt))) key_names.

(** ** The frame scanner's specification *)

(** The validity predicate of the five-byte header at the start of
    [data]: [5 <= declared_size <= 2000] and [packet_type == 16].  Fewer
    than five bytes are no header. *)
Definition header_valid (data : bytes) : bool :=
  match get_header data with
  | Ok (declared_size, packet_type) =>
    (5 <=? declared_size) && (declared_size <=? 2000) && (packet_type =? 16)
  | Raise _ => false
  end.

Definition declared_size (data : bytes) : nat :=
  match get_header data with
  | Ok (declared_size, _) => Z.to_nat declared_size
  | Raise _ => 0%nat
  end.

(** [k] is the first position of [data] with a valid header. *)
Definition first_valid (data : bytes) (k : nat) : Prop :=
  header_valid (drop k data) = true /\
  forall j, (j < k)%nat -> header_valid (drop j data) = false.

(** ** The command of [send_program], following the specification *)

(** The program with its trailing whitespace removed, then one newline. *)
Definition normalized_command (prog : prog_arg) : bytes :=
  bytes_rstrip (prog_bytes prog) ++ [x0a].

(** The monitor in which a pass through the loop of [run] ends. *)
Definition pass_monitor (p : pass) : SecondaryMonitor :=
  match p with
  | Next m | Waiting m | Died _ m | Diverged m => m
  end.

(** ** Packets used in the examples *)

(** A group (type 16) holding one RobotModeData packet (type 0) of
    declared size [sz], its payload bytes all zero. *)
Definition robot_mode_packet (sz : byte) : bytes :=
  [x00; x00; x00; sz; x00] ++ repeat x00 (Z.to_nat (byte_val sz) - 5).

Definition group (total : byte) (packets : bytes) : bytes :=
  [x00; x00; x00; total; x10] ++ packets.

Definition frame_rmd38 : bytes := group x2b (robot_mode_packet x26).
Definition frame_rmd46 : bytes := group x33 (robot_mode_packet x2e).
Definition frame_rmd47 : bytes := group x34 (robot_mode_packet x2f).

(** A group with no packet in it. *)
Definition frame_empty_group : bytes := group x05 [].

(** A group whose RobotModeData packet declares 38 bytes and has 5. *)
Definition frame_truncated : bytes := group x0a [x00; x00; x00; x26; x00].

(** A group with one AdditionalInfo packet (type 8). *)
Definition frame_additional_info : bytes :=
  group x0c [x00; x00; x00; x07; x08; x01; x00].

(** A popup message: warning set, title "ABC", text "DE". *)
Definition popup_prefix : bytes :=
  [x00; x00; x00; x17; x14; x00; x00; x00; x00; x00; x00; x00; x09; xff].

Definition frame_popup : bytes :=
  popup_prefix ++ [x02; x01; x00; x03] ++ [x41; x42; x43] ++ [x44; x45].

(** A popup message of 20 bytes whose [titleSize] byte is 200 while two
    bytes follow it, and one of 15 bytes that ends with its message
    type. *)
Definition popup_prefix_20 : bytes :=
  [x00; x00; x00; x14; x14; x00; x00; x00; x00; x00; x00; x00; x09; xff].

Definition frame_popup_short : bytes :=
  popup_prefix_20 ++ [x02; x00; x03; xc8] ++ [x41; x42].

Definition frame_popup_bare : bytes :=
  [x00; x00; x00; x0f; x14; x00; x00; x00; x00; x00; x00; x00; x09; xff; x02].

(** The monitor after its first pass over [frame_rmd38]. *)
Definition monitor_after_rmd38 : SecondaryMonitor :=
  pass_monitor (run_packet 1 frame_rmd38 new_SecondaryMonitor).

(** ** Invariants of the loop of [parse] *)

(** [self.version] is assigned in the [ptype == 0] branch only, and only
    the three known versions. *)
Definition version_step (v v' : Z * Z) : Prop :=
  v' = v \/ v' = (3, 0) \/ v' = (3, 2) \/ v' = (3, 5).

(** The link between the version and the keys of the dictionary that the
    loop of [parse] keeps. *)
Definition mode_before_info (s : ParserUtils) (allData : batch) : Prop :=
  (version_ge (version s) (3, 2) = true -> is_Some (allData !! "RobotModeData")) /\
  (is_Some (allData !! "AdditionalInfo") \/ is_Some (allData !! "ForceModeData") ->
   is_Some (allData !! "RobotModeData")).


(** Every MasterBoardData record of the dictionary holds its two
    digital words as integers. *)
Definition digital_bits_stored (allData : batch) : Prop :=
  forall mb, allData !! "MasterBoardData" = Some mb ->
  exists out inp,
    mb !! "digitalOutputBits" = Some (VInt out) /\
    mb !! "digitalInputBits" = Some (VInt inp).

(** The monitors a connection can be in: the constructed one, and those
    reached from it by passes of the loop of [run] and by calls of
    [send_program]. *)
Inductive reachable : SecondaryMonitor -> Prop :=
| reachable_new : reachable new_SecondaryMonitor
| reachable_pass now incoming m :
    reachable m -> reachable (pass_monitor (run_pass now incoming m).1)
| reachable_send prog m :
    reachable m -> reachable (send_program prog m).

(** ** A check on layouts, used to bound the exceptions of [_get_data] *)

(** [safe_layout fmt key_names i prev_int]: every code of the format has
    a size, and every array before the end of the format comes after a
    field that was unpacked to an integer or a boolean ([prev_int]) or
    whose name does not end in [Size]. *)
Fixpoint safe_layout (fmt : list ascii) (key_names : list string)
    (i : nat) (prev_int : bool) : bool :=
  match fmt with
  | [] => true
  | f :: fmt' =>
    if (length key_names <=? i)%nat then true
    else if is_code f " !><" then safe_layout fmt' key_names i prev_int
    else if is_code f "A" then
      ((length fmt' =? 1)%nat ||
       match i with
       | O => false
       | S j =>
         match key_names !! j with
         | Some asn => negb (endswith asn "Size") || prev_int
         | None => false
         end
       end) &&
      match fmt' with
      | [] => true
      | _ :: fmt'' => safe_layout fmt'' key_names (S i) false
      end
    else
      match calcsize f with
      | Ok _ => safe_layout fmt' key_names (S i) (is_code f "bBhHiIqQ?")
      | Raise _ => false
      end
  end.

(** Every RobotModeData record of the dictionary holds [robotMode] as an
    integer and the flags read by [check_if_running] and
    [is_program_running] as booleans. *)
Definition mode_flags : list string :=
  ["isRobotConnected"; "isRealRobotEnabled"; "isPowerOnRobot";
   "isEmergencyStopped"; "isSecurityStopped"; "isProgramRunning";
   "isProgramPaused"].

Definition mode_flags_stored (allData : batch) : Prop :=
  forall rmd, allData !! "RobotModeData" = Some rmd ->
  (exists z, rmd !! "robotMode" = Some (VInt z)) /\
  (forall key, key ∈ mode_flags -> exists b, rmd !! key = Some (VBool b)).

(** ** Histories of a monitor *)

(** What happens to a monitor: a pass of the loop of [run], or a call of
    [send_program] by some thread. *)
Inductive event : Type :=
| EvPass (now : Z) (incoming : list bytes)
| EvSend (prog : prog_arg).

Definition run_event (m : SecondaryMonitor) (ev : event) : SecondaryMonitor :=
  match ev with
  | EvPass now incoming => pass_monitor (run_pass now incoming m).1
  | EvSend prog => send_program prog m
  end.

Definition run_events (evs : list event) (m : SecondaryMonitor) : SecondaryMonitor :=
  foldl run_event m evs.

(** The commands queued by a history, in the order of the calls. *)
Definition enqueued (evs : list event) : list bytes :=
  omap (fun ev => match ev with
                  | EvSend prog => Some (prog_bytes prog ++ [x0a])
                  | EvPass _ _ => None
                  end) evs.

(** The number of passes of a history. *)
Definition passes (evs : list event) : nat :=
  length (omap (fun ev => match ev with
                          | EvPass _ _ => Some tt
                          | EvSend _ => None
                          end) evs).


(** What every MasterBoardData record made by [_get_data] holds: the
    sixteen names, the two digital words as signed 32-bit integers and
    the two analog inputs as eight-byte floats. *)
Definition master_board_record (mb : record) : Prop :=
  dom mb = list_to_set master_board_names /\
  (exists out inp,
     mb !! "digitalOutputBits" = Some (VInt out) /\
     mb !! "digitalInputBits" = Some (VInt inp) /\
     - 2 ^ 31 <= out < 2 ^ 31 /\ - 2 ^ 31 <= inp < 2 ^ 31) /\
  (exists bs0 bs1,
     mb !! "analogInput0" = Some (VFloat bs0) /\
     mb !! "analogInput1" = Some (VFloat bs1) /\
     length bs0 = 8%nat /\ length bs1 = 8%nat).

(** ** More packets for the examples *)

(** A group with one MasterBoardData packet (type 3) in the layout of
    the versions below (3, 0): input word 0x0001, output word 0x8020. *)
Definition frame_master_board : bytes :=
  group x42 ([x00; x00; x00; x3d; x03] ++ [x00; x01; x80; x20] ++ repeat x00 52).

(** The monitor after one pass over [frame_master_board]. *)
Definition monitor_with_board : SecondaryMonitor :=
  pass_monitor (run_pass 1 [frame_master_board] new_SecondaryMonitor).1.

(** A buffer with two bytes of garbage, a group and one more byte. *)
Definition buffer_with_garbage : bytes :=
  [xff; x00] ++ frame_empty_group ++ [x01].

(** * Properties *)

(** ** Slices and headers *)

Lemma slice_to_nonneg {A} (n : Z) (l : list A) :
  0 <= n -> slice_to n l = take (Z.to_nat n) l.
Proof.
  intros Hn. unfold slice_to, slice_bound.
  destruct (Z.ltb_spec n 0); [lia | reflexivity].
Qed.

Lemma slice_from_nonneg {A} (n : Z) (l : list A) :
  0 <= n -> slice_from n l = drop (Z.to_nat n) l.
Proof.
  intros Hn. unfold slice_from, slice_bound.
  destruct (Z.ltb_spec n 0); [lia | reflexivity].
Qed.

Lemma analyze_header_ok data psize ptype pdata rest :
  analyze_header data = Ok (psize, ptype, pdata, rest) ->
  get_header data = Ok (psize, ptype) /\
  5 <= psize <= Z.of_nat (length data) /\
  pdata = take (Z.to_nat psize) data /\
  rest = drop (Z.to_nat psize) data.
Proof.
  unfold analyze_header.
  destruct (Nat.ltb_spec (length data) 5); [discriminate |].
  destruct (get_header data) as [[sz ty] | e]; simpl; [| discriminate].
  destruct (Z.ltb_spec sz 5); [discriminate |].
  destruct (Z.ltb_spec (Z.of_nat (length data)) sz); [discriminate |].
  intros [= <- <- <- <-].
  rewrite slice_to_nonneg, slice_from_nonneg by lia. auto with lia.
Qed.

Lemma analyze_header_intro data psize ptype :
  get_header data = Ok (psize, ptype) ->
  5 <= psize <= Z.of_nat (length data) ->
  analyze_header data =
    Ok (psize, ptype, take (Z.to_nat psize) data, drop (Z.to_nat psize) data).
Proof.
  intros Hh [Hlo Hhi]. unfold analyze_header.
  destruct (Nat.ltb_spec (length data) 5); [lia |].
  rewrite Hh; simpl.
  destruct (Z.ltb_spec psize 5); [lia |].
  destruct (Z.ltb_spec (Z.of_nat (length data)) psize); [lia |].
  rewrite slice_to_nonneg, slice_from_nonneg by lia. reflexivity.
Qed.

(** ** The monad's equations *)

Arguments _get_data : simpl never.

Lemma bind_eq {A B} (m : M A) (k : A -> M B) (s : ParserUtils) :
  (m ≫= k) s =
  match m s with
  | (s', Ok a) => k a s'
  | (s', Raise e) => (s', Raise e)
  end.
Proof. reflexivity. Qed.

Lemma decode_into_eq allData key pdata fmt names s :
  decode_into allData key pdata fmt names s =
  (s, match _get_data pdata fmt names with
      | Ok r => Ok (<[key := r]> allData)
      | Raise e => Raise e
      end).
Proof.
  unfold decode_into. rewrite bind_eq. unfold lift.
  destruct (_get_data pdata fmt names); reflexivity.
Qed.

(** ** What one packet does to the version and to the dictionary *)

Lemma version_step_trans v1 v2 v3 :
  version_step v1 v2 -> version_step v2 v3 -> version_step v1 v3.
Proof. unfold version_step. intuition congruence. Qed.

Ltac mstep := repeat (rewrite ?bind_eq, ?decode_into_eq; simpl).

Ltac split_ifs :=
  repeat match goal with
  | |- context [if ?c then _ else _] => destruct c eqn:?
  end.

Lemma parse_message_version allData pdata s :
  version (parse_message allData pdata s).1 = version s.
Proof.
  unfold parse_message. rewrite bind_eq. unfold lift.
  destruct (_get_data pdata _ _) as [tmp | e]; simpl; [| done].
  rewrite bind_eq.
  destruct (getitem tmp "robotMessageType") as [mt | e]; simpl; [| done].
  split_ifs; rewrite ?decode_into_eq; reflexivity.
Qed.

Lemma parse_message_inv allData pdata s s' allData' :
  parse_message allData pdata s = (s', Ok allData') ->
  allData' = allData \/
  exists key r, allData' = <[key := r]> allData /\
                key <> "AdditionalInfo" /\ key <> "ForceModeData" /\
                key <> "RobotModeData" /\ key <> "MasterBoardData".
Proof.
  unfold parse_message. rewrite bind_eq. unfold lift.
  destruct (_get_data pdata _ _) as [tmp | e]; simpl; [| done].
  rewrite bind_eq.
  destruct (getitem tmp "robotMessageType") as [mt | e]; simpl; [| done].
  split_ifs; rewrite ?decode_into_eq.
  all: try (destruct (_get_data pdata _ _); intros [= <- <-];
            right; eexists _, _; repeat split; done).
  intros [= <- <-]. by left.
Qed.

Lemma parse_robot_mode_version allData psize pdata s :
  version_step (version s) (version (parse_robot_mode allData psize pdata s).1).
Proof.
  unfold parse_robot_mode, version_step.
  split_ifs; mstep; auto.
Qed.

Lemma parse_robot_mode_inv allData psize pdata s s' allData' :
  parse_robot_mode allData psize pdata s = (s', Ok allData') ->
  exists r, allData' = <["RobotModeData" := r]> allData.
Proof.
  unfold parse_robot_mode.
  split_ifs; mstep;
    destruct (_get_data pdata _ _); intros [= <- <-]; eauto.
Qed.



Lemma parse_packet_version_ne allData psize ptype pdata data s :
  ptype <> 0 ->
  version (parse_packet allData psize ptype pdata data s).1 = version s.
Proof.
  intros Hne. unfold parse_packet. rewrite bind_eq. unfold get_version.
  destruct (Z.eqb_spec ptype 0); [done |].
  split_ifs; mstep; try (destruct (_get_data pdata _ _); reflexivity);
    try reflexivity.
  pose proof (parse_message_version allData pdata s) as Hv.
  destruct (parse_message allData pdata s) as [s' [a | e]]; exact Hv.
Qed.

Lemma parse_packet_version allData psize ptype pdata data s :
  version_step (version s)
    (version (parse_packet allData psize ptype pdata data s).1).
Proof.
  destruct (Z.eq_dec ptype 0) as [-> | Hne].
  - unfold parse_packet. rewrite bind_eq. unfold get_version. simpl.
    rewrite bind_eq.
    pose proof (parse_robot_mode_version allData psize pdata s) as Hv.
    destruct (parse_robot_mode allData psize pdata s) as [s' [a | e]]; exact Hv.
  - rewrite parse_packet_version_ne by done. by left.
Qed.

(** A packet that is decoded without an exception assigns at most one
    key; the [data] of the next iteration is what follows the packet, or,
    for the group header (type 16), what follows its five bytes. *)
Lemma parse_packet_inv allData psize ptype pdata data s s' allData' data' :
  parse_packet allData psize ptype pdata data s = (s', Ok (allData', data')) ->
  data' = (if ptype =? 16 then slice_from 5 (pdata ++ data) else data) /\
  ((ptype = 0 /\ exists r, allData' = <["RobotModeData" := r]> allData) \/
   (ptype <> 0 /\
    (allData' = allData \/
     exists key r, allData' = <[key := r]> allData /\
       (key = "AdditionalInfo" \/ key = "ForceModeData" ->
        version_ge (version s) (3, 2) = true) /\
       (key = "MasterBoardData" ->
        exists fmt,
          (fmt = "iBiibbddbbddffffBBb" \/ fmt = "iBhhbbddbbddffffBBb") /\
          _get_data pdata fmt master_board_names = Ok r)))).
Proof.
  unfold parse_packet. rewrite bind_eq. unfold get_version.
  destruct (Z.eqb_spec ptype 16) as [-> | ?]; simpl.
  { mstep. destruct (_get_data pdata _ _); intros [= <- <- <-].
    split; [done |]. right. split; [done |]. right. eexists _, _.
    split; [done |]. split; [by intros [|] | done]. }
  destruct (Z.eqb_spec ptype 0) as [-> | ?]; simpl.
  { rewrite bind_eq.
    destruct (parse_robot_mode allData psize pdata s) as [s1 [a | e]] eqn:E;
      intros [= <- <- <-].
    apply parse_robot_mode_inv in E as [r ->].
    split; [done |]. left. eauto. }
  split_ifs; mstep;
    try (destruct (_get_data pdata _ _) eqn:E; intros [= <- <- <-];
         split; [done |]; right; split; [done |]; right; eexists _, _;
         split; [done |];
         split; [intros [|]; try done | intros Hk; try discriminate Hk]).
  - eexists. split; [| exact E]. by left.
  - eexists. split; [| exact E]. by right.
  - intros [= <- <- <-]. split; [done |]. right. split; [done | by left].
  - match goal with
    | H : (_ && _) = true |- _ => exact (proj2 (andb_prop _ _ H))
    end.
  - match goal with
    | H : (_ && _) = true |- _ => exact (proj2 (andb_prop _ _ H))
    end.
  - destruct (parse_message allData pdata s) as [s1 [a | e]] eqn:E;
      intros [= <- <- <-].
    split; [done |]. right. split; [done |].
    apply parse_message_inv in E as [-> | (key & r & -> & ? & ? & ? & ?)];
      [by left |].
    right. eexists _, _. split; [done |]. split; [by intros [|] | done].
  - intros [= <- <- <-]. split; [done |]. right. split; [done | by left].
Qed.

(** ** The loop of [parse] *)

Lemma parse_body_eq allData data s :
  parse_body allData data s =
  match analyze_header data with
  | Ok (psize, ptype, pdata, rest) => parse_packet allData psize ptype pdata rest s
  | Raise e => (s, Raise e)
  end.
Proof.
  unfold parse_body. rewrite bind_eq. unfold lift.
  destruct (analyze_header data) as [[[[? ?] ?] ?] | ?]; reflexivity.
Qed.

Lemma parse_body_shorter allData data s s' allData' data' :
  parse_body allData data s = (s', Ok (allData', data')) ->
  (length data' < length data)%nat.
Proof.
  rewrite parse_body_eq.
  destruct (analyze_header data) as [[[[psize ptype] pdata] rest] | ?] eqn:Hh;
    [| done].
  apply analyze_header_ok in Hh as (_ & Hsz & -> & ->).
  intros [-> _]%parse_packet_inv.
  destruct (ptype =? 16).
  - rewrite take_drop, slice_from_nonneg by lia. rewrite length_drop. lia.
  - rewrite length_drop. lia.
Qed.

(** [parse] returns: the iteration budget [length data] is never used up. *)
Lemma parse_loop_fuel fuel allData data s :
  (length data <= fuel)%nat ->
  exists r, (parse_loop fuel allData data s).2 = Some r.
Proof.
  revert allData data s.
  induction fuel as [| fuel IH]; intros allData data s Hlen.
  - destruct data; [simpl; eauto | simpl in Hlen; lia].
  - destruct data as [| b data]; [simpl; eauto |].
    cbn [parse_loop].
    destruct (parse_body allData (b :: data) s) as [s' [[allData' data'] | e]] eqn:E;
      [| simpl; eauto].
    apply parse_body_shorter in E. apply IH. lia.
Qed.

Lemma parse_returns data s : exists r, (parse data s).2 = Some r.
Proof. apply parse_loop_fuel. lia. Qed.

Lemma parse_body_version allData data s :
  version_step (version s) (version (parse_body allData data s).1).
Proof.
  rewrite parse_body_eq.
  destruct (analyze_header data) as [[[[psize ptype] pdata] rest] | ?].
  - apply parse_packet_version.
  - by left.
Qed.

Lemma parse_loop_version fuel allData data s :
  version_step (version s) (version (parse_loop fuel allData data s).1).
Proof.
  revert allData data s.
  induction fuel as [| fuel IH]; intros allData data s.
  - destruct data; by left.
  - destruct data as [| b data]; [by left |].
    cbn [parse_loop].
    pose proof (parse_body_version allData (b :: data) s) as Hv.
    destruct (parse_body allData (b :: data) s) as [s' [[allData' data'] | e]];
      [| exact Hv].
    eapply version_step_trans; [exact Hv | apply IH].
Qed.

Lemma parse_version data s :
  version_step (version s) (version (parse data s).1).
Proof. apply parse_loop_version. Qed.

Lemma parse_frames_version frames s :
  version_step (version s) (version (parse_frames frames s)).
Proof.
  revert s. induction frames as [| data frames IH]; intros s; [by left |].
  simpl. eapply version_step_trans; [apply parse_version | apply IH].
Qed.

Lemma version_step_floor v v' :
  version_step v v' -> version_ge v (3, 0) = true -> version_ge v' (3, 0) = true.
Proof. intros [-> | [-> | [-> | ->]]]; done. Qed.

(** ** What [_get_data] decodes *)

Lemma py_nth_nat {A} (l : list A) (i : nat) :
  (i < length l)%nat -> exists a, py_nth l (Z.of_nat i) = Ok a /\ l !! i = Some a.
Proof.
  intros Hi. unfold py_nth.
  assert ((Z.of_nat i <? 0) = false) as Hlt by lia.
  rewrite !Hlt.
  rewrite Nat2Z.id.
  destruct (lookup_lt_is_Some_2 l i Hi) as [a Ha]. rewrite Ha. eauto.
Qed.

Lemma calcsize_unpack f sz bs :
  calcsize f = Ok sz -> exists v, unpack f bs = Ok v.
Proof.
  destruct f as [[] [] [] [] [] [] [] []]; vm_compute; intros H;
    first [discriminate H | eauto].
Qed.

Lemma union_shuffle (X Y D : gset string) : X ∪ (Y ∪ D) = (Y ∪ X) ∪ D.
Proof. by rewrite (assoc_L (∪)), (comm_L (∪) X Y). Qed.

(** The keys of the result are the next [field_count fmt] names and
    those of [d]. *)
Lemma _get_data_loop_dom fmt key_names i d tmpdata d' :
  _get_data_loop fmt key_names i d tmpdata = Ok d' ->
  dom d' = list_to_set (take (field_count fmt) (drop i key_names)) ∪ dom d.
Proof.
  remember (length fmt) as n eqn:Hn.
  revert fmt Hn i d tmpdata.
  induction (lt_wf n) as [n _ IH]; intros fmt -> i d tmpdata.
  destruct fmt as [| f fmt']; simpl.
  { intros [= ->]. by rewrite (left_id_L ∅ (∪)). }
  destruct (Nat.leb_spec (length key_names) i) as [Hi | Hi].
  { intros [= ->]. rewrite drop_ge by lia. rewrite take_nil. simpl.
    by rewrite (left_id_L ∅ (∪)). }
  destruct (py_nth_nat key_names i Hi) as (name & Hname & Hlook).
  rewrite (drop_S _ _ _ Hlook).
  destruct (is_code f " !><").
  { intros H. eapply IH in H; [| | reflexivity]; [| simpl; lia].
    rewrite H. by rewrite (drop_S _ _ _ Hlook). }
  destruct (is_code f "A").
  - destruct (array_size fmt' key_names i d tmpdata) as [sz |]; [| done].
    simpl. destruct (py_index sz) as [k |]; [| done]. simpl.
    rewrite Hname. simpl.
    destruct fmt' as [| c fmt''].
    + intros [= <-]. rewrite dom_insert_L. simpl.
      by rewrite (right_id_L ∅ (∪)).
    + intros H. eapply IH in H; [| | reflexivity]; [| simpl; lia].
      rewrite H, dom_insert_L. apply union_shuffle.
  - destruct (calcsize f) as [sz |]; [| done]. simpl.
    destruct (length tmpdata <? sz)%nat; [done |].
    destruct (unpack f _) as [v |]; [| done]. simpl.
    rewrite Hname. simpl.
    intros H. eapply IH in H; [| | reflexivity]; [| simpl; lia].
    rewrite H, dom_insert_L. apply union_shuffle.
Qed.

Lemma _get_data_dom data fmt key_names d :
  _get_data data fmt key_names = Ok d ->
  dom d = list_to_set (layout fmt key_names).
Proof.
  unfold _get_data, layout. intros H.
  apply _get_data_loop_dom in H.
  by rewrite H, dom_empty_L, (right_id_L ∅ (∪)).
Qed.

(** A key that is not among the names still to assign keeps its value. *)
Lemma _get_data_loop_keeps fmt key_names i d tmpdata d' key :
  _get_data_loop fmt key_names i d tmpdata = Ok d' ->
  key ∉ drop i key_names ->
  d' !! key = d !! key.
Proof.
  remember (length fmt) as n eqn:Hn.
  revert fmt Hn i d tmpdata.
  induction (lt_wf n) as [n _ IH]; intros fmt -> i d tmpdata.
  destruct fmt as [| f fmt']; simpl.
  { by intros [= ->]. }
  destruct (Nat.leb_spec (length key_names) i) as [Hi | Hi].
  { by intros [= ->]. }
  destruct (py_nth_nat key_names i Hi) as (name & Hname & Hlook).
  rewrite (drop_S _ _ _ Hlook).
  destruct (is_code f " !><").
  { intros H Hkey. eapply IH in H; [done | | reflexivity |]; [simpl; lia |].
    by rewrite (drop_S _ _ _ Hlook). }
  intros H [Hne Hrest]%not_elem_of_cons. revert H.
  destruct (is_code f "A").
  - destruct (array_size fmt' key_names i d tmpdata) as [sz |]; [| done].
    simpl. destruct (py_index sz) as [k |]; [| done]. simpl.
    rewrite Hname. simpl.
    destruct fmt' as [| c fmt''].
    + intros [= <-]. by rewrite lookup_insert_ne.
    + intros H. eapply IH in H; [| | reflexivity | done]; [| simpl; lia].
      by rewrite H, lookup_insert_ne.
  - destruct (calcsize f) as [sz |]; [| done]. simpl.
    destruct (length tmpdata <? sz)%nat; [done |].
    destruct (unpack f _) as [v |]; [| done]. simpl.
    rewrite Hname. simpl.
    intros H. eapply IH in H; [| | reflexivity | done]; [| simpl; lia].
    by rewrite H, lookup_insert_ne.
Qed.

(** A format without arrays is decoded as soon as the bytes of its
    fields are there, and raises [ParsingException] otherwise. *)
Lemma _get_data_loop_fixed fmt key_names i d tmpdata k :
  fixed_size fmt (length key_names - i) = Some k ->
  if (length tmpdata <? k)%nat
  then _get_data_loop fmt key_names i d tmpdata = Raise ParsingException
  else exists d', _get_data_loop fmt key_names i d tmpdata = Ok d'.
Proof.
  revert i d tmpdata k.
  induction fmt as [| f fmt' IH]; intros i d tmpdata k; simpl.
  { intros [= <-]. simpl. eauto. }
  destruct (Nat.leb_spec (length key_names) i) as [Hi | Hi].
  { replace (length key_names - i)%nat with 0%nat by lia.
    intros [= <-]. simpl. eauto. }
  destruct (length key_names - i)%nat as [| n'] eqn:Hn; [lia |].
  destruct (is_code f " !><").
  { intros H. rewrite <- Hn in H. by apply IH. }
  destruct (is_code f "A"); [done |].
  destruct (calcsize f) as [sz |] eqn:Hsz; [| done]. simpl.
  destruct (fixed_size fmt' n') as [k' |] eqn:Hk; [| done].
  intros [= <-].
  destruct (calcsize_unpack f sz (take sz tmpdata) Hsz) as [v ->]. simpl.
  destruct (py_nth_nat key_names i Hi) as (name & -> & _). simpl.
  replace n' with (length key_names - S i)%nat in Hk by lia.
  specialize (IH (S i) (<[name := v]> d) (drop sz tmpdata) k' Hk).
  rewrite length_drop in IH.
  destruct (Nat.ltb_spec (length tmpdata) sz).
  { destruct (Nat.ltb_spec (length tmpdata) (sz + k')); [done | lia]. }
  destruct (Nat.ltb_spec (length tmpdata - sz) k');
    destruct (Nat.ltb_spec (length tmpdata) (sz + k')); try lia; exact IH.
Qed.

Lemma _get_data_fixed data fmt key_names k :
  fixed_size (list_ascii_of_string (strip fmt)) (length key_names) = Some k ->
  if (length data <? k)%nat
  then _get_data data fmt key_names = Raise ParsingException
  else exists d, _get_data data fmt key_names = Ok d.
Proof.
  intros H. unfold _get_data. apply _get_data_loop_fixed.
  by rewrite Nat.sub_0_r.
Qed.

Lemma _get_data_decodes data fmt key_names k :
  fixed_size (list_ascii_of_string (strip fmt)) (length key_names) = Some k ->
  (k <= length data)%nat ->
  exists d, _get_data data fmt key_names = Ok d /\
            dom d = list_to_set (layout fmt key_names).
Proof.
  intros Hk Hlen. pose proof (_get_data_fixed data fmt key_names k Hk) as H.
  destruct (Nat.ltb_spec (length data) k); [lia |].
  destruct H as [d Hd]. exists d. split; [done |]. by eapply _get_data_dom.
Qed.

Lemma record_size (d : record) (names : list string) :
  dom d = list_to_set names -> size d = size (list_to_set names : gset string).
Proof. intros H. by rewrite <- size_dom, H. Qed.

Lemma record_lacks (d : record) (names : list string) (key : string) :
  dom d = list_to_set names -> key ∉ names -> d !! key = None.
Proof.
  intros H Hk. apply not_elem_of_dom. rewrite H.
  by rewrite elem_of_list_to_set.
Qed.

Ltac not_in_names :=
  let H := fresh in
  intros H; repeat (apply elem_of_cons in H as [H | H]; [discriminate H |]);
  by apply elem_of_nil in H.

(** ** RobotModeData packets *)

(** A packet that is all of [data]: [parse] decodes it and returns. *)
Lemma parse_single data psize ptype s :
  get_header data = Ok (psize, ptype) ->
  Z.of_nat (length data) = psize ->
  ptype <> 16 ->
  parse data s =
  match parse_packet ∅ psize ptype data [] s with
  | (s', Ok (allData, _)) => (s', Some (Ok allData))
  | (s', Raise e) => (s', Some (Raise e))
  end.
Proof.
  intros Hh Hlen Hty. unfold parse.
  assert (5 <= psize).
  { unfold get_header in Hh. rewrite slice_to_nonneg in Hh by lia.
    destruct (Nat.eqb_spec (length (take (Z.to_nat 5) data)) 5) as [H5 |];
      [| done].
    rewrite length_take in H5. lia. }
  destruct data as [| b data]; [simpl in Hlen; lia |].
  cbn [parse_loop length]. rewrite parse_body_eq.
  rewrite (analyze_header_intro _ psize ptype) by (done || lia).
  rewrite take_ge, drop_ge by lia.
  destruct (parse_packet _ _ _ _ _ _) as [s' [[allData data'] | e]] eqn:E;
    [| done].
  apply parse_packet_inv in E as [-> _].
  destruct (Z.eqb_spec ptype 16); [done |].
  by destruct (length data).
Qed.

Lemma parse_packet_robot_mode allData psize pdata data s :
  parse_packet allData psize 0 pdata data s =
  match parse_robot_mode allData psize pdata s with
  | (s', Ok a) => (s', Ok (a, data))
  | (s', Raise e) => (s', Raise e)
  end.
Proof. reflexivity. Qed.

(** C3 (as the source behaves).  A well-formed RobotModeData packet of
    declared size [psize] is decoded into one record, and
    - size 38 sets the version to (3,0) and gives the 14 named fields;
    - size 46 sets the version to (3,2) but gives 14 fields, not 15: the
      format has no code for [speedFractionLimit], the fifteenth name;
    - size 47 sets the version to (3,5) but gives 15 fields, not 16:
      [reservedByUR], the sixteenth name, has no code;
    - any other size gives the 12 fields of the legacy layout and leaves
      the version as it was. *)
Theorem parse_robot_mode_frame data psize s :
  get_header data = Ok (psize, 0) ->
  Z.of_nat (length data) = psize ->
  29 <= psize ->
  exists r s',
    parse data s = (s', Some (Ok {[ "RobotModeData" := r ]})) /\
    logger s' = logger s /\
    (psize = 38 -> version s' = (3, 0) /\ size r = 14%nat) /\
    (psize = 46 ->
     version s' = (3, 2) /\ size r = 14%nat /\
     r !! "speedFractionLimit" = None) /\
    (psize = 47 ->
     version s' = (3, 5) /\ size r = 15%nat /\
     r !! "reservedByUR" = None) /\
    (psize <> 38 -> psize <> 46 -> psize <> 47 ->
     version s' = version s /\ size r = 12%nat).
Proof.
  intros Hh Hlen Hsz.
  rewrite (parse_single data psize 0 s Hh Hlen) by done.
  rewrite parse_packet_robot_mode. unfold parse_robot_mode.
  destruct (Z.eqb_spec psize 38) as [-> | H38].
  { mstep.
    destruct (_get_data_decodes data "!IBQ???????BBdd" robot_mode_names_30 38)
      as (r & -> & Hdom); [done | lia |].
    eexists r, _. split; [by rewrite insert_empty |]. split; [done |].
    repeat split; try done.
    by rewrite (record_size _ _ Hdom). }
  destruct (Z.eqb_spec psize 46) as [-> | H46].
  { mstep.
    destruct (_get_data_decodes data "!IBQ???????BBdd" robot_mode_names_32 38)
      as (r & -> & Hdom); [done | lia |].
    eexists r, _. split; [by rewrite insert_empty |]. split; [done |].
    repeat split; try done.
    - by rewrite (record_size _ _ Hdom).
    - apply (record_lacks _ _ _ Hdom). vm_compute. not_in_names. }
  destruct (Z.eqb_spec psize 47) as [-> | H47].
  { mstep.
    destruct (_get_data_decodes data "!IBQ???????BBddc" robot_mode_names_35 39)
      as (r & Hr & Hdom); [done | lia |].
    rewrite Hr.
    eexists r, _. split; [by rewrite insert_empty |]. split; [done |].
    repeat split; try done.
    - by rewrite (record_size _ _ Hdom).
    - apply (record_lacks _ _ _ Hdom). vm_compute. not_in_names. }
  mstep.
  destruct (_get_data_decodes data "!iBQ???????Bd" robot_mode_names_legacy 29)
    as (r & -> & Hdom); [done | lia |].
  eexists r, _. split; [by rewrite insert_empty |]. split; [done |].
  repeat split; try done.
  by rewrite (record_size _ _ Hdom).
Qed.

(** ** Stepping through [_get_data_loop] *)

Lemma loop_skip f fmt' key_names i d tmpdata :
  is_code f " !><" = true ->
  (i < length key_names)%nat ->
  _get_data_loop (f :: fmt') key_names i d tmpdata =
  _get_data_loop fmt' key_names i d tmpdata.
Proof.
  intros Hf Hi. simpl.
  destruct (Nat.leb_spec (length key_names) i); [lia |]. by rewrite Hf.
Qed.

Lemma loop_field f fmt' key_names i d tmpdata sz name v :
  is_code f " !><" = false ->
  is_code f "A" = false ->
  calcsize f = Ok sz ->
  key_names !! i = Some name ->
  (sz <= length tmpdata)%nat ->
  unpack f (take sz tmpdata) = Ok v ->
  _get_data_loop (f :: fmt') key_names i d tmpdata =
  _get_data_loop fmt' key_names (S i) (<[name := v]> d) (drop sz tmpdata).
Proof.
  intros Hf HA Hsz Hname Hlen Hv. simpl.
  pose proof (lookup_lt_Some _ _ _ Hname) as Hi.
  destruct (Nat.leb_spec (length key_names) i); [lia |].
  rewrite Hf, HA, Hsz. simpl.
  destruct (Nat.ltb_spec (length tmpdata) sz); [lia |].
  rewrite Hv. simpl.
  destruct (py_nth_nat key_names i Hi) as (name' & -> & Hname').
  simpl. congruence.
Qed.

(** The array that ends the format takes all the bytes left. *)
Lemma loop_array_last c key_names i d tmpdata name :
  key_names !! i = Some name ->
  _get_data_loop ["A"%char; c] key_names i d tmpdata =
  Ok (<[name := VBytes tmpdata]> d).
Proof.
  intros Hname. simpl.
  pose proof (lookup_lt_Some _ _ _ Hname) as Hi.
  destruct (Nat.leb_spec (length key_names) i); [lia |].
  destruct (py_nth_nat key_names i Hi) as (name' & -> & Hname').
  simpl. rewrite slice_to_nonneg by lia. rewrite Nat2Z.id, take_ge by lia.
  congruence.
Qed.

(** An array before the end takes the bytes counted by the field before
    it, whose name must end in [Size]. *)
Lemma loop_array_sized c c' fmt'' key_names i d tmpdata asn n name :
  key_names !! i = Some asn ->
  endswith asn "Size" = true ->
  d !! asn = Some (VInt n) ->
  0 <= n ->
  key_names !! S i = Some name ->
  _get_data_loop ("A"%char :: c :: c' :: fmt'') key_names (S i) d tmpdata =
  _get_data_loop (c' :: fmt'') key_names (S (S i))
    (<[name := VBytes (take (Z.to_nat n) tmpdata)]> d)
    (drop (Z.to_nat n) tmpdata).
Proof.
  intros Hasn Hend Hd Hn Hname.
  pose proof (lookup_lt_Some _ _ _ Hname) as Hi.
  pose proof (lookup_lt_Some _ _ _ Hasn) as Hi'.
  cbn [_get_data_loop].
  destruct (Nat.leb_spec (length key_names) (S i)); [lia |].
  change (is_code "A" " !><") with false. change (is_code "A" "A") with true.
  cbv iota. unfold array_size. cbn [length Nat.eqb].
  replace (Z.of_nat (S i) - 1) with (Z.of_nat i) by lia.
  destruct (py_nth_nat key_names i Hi') as (asn' & -> & Hasn').
  assert (asn' = asn) as -> by congruence.
  cbn [result_bind]. rewrite Hend. cbn [negb]. unfold getitem. rewrite Hd.
  cbn [result_bind py_index].
  destruct (py_nth_nat key_names (S i) Hi) as (name' & -> & Hname').
  assert (name' = name) as -> by congruence.
  cbn [result_bind]. by rewrite slice_to_nonneg, slice_from_nonneg.
Qed.

Ltac loop_step :=
  first
  [ rewrite loop_skip by (reflexivity || (simpl; lia))
  | erewrite loop_field;
    [ | reflexivity | reflexivity | reflexivity | reflexivity
      | simpl; lia | reflexivity ];
    cbn [take drop] ].

Ltac norm_fmt :=
  match goal with
  | |- context [list_ascii_of_string (strip ?fmt)] =>
    let l := eval vm_compute in (list_ascii_of_string (strip fmt)) in
    change (list_ascii_of_string (strip fmt)) with l
  end.

(** ** Popup messages *)

Lemma parse_packet_message allData psize pdata data s :
  parse_packet allData psize 20 pdata data s =
  match parse_message allData pdata s with
  | (s', Ok a) => (s', Ok (a, data))
  | (s', Raise e) => (s', Raise e)
  end.
Proof. reflexivity. Qed.

Lemma list_length_14 {A} (l : list A) :
  length l = 14%nat ->
  exists a0 a1 a2 a3 a4 a5 a6 a7 a8 a9 a10 a11 a12 a13,
    l = [a0; a1; a2; a3; a4; a5; a6; a7; a8; a9; a10; a11; a12; a13].
Proof.
  intros H.
  do 14 (destruct l as [| ? l]; [discriminate H |]).
  destruct l; [| discriminate H]. by eexists _, _, _, _, _, _, _, _, _, _, _, _, _, _.
Qed.


(** The common header of a type-20 packet: fourteen bytes, then the
    message type. *)
Lemma message_header_decode (pre : bytes) (mt : byte) (rest : bytes) :
  length pre = 14%nat ->
  exists tmp,
    _get_data (pre ++ mt :: rest) "!iB Qbb" (message_names []) = Ok tmp /\
    getitem tmp "robotMessageType" = Ok (VInt (be_int [mt])).
Proof.
  intros Hpre.
  destruct (list_length_14 pre Hpre)
    as (a0 & a1 & a2 & a3 & a4 & a5 & a6 & a7 & a8 & a9 & a10 & a11 & a12 & a13 & ->).
  cbn [app]. unfold _get_data. norm_fmt. unfold message_names. cbn [app].
  do 7 loop_step. eexists. split; [reflexivity |].
  unfold getitem. by rewrite lookup_insert_eq.
Qed.

Lemma be_uint_single b : be_uint [b] = byte_val b.
Proof. unfold be_uint. simpl. lia. Qed.

Lemma popup_decode (pre : bytes) (w e t : byte) (body : bytes) :
  length pre = 14%nat ->
  exists r,
    _get_data (pre ++ [x02; w; e; t] ++ body) "!iBQbb ??BAcAc"
      (message_names ["warning"; "error"; "titleSize"; "messageTitle";
                      "messageText"]) = Ok r /\
    r !! "warning" = Some (VBool (negb (byte_val w =? 0))) /\
    r !! "error" = Some (VBool (negb (byte_val e =? 0))) /\
    r !! "titleSize" = Some (VInt (byte_val t)) /\
    r !! "messageTitle" = Some (VBytes (take (Z.to_nat (byte_val t)) body)) /\
    r !! "messageText" = Some (VBytes (drop (Z.to_nat (byte_val t)) body)).
Proof.
  intros Hpre.
  destruct (list_length_14 pre Hpre)
    as (a0 & a1 & a2 & a3 & a4 & a5 & a6 & a7 & a8 & a9 & a10 & a11 & a12 & a13 & ->).
  cbn [app]. unfold _get_data. norm_fmt. unfold message_names. cbn [app].
  do 10 loop_step.
  erewrite (loop_array_sized _ _ _ _ 7 _ _ "titleSize" (byte_val t));
    [ | reflexivity | reflexivity | | | reflexivity ].
  - erewrite loop_array_last by reflexivity.
    rewrite drop_0, take_0, !be_uint_single.
    eexists. split; [reflexivity |].
    repeat split; by simplify_map_eq.
  - cbn [take drop]. rewrite take_0, be_uint_single. by simplify_map_eq.
  - unfold byte_val. lia.
Qed.

(** A popup that ends before its [titleSize] byte. *)
Lemma popup_decode_short (pre tail : bytes) :
  length pre = 14%nat ->
  (length tail < 3)%nat ->
  _get_data (pre ++ x02 :: tail) "!iBQbb ??BAcAc"
    (message_names ["warning"; "error"; "titleSize"; "messageTitle";
                    "messageText"]) = Raise ParsingException.
Proof.
  intros Hpre Htail.
  destruct (list_length_14 pre Hpre)
    as (a0 & a1 & a2 & a3 & a4 & a5 & a6 & a7 & a8 & a9 & a10 & a11 & a12 & a13 & ->).
  cbn [app]. unfold _get_data. norm_fmt. unfold message_names. cbn [app].
  do 7 loop_step.
  destruct tail as [| w [| e [| t body]]]; [| | | simpl in Htail; lia].
  - reflexivity.
  - do 1 loop_step. reflexivity.
  - do 2 loop_step. reflexivity.
Qed.

Lemma parse_popup_frame (pre tail : bytes) data s :
  data = pre ++ x02 :: tail ->
  length pre = 14%nat ->
  get_header data = Ok (Z.of_nat (length data), 20) ->
  match tail with
  | w :: e :: t :: body =>
    exists r,
      parse data s = (s, Some (Ok {[ "popupMessage" := r ]})) /\
      r !! "warning" = Some (VBool (negb (byte_val w =? 0))) /\
      r !! "error" = Some (VBool (negb (byte_val e =? 0))) /\
      r !! "titleSize" = Some (VInt (byte_val t)) /\
      r !! "messageTitle" = Some (VBytes (take (Z.to_nat (byte_val t)) body)) /\
      r !! "messageText" = Some (VBytes (drop (Z.to_nat (byte_val t)) body))
  | _ => parse data s = (s, Some (Raise ParsingException))
  end.
Proof.
  intros -> Hpre Hh.
  rewrite (parse_single _ _ 20 s Hh) by done.
  rewrite parse_packet_message.
  unfold parse_message. rewrite bind_eq. unfold lift.
  destruct (message_header_decode pre x02 tail Hpre) as (tmp & Htmp & Hmt).
  rewrite Htmp. rewrite bind_eq, Hmt.
  change (be_int [x02]) with 2. cbn [py_eq_int Z.eqb Pos.eqb].
  rewrite decode_into_eq.
  assert ((length tail < 3)%nat ->
          _get_data (pre ++ x02 :: tail) "!iBQbb ??BAcAc"
            (message_names ["warning"; "error"; "titleSize"; "messageTitle";
                            "messageText"]) = Raise ParsingException) as Hshort
    by apply (popup_decode_short pre tail Hpre).
  destruct tail as [| w [| e [| t body]]];
    [rewrite Hshort by (simpl; lia); reflexivity .. |].
  destruct (popup_decode pre w e t body Hpre) as (r & Hr & Hfields).
  cbn [app] in Hr. rewrite Hr. exists r. split; [| exact Hfields].
  by rewrite insert_empty.
Qed.

(** C8 (as the source behaves).  A type-20 packet whose message type is
    2 and which ends before its [titleSize] byte, with fewer than 18
    bytes, raises [ParsingException].  Otherwise it is decoded into a
    [popupMessage] record: [warning] and [error] are the two booleans,
    [titleSize] is the byte at offset 17, [messageTitle] is the first
    [titleSize] bytes after it, or all the bytes after it when fewer
    follow, and [messageText] is every byte after those, none when
    fewer than [titleSize] follow.  No length is compared with
    [titleSize]. *)
Theorem parse_popup (pre tail : bytes) data s :
  data = pre ++ x02 :: tail ->
  length pre = 14%nat ->
  get_header data = Ok (Z.of_nat (length data), 20) ->
  match tail with
  | w :: e :: t :: body =>
    exists r,
      parse data s = (s, Some (Ok {[ "popupMessage" := r ]})) /\
      r !! "warning" = Some (VBool (negb (byte_val w =? 0))) /\
      r !! "error" = Some (VBool (negb (byte_val e =? 0))) /\
      r !! "titleSize" = Some (VInt (byte_val t)) /\
      r !! "messageTitle" = Some (VBytes (take (Z.to_nat (byte_val t)) body)) /\
      r !! "messageText" = Some (VBytes (drop (Z.to_nat (byte_val t)) body))
  | _ => parse data s = (s, Some (Raise ParsingException))
  end.
Proof. apply parse_popup_frame. Qed.

(** C8, as stated, fails: the popup [frame_popup_short] has the message
    type 2 and the [titleSize] 200, and two bytes follow; its
    [messageTitle] is these two bytes, not 200 bytes. *)
Lemma popup_title_truncated :
  ~ (forall data s tmp,
       get_header data = Ok (Z.of_nat (length data), 20) ->
       _get_data data "!iB Qbb" (message_names []) = Ok tmp ->
       tmp !! "robotMessageType" = Some (VInt 2) ->
       exists r n title,
         parse data s = (s, Some (Ok {[ "popupMessage" := r ]})) /\
         r !! "titleSize" = Some (VInt n) /\
         r !! "messageTitle" = Some (VBytes title) /\
         Z.of_nat (length title) = n).
Proof.
  intros H.
  destruct (message_header_decode popup_prefix_20 x02 [x00; x03; xc8; x41; x42]
              eq_refl) as (tmp & Htmp & Hmt).
  destruct (H frame_popup_short new_ParserUtils tmp eq_refl Htmp)
    as (r & n & title & Hparse & Hsize & Htitle & Hlen).
  { unfold getitem in Hmt. destruct (tmp !! "robotMessageType"); [| done].
    by injection Hmt as ->. }
  pose proof (parse_popup_frame popup_prefix_20 [x00; x03; xc8; x41; x42]
                frame_popup_short new_ParserUtils eq_refl eq_refl eq_refl)
    as (r0 & Hparse0 & _ & _ & Hsize0 & Htitle0 & _).
  rewrite Hparse in Hparse0.
  apply (f_equal (fun x : ParserUtils * option (result batch) =>
                    match x with
                    | (_, Some (Ok b)) => b !! "popupMessage"
                    | _ => None
                    end)) in Hparse0.
  cbv beta iota in Hparse0. rewrite !lookup_singleton_eq in Hparse0.
  injection Hparse0 as ->.
  rewrite Hsize in Hsize0. rewrite Htitle in Htitle0.
  injection Hsize0 as ->. injection Htitle0 as ->.
  vm_compute in Hlen. discriminate Hlen.
Qed.

(** The popup of 15 bytes, which ends with its message type, gives no
    record. *)
Example popup_bare_raises :
  parse frame_popup_bare new_ParserUtils =
  (new_ParserUtils, Some (Raise ParsingException)).
Proof. vm_compute. reflexivity. Qed.

(** ** The frame scanner *)

Lemma get_header_short data :
  (length data < 5)%nat -> get_header data = Raise StructError.
Proof.
  intros H. unfold get_header. rewrite slice_to_nonneg by lia.
  destruct (Nat.eqb_spec (length (take (Z.to_nat 5) data)) 5) as [E |]; [| done].
  rewrite length_take in E. lia.
Qed.

Lemma get_header_long data :
  (5 <= length data)%nat -> exists sz ty, get_header data = Ok (sz, ty).
Proof.
  intros H. unfold get_header. rewrite slice_to_nonneg by lia.
  destruct (Nat.eqb_spec (length (take (Z.to_nat 5) data)) 5) as [E | E];
    [eauto |].
  rewrite length_take in E. lia.
Qed.

Lemma find_first_packet_loop_short counter limit data s :
  (length data < 5)%nat ->
  find_first_packet_loop counter limit data s = (s, Ok None).
Proof.
  intros H. destruct data as [| b data]; [done |].
  cbn [find_first_packet_loop].
  by destruct (Nat.leb_spec 5 (length (b :: data))); [lia |].
Qed.

(** At an invalid header the scan goes on from the next byte. *)
Lemma find_first_packet_loop_invalid counter limit data s :
  header_valid data = false ->
  exists counter' limit' s',
    (find_first_packet_loop counter limit data s).2 =
    (find_first_packet_loop counter' limit' (drop 1 data) s').2.
Proof.
  intros Hv.
  destruct (Nat.lt_ge_cases (length data) 5) as [Hlen | Hlen].
  { exists counter, limit, s.
    rewrite !find_first_packet_loop_short; [done | | done].
    rewrite length_drop. lia. }
  destruct data as [| b data1]; [simpl in Hlen; lia |].
  cbn [find_first_packet_loop drop].
  destruct (Nat.leb_spec 5 (length (b :: data1))); [| lia].
  unfold header_valid in Hv.
  destruct (get_header_long (b :: data1) Hlen) as (sz & ty & Hh).
  rewrite Hh in Hv. rewrite bind_eq. unfold lift. rewrite Hh.
  assert ((sz <? 5) || (2000 <? sz) || negb (ty =? 16) = true) as ->.
  { destruct (Z.leb_spec 5 sz), (Z.leb_spec sz 2000), (Z.eqb_spec ty 16),
      (Z.ltb_spec sz 5), (Z.ltb_spec 2000 sz); simpl in *; (done || lia). }
  destruct (S counter <? limit)%nat; [| destruct (limit <? S counter)%nat eqn:E].
  all: try (rewrite E).
  all: destruct (limit <? S counter)%nat; mstep; eauto.
Qed.

(** At a valid header the scan stops: with the frame and the rest when
    the declared size is there, with [None] when it is not. *)
Lemma find_first_packet_loop_valid counter limit data s :
  header_valid data = true ->
  (find_first_packet_loop counter limit data s).2 =
  Ok (if (declared_size data <=? length data)%nat
      then Some (take (declared_size data) data, drop (declared_size data) data)
      else None).
Proof.
  intros Hv. unfold header_valid, declared_size in *.
  destruct (get_header data) as [[sz ty] |] eqn:Hh; [| done].
  destruct (Nat.lt_ge_cases (length data) 5) as [Hlen | Hlen].
  { by rewrite get_header_short in Hh. }
  destruct data as [| b data1]; [simpl in Hlen; lia |].
  cbn [find_first_packet_loop].
  destruct (Nat.leb_spec 5 (length (b :: data1))); [| lia].
  rewrite bind_eq. unfold lift. rewrite Hh.
  assert ((sz <? 5) || (2000 <? sz) || negb (ty =? 16) = false) as ->.
  { destruct (Z.leb_spec 5 sz), (Z.leb_spec sz 2000), (Z.eqb_spec ty 16),
      (Z.ltb_spec sz 5), (Z.ltb_spec 2000 sz); simpl in *; (done || lia). }
  assert (5 <= sz).
  { destruct (Z.leb_spec 5 sz); [done | simpl in Hv; done]. }
  destruct (Z.leb_spec sz (Z.of_nat (length (b :: data1))));
    destruct (Nat.leb_spec (Z.to_nat sz) (length (b :: data1))); try lia.
  - mstep. destruct (counter =? 0)%nat; mstep;
      by rewrite slice_to_nonneg, slice_from_nonneg by lia.
  - by mstep.
Qed.

(** C5.  [find_first_packet] skips, one byte at a time, every position
    whose header is not valid; at the first position [k] with a valid
    header it returns the [declared_size] bytes from there and the bytes
    after them, or [None] when fewer than [declared_size] bytes are
    there; it returns [None] too when no position has a valid header (in
    particular when fewer than five bytes are left). *)
Theorem find_first_packet_scans data s :
  (forall k, first_valid data k ->
     let d := drop k data in
     (find_first_packet data s).2 =
     Ok (if (declared_size d <=? length d)%nat
         then Some (take (declared_size d) d, drop (declared_size d) d)
         else None)) /\
  ((forall k, header_valid (drop k data) = false) ->
     (find_first_packet data s).2 = Ok None).
Proof.
  unfold find_first_packet. generalize 0%nat 10%nat. intros counter limit.
  split.
  - intros k. revert data counter limit s.
    induction k as [| k IH]; intros data counter limit s [Hv Hbefore].
    + rewrite drop_0 in *. by apply find_first_packet_loop_valid.
    + destruct (find_first_packet_loop_invalid counter limit data s)
        as (c' & l' & s' & ->).
      { specialize (Hbefore 0%nat). rewrite drop_0 in Hbefore.
        apply Hbefore. lia. }
      cbv zeta.
      replace (drop (S k) data) with (drop k (drop 1 data))
        by (by rewrite drop_drop).
      apply (IH (drop 1 data) c' l' s'). split.
      * by rewrite drop_drop.
      * intros j Hj. rewrite drop_drop. apply Hbefore. lia.
  - revert counter limit s.
    induction data as [| b data IH]; intros counter limit s Hall; [done |].
    destruct (find_first_packet_loop_invalid counter limit (b :: data) s)
      as (c' & l' & s' & ->).
    { apply (Hall 0%nat). }
    apply IH. intros k. apply (Hall (S k)).
Qed.

Lemma find_first_packet_returns data s :
  exists ans, (find_first_packet data s).2 = Ok ans.
Proof.
  unfold find_first_packet. generalize 0%nat 10%nat. intros counter limit.
  revert counter limit s.
  induction data as [| b data IH]; intros counter limit s; [simpl; eauto |].
  destruct (header_valid (b :: data)) eqn:Hv.
  - rewrite find_first_packet_loop_valid by done. eauto.
  - destruct (find_first_packet_loop_invalid counter limit (b :: data) s Hv)
      as (c' & l' & s' & ->).
    apply IH.
Qed.

(** ** Packets of type 7 and 8 below version (3, 2) *)

Lemma parse_packet_mode_before_info allData psize ptype pdata data s s' allData' data' :
  parse_packet allData psize ptype pdata data s = (s', Ok (allData', data')) ->
  mode_before_info s allData -> mode_before_info s' allData'.
Proof.
  intros E [Hver Hkeys].
  pose proof (parse_packet_version_ne allData psize ptype pdata data s) as Hv.
  rewrite E in Hv. simpl in Hv. unfold mode_before_info.
  apply parse_packet_inv in E
    as [_ [[-> [r ->]] | [Hne [-> | (key & r & -> & Hkey & _)]]]].
  - split; intros _; rewrite lookup_insert_eq; eauto.
  - rewrite Hv by done. by split.
  - rewrite Hv by done. split.
    + intros H. apply lookup_insert_is_Some'. auto.
    + intros H. apply lookup_insert_is_Some'. right.
      destruct (decide (key = "AdditionalInfo")) as [-> | ?]; [auto |].
      destruct (decide (key = "ForceModeData")) as [-> | ?]; [auto |].
      rewrite !lookup_insert_ne in H by done. auto.
Qed.

Lemma parse_loop_mode_before_info fuel allData data s s' allData' :
  parse_loop fuel allData data s = (s', Some (Ok allData')) ->
  mode_before_info s allData -> mode_before_info s' allData'.
Proof.
  revert allData data s.
  induction fuel as [| fuel IH]; intros allData data s.
  - destruct data; [by intros [= <- <-] | done].
  - destruct data as [| b data]; [by intros [= <- <-] |].
    cbn [parse_loop].
    destruct (parse_body allData (b :: data) s) as [s1 [[allData1 data1] | e]] eqn:E;
      [| done].
    intros Hloop Hinv. eapply IH; [exact Hloop |].
    rewrite parse_body_eq in E.
    destruct (analyze_header (b :: data)) as [[[[psize ptype] pdata] rest] | ?];
      [| done].
    by eapply parse_packet_mode_before_info.
Qed.

(** C10.  Below version (3, 2) a well-framed packet of type 8 or 7 gives
    no record: the iteration ends in the unknown-packet branch, which
    only logs.  So a dictionary returned by a [parse] call that starts
    below (3, 2) holds [AdditionalInfo] or [ForceModeData] only together
    with the [RobotModeData] whose packet raised the version. *)
Theorem low_version_drops_info s :
  version_lt (version s) (3, 2) = true ->
  (forall allData data psize ptype pdata rest,
     analyze_header data = Ok (psize, ptype, pdata, rest) ->
     ptype = 8 \/ ptype = 7 ->
     parse_body allData data s =
     ({| version := version s;
         logger := logger s ++ [DebugUnknownPacket ptype psize] |},
      Ok (allData, rest))) /\
  (forall data s' allData,
     parse data s = (s', Some (Ok allData)) ->
     is_Some (allData !! "AdditionalInfo") \/
     is_Some (allData !! "ForceModeData") ->
     is_Some (allData !! "RobotModeData")).
Proof.
  intros Hlow. split.
  - intros allData data psize ptype pdata rest Hh Hty.
    rewrite parse_body_eq, Hh. unfold parse_packet.
    rewrite bind_eq. unfold get_version, version_ge. rewrite Hlow.
    by destruct Hty as [-> | ->].
  - intros data s' allData Hparse.
    apply parse_loop_mode_before_info in Hparse as [_ H]; [done |].
    split.
    + unfold version_ge. by rewrite Hlow.
    + rewrite !lookup_empty. by intros [[? ?] | [? ?]].
Qed.

(** ** Digital inputs and outputs *)

Lemma mask_test (a n : Z) :
  0 <= n ->
  (if Z.land a (Z.shiftl 1 n) =? 0 then 0 else 1) =
  (if Z.testbit a n then 1 else 0).
Proof.
  intros Hn. rewrite Z.shiftl_1_l.
  destruct (Z.testbit a n) eqn:Hbit.
  - destruct (Z.eqb_spec (Z.land a (2 ^ n)) 0) as [E |]; [| done].
    assert (Z.testbit (Z.land a (2 ^ n)) n = true) as Hl.
    { by rewrite Z.land_spec, Hbit, Z.pow2_bits_true. }
    rewrite E, Z.bits_0 in Hl. done.
  - destruct (Z.eqb_spec (Z.land a (2 ^ n)) 0) as [| E]; [done |].
    exfalso. apply E. apply Z.bits_inj'. intros k Hk.
    rewrite Z.land_spec, Z.bits_0, Z.pow2_bits_eqb by done.
    destruct (Z.eqb_spec n k) as [<- |]; [by rewrite Hbit |].
    apply andb_false_r.
Qed.

Lemma get_bit_testbit m key mb v n :
  _dict m !! "MasterBoardData" = Some mb ->
  mb !! key = Some (VInt v) ->
  0 <= n ->
  get_bit m key n = Ok (if Z.testbit v n then 1 else 0).
Proof.
  intros Hmb Hkey Hn. unfold get_bit, getitem. rewrite Hmb. simpl.
  rewrite Hkey. simpl. unfold py_lshift.
  destruct (Z.ltb_spec n 0); [lia |]. simpl. by rewrite mask_test.
Qed.

(** C9.  With a MasterBoardData record in the state dictionary,
    [get_digital_out(n)] is 1 when bit [n] of the stored
    [digitalOutputBits] is set and 0 when it is not, and
    [get_digital_in(n)] is the same for [digitalInputBits]. *)
Theorem get_digital_bit m mb out inp n :
  _dict m !! "MasterBoardData" = Some mb ->
  mb !! "digitalOutputBits" = Some (VInt out) ->
  mb !! "digitalInputBits" = Some (VInt inp) ->
  0 <= n ->
  get_digital_out n m = Ok (if Z.testbit out n then 1 else 0) /\
  get_digital_in n m = Ok (if Z.testbit inp n then 1 else 0).
Proof.
  intros Hmb Hout Hinp Hn. unfold get_digital_out, get_digital_in.
  by rewrite (get_bit_testbit m _ mb out), (get_bit_testbit m _ mb inp).
Qed.

(** ** Getters on a dictionary without the packet *)

(** C2 (as the source behaves).  [get_cartesian_info] and
    [get_joint_data] return [None] when their packet was never seen; the
    other getters index the dictionary and raise [KeyError]. *)
Theorem getters_without_packet m nb :
  (_dict m !! "CartesianInfo" = None -> get_cartesian_info m = Ok None) /\
  (_dict m !! "JointData" = None -> get_joint_data m = Ok None) /\
  (_dict m !! "MasterBoardData" = None ->
   get_digital_out nb m = Raise KeyError /\
   get_digital_in nb m = Raise KeyError /\
   get_analog_in nb m = Raise KeyError) /\
  (_dict m !! "RobotModeData" = None ->
   is_program_running m = Raise KeyError).
Proof.
  unfold get_cartesian_info, get_joint_data, get_digital_out, get_digital_in,
    get_bit, get_analog_in, is_program_running, getitem.
  split; [| split; [| split]]; by intros ->.
Qed.

(** ** [send_program] *)

(** C6 (as the source behaves).  The command put on the queue is the
    program as given, followed by a newline: the result of
    [prog.strip()] is not used.  For the program ["stop "] it differs
    from the program without its trailing whitespace and one newline. *)
Theorem send_program_appends_newline :
  (forall prog m,
     _prog_queue (send_program prog m) =
     _prog_queue m ++ [{| program := prog_bytes prog ++ [x0a] |}]) /\
  _prog_queue (send_program (PStr "stop ") new_SecondaryMonitor) =
    [{| program := list_byte_of_string "stop " ++ [x0a] |}] /\
  normalized_command (PStr "stop ") = list_byte_of_string "stop" ++ [x0a].
Proof. repeat split. Qed.

(** ** One pass through the loop of [run] *)

Lemma drain_one_dict m : _dict (drain_one m) = _dict m.
Proof. unfold drain_one. by destruct (_prog_queue m). Qed.

Lemma monitor_get_data_dict incoming m r m' rest :
  monitor_get_data incoming m = (r, m', rest) -> _dict m' = _dict m.
Proof.
  revert m. induction incoming as [| tmp incoming IH]; intros m; simpl.
  - destruct (find_first_packet (_dataqueue m) (_parser m)) as [p [[[pk rs] |] |]];
      by intros [= <- <- <-].
  - destruct (find_first_packet (_dataqueue m) (_parser m)) as [p [[[pk rs] |] |]];
      try (by intros [= <- <- <-]); intros H; by apply IH in H.
Qed.

Lemma run_packet_parse_error now data m p :
  parse data (_parser m) = (p, Some (Raise ParsingException)) ->
  run_packet now data m = Next (monitor_log WarningParseError (with_parser p m)).
Proof. intros H. unfold run_packet. by rewrite H. Qed.

(** C7.  When [parse] raises [ParsingException] on the packet of a
    pass, the pass ends at its [continue] with the warning logged: the
    loop goes on, and [_dict], the running flag, the time stamp and the
    waiters are as before the pass. *)
Theorem parse_error_keeps_dict now incoming m data m1 rest p :
  monitor_get_data incoming (drain_one m) = (Some data, m1, rest) ->
  parse data (_parser m1) = (p, Some (Raise ParsingException)) ->
  exists m',
    run_pass now incoming m = (Next m', rest) /\
    _dict m' = _dict m /\
    running m' = running m1 /\
    lastpacket_timestamp m' = lastpacket_timestamp m1 /\
    data_events m' = data_events m1 /\
    logger (_parser m') = logger p ++ [WarningParseError].
Proof.
  intros Hget Hparse. unfold run_pass. rewrite Hget.
  rewrite (run_packet_parse_error _ _ _ _ Hparse).
  eexists. split; [reflexivity |]. simpl.
  apply monitor_get_data_dict in Hget. by rewrite Hget, drain_one_dict.
Qed.

Lemma run_packet_dict now data m p tmpdict :
  parse data (_parser m) = (p, Some (Ok tmpdict)) ->
  _dict (pass_monitor (run_packet now data m)) = tmpdict.
Proof.
  intros H. unfold run_packet. rewrite H. simpl.
  destruct (tmpdict !! "RobotModeData"); [| done].
  destruct (check_if_running tmpdict _) as [ok |]; [| done].
  simpl. by destruct (ok || negb (running m)).
Qed.

(** C4 (as the source behaves).  A batch that [parse] returns becomes the
    state dictionary whether or not it holds RobotModeData, since
    [self._dict = tmpdict] comes before the test.  Without RobotModeData
    the pass then logs and ends at its [continue]: the running flag, the
    time stamp and the waiters are left alone. *)
Theorem batch_replaces_dict now incoming m data m1 rest p tmpdict :
  monitor_get_data incoming (drain_one m) = (Some data, m1, rest) ->
  parse data (_parser m1) = (p, Some (Ok tmpdict)) ->
  _dict (pass_monitor (run_pass now incoming m).1) = tmpdict /\
  (tmpdict !! "RobotModeData" = None ->
   exists m',
     run_pass now incoming m = (Next m', rest) /\
     _dict m' = tmpdict /\
     running m' = running m1 /\
     lastpacket_timestamp m' = lastpacket_timestamp m1 /\
     data_events m' = data_events m1 /\
     logger (_parser m') = logger p ++ [WarningNoRobotModeData]).
Proof.
  intros Hget Hparse. unfold run_pass. rewrite Hget. simpl. split.
  - by eapply run_packet_dict.
  - intros Hnone. unfold run_packet. rewrite Hparse. simpl. rewrite Hnone.
    eexists. split; [reflexivity |]. done.
Qed.

(** C4, as stated, fails: after a pass over [frame_rmd38] the dictionary
    holds RobotModeData; a pass over the empty group, whose batch has
    none, replaces the dictionary by that batch. *)
Lemma stale_dict_replaced :
  ~ (forall now incoming m data m1 rest p tmpdict,
       monitor_get_data incoming (drain_one m) = (Some data, m1, rest) ->
       parse data (_parser m1) = (p, Some (Ok tmpdict)) ->
       tmpdict !! "RobotModeData" = None ->
       _dict (pass_monitor (run_pass now incoming m).1) = _dict m).
Proof.
  intros H.
  pose (m1 := (monitor_get_data [frame_empty_group]
                 (drain_one monitor_after_rmd38)).1.2).
  specialize (H 2 [frame_empty_group] monitor_after_rmd38 frame_empty_group
                m1 [] (parse frame_empty_group (_parser m1)).1
                {[ "SecondaryClientData" :=
                     {[ "size" := VInt 5; "type" := VInt 16 ]} ]}).
  assert (bool_decide (is_Some (_dict monitor_after_rmd38 !! "RobotModeData"))
          = false) as Hno.
  { rewrite <- H by (vm_compute; reflexivity). vm_compute. reflexivity. }
  vm_compute in Hno. discriminate Hno.
Qed.

(** ** The version across the packets of a connection *)

(** C1 (as the source behaves).  Once [self.version] is at least (3, 0),
    every later [parse] call, raising or not, leaves it at least (3, 0):
    it keeps its value or becomes (3, 0), (3, 2) or (3, 5), the version
    of the last RobotModeData packet of size 38, 46 or 47. *)
Theorem version_stays_3 frames s :
  version_ge (version s) (3, 0) = true ->
  version_ge (version (parse_frames frames s)) (3, 0) = true /\
  version_step (version s) (version (parse_frames frames s)).
Proof.
  intros Hge. pose proof (parse_frames_version frames s) as Hstep.
  split; [| done]. by eapply version_step_floor.
Qed.

(** C1, as stated, fails: a packet of size 47 sets the version to
    (3, 5), and a packet of size 38 after it sets the version back to
    (3, 0). *)
Lemma version_decreases :
  ~ (forall frames data,
       let s := parse_frames frames new_ParserUtils in
       version_ge (version s) (3, 0) = true ->
       version_ge (version (parse data s).1) (version s) = true).
Proof.
  intros H. specialize (H [frame_rmd47] frame_rmd38 eq_refl).
  vm_compute in H. discriminate H.
Qed.

(** ** Instances *)

Lemma version_stays_3_witness :
  version_ge (version (parse_frames [frame_rmd38; frame_empty_group]
                         (parse frame_rmd47 new_ParserUtils).1)) (3, 0) = true /\
  version_step (version (parse frame_rmd47 new_ParserUtils).1)
    (version (parse_frames [frame_rmd38; frame_empty_group]
                (parse frame_rmd47 new_ParserUtils).1)).
Proof.
  apply (version_stays_3 [frame_rmd38; frame_empty_group]
           (parse frame_rmd47 new_ParserUtils).1).
  reflexivity.
Defined.

Lemma parse_robot_mode_frame_witness :
  exists r s',
    parse (robot_mode_packet x2e) new_ParserUtils =
      (s', Some (Ok {[ "RobotModeData" := r ]})) /\
    logger s' = logger new_ParserUtils /\
    (46 = 38 -> version s' = (3, 0) /\ size r = 14%nat) /\
    (46 = 46 ->
     version s' = (3, 2) /\ size r = 14%nat /\
     r !! "speedFractionLimit" = None) /\
    (46 = 47 ->
     version s' = (3, 5) /\ size r = 15%nat /\
     r !! "reservedByUR" = None) /\
    (46 <> 38 -> 46 <> 46 -> 46 <> 47 ->
     version s' = version new_ParserUtils /\ size r = 12%nat).
Proof.
  apply (parse_robot_mode_frame (robot_mode_packet x2e) 46 new_ParserUtils);
    [reflexivity | reflexivity | lia].
Defined.

Lemma parse_popup_witness :
  exists r,
    parse frame_popup new_ParserUtils =
      (new_ParserUtils, Some (Ok {[ "popupMessage" := r ]})) /\
    r !! "warning" = Some (VBool (negb (byte_val x01 =? 0))) /\
    r !! "error" = Some (VBool (negb (byte_val x00 =? 0))) /\
    r !! "titleSize" = Some (VInt (byte_val x03)) /\
    r !! "messageTitle" =
      Some (VBytes (take (Z.to_nat (byte_val x03)) [x41; x42; x43; x44; x45])) /\
    r !! "messageText" =
      Some (VBytes (drop (Z.to_nat (byte_val x03)) [x41; x42; x43; x44; x45])).
Proof.
  apply (parse_popup popup_prefix [x01; x00; x03; x41; x42; x43; x44; x45]
           frame_popup new_ParserUtils);
    reflexivity.
Defined.

Lemma find_first_packet_scans_witness :
  (find_first_packet ([xff; x00] ++ frame_empty_group ++ [x01]) new_ParserUtils).2 =
    Ok (Some (frame_empty_group, [x01])) /\
  (find_first_packet [xff; xff; xff; xff; x10; x00] new_ParserUtils).2 = Ok None.
Proof.
  split.
  - apply (proj1 (find_first_packet_scans
                    ([xff; x00] ++ frame_empty_group ++ [x01]) new_ParserUtils)
             2%nat).
    split; [reflexivity |].
    intros [| [| j]] Hj; [reflexivity | reflexivity | lia].
  - apply (proj2 (find_first_packet_scans
                    [xff; xff; xff; xff; x10; x00] new_ParserUtils)).
    intros k. do 7 (destruct k as [| k]; [reflexivity |]).
    by rewrite drop_ge by (simpl; lia).
Defined.

Lemma low_version_drops_info_witness :
  parse_body ∅ [x00; x00; x00; x07; x08; x01; x00] new_ParserUtils =
    ({| version := (0, 0); logger := [DebugUnknownPacket 8 7] |}, Ok (∅, [])).
Proof.
  apply (proj1 (low_version_drops_info new_ParserUtils eq_refl)
           ∅ [x00; x00; x00; x07; x08; x01; x00] 7 8
           [x00; x00; x00; x07; x08; x01; x00] []);
    [reflexivity | by left].
Defined.

Lemma parse_error_keeps_dict_witness :
  exists m',
    run_pass 2 [frame_truncated] monitor_after_rmd38 = (Next m', []) /\
    _dict m' = _dict monitor_after_rmd38 /\
    is_Some (_dict m' !! "RobotModeData").
Proof.
  pose (m1 := (monitor_get_data [frame_truncated]
                 (drain_one monitor_after_rmd38)).1.2).
  destruct (parse_error_keeps_dict 2 [frame_truncated] monitor_after_rmd38
              frame_truncated m1 [] (parse frame_truncated (_parser m1)).1)
    as (m' & Hpass & Hdict & _); [vm_compute; reflexivity .. |].
  exists m'. split; [exact Hpass |]. split; [exact Hdict |].
  rewrite Hdict. apply (bool_decide_unpack _). vm_compute. exact I.
Defined.

Lemma batch_replaces_dict_witness :
  exists m',
    run_pass 2 [frame_empty_group] monitor_after_rmd38 = (Next m', []) /\
    _dict m' !! "RobotModeData" = None /\
    is_Some (_dict monitor_after_rmd38 !! "RobotModeData").
Proof.
  pose (m1 := (monitor_get_data [frame_empty_group]
                 (drain_one monitor_after_rmd38)).1.2).
  destruct (batch_replaces_dict 2 [frame_empty_group] monitor_after_rmd38
              frame_empty_group m1 [] (parse frame_empty_group (_parser m1)).1
              {[ "SecondaryClientData" :=
                   {[ "size" := VInt 5; "type" := VInt 16 ]} ]})
    as (_ & H); [vm_compute; reflexivity .. |].
  destruct H as (m' & Hpass & Hdict & _); [reflexivity |].
  exists m'. split; [exact Hpass |]. rewrite Hdict.
  split; [reflexivity |].
  apply (bool_decide_unpack _). vm_compute. exact I.
Defined.

Lemma get_digital_bit_witness :
  get_digital_out 5
    (set_dict {[ "MasterBoardData" :=
                   {[ "digitalOutputBits" := VInt 32;
                      "digitalInputBits" := VInt (-1) ]} ]}
       new_SecondaryMonitor) = Ok 1 /\
  get_digital_in 5
    (set_dict {[ "MasterBoardData" :=
                   {[ "digitalOutputBits" := VInt 32;
                      "digitalInputBits" := VInt (-1) ]} ]}
       new_SecondaryMonitor) = Ok 1.
Proof.
  apply (get_digital_bit _ {[ "digitalOutputBits" := VInt 32;
                              "digitalInputBits" := VInt (-1) ]} 32 (-1) 5);
    [reflexivity | reflexivity | reflexivity | lia].
Defined.

Lemma getters_without_packet_witness :
  get_cartesian_info monitor_after_rmd38 = Ok None /\
  get_joint_data monitor_after_rmd38 = Ok None /\
  get_digital_out 0 monitor_after_rmd38 = Raise KeyError /\
  get_digital_in 0 monitor_after_rmd38 = Raise KeyError /\
  get_analog_in 0 monitor_after_rmd38 = Raise KeyError /\
  is_program_running new_SecondaryMonitor = Raise KeyError.
Proof.
  destruct (getters_without_packet monitor_after_rmd38 0)
    as (Hc & Hj & Hm & _).
  destruct (getters_without_packet new_SecondaryMonitor 0)
    as (_ & _ & _ & Hr).
  destruct (Hm eq_refl) as (Ho & Hi & Ha).
  exact (conj (Hc eq_refl) (conj (Hj eq_refl)
           (conj Ho (conj Hi (conj Ha (Hr eq_refl)))))).
Defined.

(** ** The digital words of the records that [parse] makes *)

Lemma list_length_ge_13 {A} (l : list A) :
  (13 <= length l)%nat ->
  exists a0 a1 a2 a3 a4 a5 a6 a7 a8 a9 a10 a11 a12 rest,
    l = a0 :: a1 :: a2 :: a3 :: a4 :: a5 :: a6 :: a7 :: a8 :: a9 :: a10
        :: a11 :: a12 :: rest.
Proof.
  intros H.
  do 13 (destruct l as [| ? l]; [simpl in H; lia |]).
  by eexists _, _, _, _, _, _, _, _, _, _, _, _, _, _.
Qed.

Lemma master_board_decode pdata fmt mb :
  fmt = "iBiibbddbbddffffBBb" \/ fmt = "iBhhbbddbbddffffBBb" ->
  _get_data pdata fmt master_board_names = Ok mb ->
  exists out inp,
    mb !! "digitalOutputBits" = Some (VInt out) /\
    mb !! "digitalInputBits" = Some (VInt inp).
Proof.
  intros [-> | ->] H.
  - pose proof (_get_data_fixed pdata "iBiibbddbbddffffBBb"
                  master_board_names 65 eq_refl) as Hlen.
    destruct (Nat.ltb_spec (length pdata) 65) as [| Hge]; [congruence |].
    clear Hlen.
    destruct (list_length_ge_13 pdata)
      as (a0 & a1 & a2 & a3 & a4 & a5 & a6 & a7 & a8 & a9 & a10 & a11 & a12
          & rest & ->); [lia |].
    revert H. unfold _get_data. norm_fmt. unfold master_board_names.
    do 4 loop_step. intros H.
    pose proof (_get_data_loop_keeps _ _ _ _ _ _ "digitalOutputBits" H) as Ho.
    pose proof (_get_data_loop_keeps _ _ _ _ _ _ "digitalInputBits" H) as Hi.
    rewrite Ho, Hi by (vm_compute; not_in_names).
    eexists _, _. split; by simplify_map_eq.
  - pose proof (_get_data_fixed pdata "iBhhbbddbbddffffBBb"
                  master_board_names 61 eq_refl) as Hlen.
    destruct (Nat.ltb_spec (length pdata) 61) as [| Hge]; [congruence |].
    clear Hlen.
    destruct (list_length_ge_13 pdata)
      as (a0 & a1 & a2 & a3 & a4 & a5 & a6 & a7 & a8 & a9 & a10 & a11 & a12
          & rest & ->); [lia |].
    revert H. unfold _get_data. norm_fmt. unfold master_board_names.
    do 4 loop_step. intros H.
    pose proof (_get_data_loop_keeps _ _ _ _ _ _ "digitalOutputBits" H) as Ho.
    pose proof (_get_data_loop_keeps _ _ _ _ _ _ "digitalInputBits" H) as Hi.
    rewrite Ho, Hi by (vm_compute; not_in_names).
    eexists _, _. split; by simplify_map_eq.
Qed.

Lemma parse_packet_digital_bits allData psize ptype pdata data s s' allData' data' :
  parse_packet allData psize ptype pdata data s = (s', Ok (allData', data')) ->
  digital_bits_stored allData -> digital_bits_stored allData'.
Proof.
  intros E Hinv.
  apply parse_packet_inv in E
    as [_ [[-> [r ->]] | [Hne [-> | (key & r & -> & _ & Hkey)]]]].
  - intros mb. rewrite lookup_insert_ne by done. apply Hinv.
  - done.
  - intros mb. destruct (decide (key = "MasterBoardData")) as [-> | ?].
    + rewrite lookup_insert_eq. intros [= <-].
      destruct (Hkey eq_refl) as (fmt & Hfmt & Hr).
      by eapply master_board_decode.
    + rewrite lookup_insert_ne by done. apply Hinv.
Qed.

Lemma parse_loop_digital_bits fuel allData data s s' allData' :
  parse_loop fuel allData data s = (s', Some (Ok allData')) ->
  digital_bits_stored allData -> digital_bits_stored allData'.
Proof.
  revert allData data s.
  induction fuel as [| fuel IH]; intros allData data s.
  - destruct data; [by intros [= <- <-] | done].
  - destruct data as [| b data]; [by intros [= <- <-] |].
    cbn [parse_loop].
    destruct (parse_body allData (b :: data) s) as [s1 [[allData1 data1] | e]] eqn:E;
      [| done].
    intros Hloop Hinv. eapply IH; [exact Hloop |].
    rewrite parse_body_eq in E.
    destruct (analyze_header (b :: data)) as [[[[psize ptype] pdata] rest] | ?];
      [| done].
    by eapply parse_packet_digital_bits.
Qed.

Lemma parse_digital_bits data s s' allData :
  parse data s = (s', Some (Ok allData)) -> digital_bits_stored allData.
Proof.
  intros H. eapply parse_loop_digital_bits; [exact H |].
  intros mb. by rewrite lookup_empty.
Qed.

Lemma run_packet_digital_bits now data m :
  digital_bits_stored (_dict m) ->
  digital_bits_stored (_dict (pass_monitor (run_packet now data m))).
Proof.
  intros Hinv.
  destruct (parse data (_parser m)) as [p [[tmpdict | e] |]] eqn:Hparse.
  - rewrite (run_packet_dict now data m p tmpdict Hparse).
    by eapply parse_digital_bits.
  - unfold run_packet. rewrite Hparse. by destruct e.
  - unfold run_packet. by rewrite Hparse.
Qed.

Lemma reachable_digital_bits m : reachable m -> digital_bits_stored (_dict m).
Proof.
  induction 1 as [| now incoming m _ IH | prog m _ IH].
  - intros mb. simpl. by rewrite lookup_empty.
  - unfold run_pass.
    destruct (monitor_get_data incoming (drain_one m)) as [[[data |] m1] rest] eqn:Hget;
      apply monitor_get_data_dict in Hget; rewrite drain_one_dict in Hget; simpl.
    + apply run_packet_digital_bits. by rewrite Hget.
    + by rewrite Hget.
  - exact IH.
Qed.

(** On a monitor of a connection, a MasterBoardData record is enough for
    the two getters to return the stored bits. *)
Lemma reachable_digital_out m n :
  reachable m ->
  is_Some (_dict m !! "MasterBoardData") ->
  0 <= n ->
  exists out inp,
    get_digital_out_bits m = Ok (VInt out) /\
    get_digital_in_bits m = Ok (VInt inp) /\
    get_digital_out n m = Ok (if Z.testbit out n then 1 else 0) /\
    get_digital_in n m = Ok (if Z.testbit inp n then 1 else 0).
Proof.
  intros Hr [mb Hmb] Hn.
  destruct (reachable_digital_bits m Hr mb Hmb) as (out & inp & Hout & Hinp).
  exists out, inp.
  unfold get_digital_out_bits, get_digital_in_bits, get_digital_out,
    get_digital_in, getitem.
  rewrite Hmb. simpl. rewrite Hout, Hinp.
  by rewrite (get_bit_testbit m _ mb out), (get_bit_testbit m _ mb inp).
Qed.

(** ** Which exceptions the header analysis raises *)

Lemma analyze_header_raises data e :
  analyze_header data = Raise e -> e = ParsingException.
Proof.
  unfold analyze_header.
  destruct (Nat.ltb_spec (length data) 5) as [| Hlen]; [by intros [= <-] |].
  destruct (get_header_long data Hlen) as (sz & ty & ->). simpl.
  destruct (sz <? 5); [by intros [= <-] |].
  destruct (Z.of_nat (length data) <? sz); [by intros [= <-] | done].
Qed.

(** After one program is queued on an empty queue, the next pass writes
    it to the socket and notifies it. *)
Lemma drain_one_after_send prog m :
  _prog_queue m = [] ->
  socket_sent (drain_one (send_program prog m)) =
    socket_sent m ++ [prog_bytes prog ++ [x0a]] /\
  notified (drain_one (send_program prog m)) =
    notified m ++ [{| program := prog_bytes prog ++ [x0a] |}] /\
  _prog_queue (drain_one (send_program prog m)) = [].
Proof.
  intros Hq. unfold drain_one, send_program. simpl. rewrite Hq. by simpl.
Qed.

(** ** The example packets, decoded *)

(** The size-47 packet: fifteen fields, [speedFractionLimit] decoded with
    the one-byte code ["c"], and no [reservedByUR]. *)
Example frame_rmd47_decoded :
  (r ← (match (parse frame_rmd47 new_ParserUtils).2 with
        | Some (Ok allData) => allData !! "RobotModeData"
        | _ => None
        end);
   Some (size r, r !! "speedFractionLimit", r !! "reservedByUR")) =
  Some (15%nat, Some (VBytes [x00]), None).
Proof. vm_compute. reflexivity. Qed.

(** The size-46 packet: fourteen fields, none of them [speedFractionLimit]. *)
Example frame_rmd46_decoded :
  (r ← (match (parse frame_rmd46 new_ParserUtils).2 with
        | Some (Ok allData) => allData !! "RobotModeData"
        | _ => None
        end);
   Some (size r, r !! "speedFractionLimit")) =
  Some (14%nat, None).
Proof. vm_compute. reflexivity. Qed.

(** Below (3, 2) the AdditionalInfo packet of a group leaves no record;
    after a size-46 RobotModeData packet the same group gives one. *)
Example frame_additional_info_decoded :
  (dom <$> (parse frame_additional_info new_ParserUtils).2 ≫= λ r,
     match r with Ok allData => Some allData | Raise _ => None end) =
    Some ({[ "SecondaryClientData" ]} : gset string) /\
  (dom <$> (parse frame_additional_info
              (parse frame_rmd46 new_ParserUtils).1).2 ≫= λ r,
     match r with Ok allData => Some allData | Raise _ => None end) =
    Some ({[ "SecondaryClientData"; "AdditionalInfo" ]} : gset string).
Proof. split; vm_compute; reflexivity. Qed.

(** * Further properties of the parser and of the monitor *)

(** ** Headers *)

Lemma byte_val_range b : 0 <= byte_val b < 256.
Proof.
  unfold byte_val. pose proof (Byte.to_N_bounded b). lia.
Qed.

Lemma be_uint_app bs b : be_uint (bs ++ [b]) = be_uint bs * 256 + byte_val b.
Proof. unfold be_uint. by rewrite fold_left_app. Qed.

Lemma be_uint_range bs : 0 <= be_uint bs < 256 ^ Z.of_nat (length bs).
Proof.
  induction bs as [| b bs IH] using rev_ind; [by simpl |].
  rewrite be_uint_app, length_app, Nat2Z.inj_add, Z.pow_add_r by lia.
  pose proof (byte_val_range b). simpl length. change (256 ^ Z.of_nat 1) with 256.
  nia.
Qed.

Lemma be_int_range bs :
  (0 < length bs)%nat ->
  - 2 ^ (8 * Z.of_nat (length bs) - 1) <= be_int bs
    < 2 ^ (8 * Z.of_nat (length bs) - 1).
Proof.
  intros Hlen. unfold be_int. pose proof (be_uint_range bs) as Hu.
  assert (256 ^ Z.of_nat (length bs) = 2 * 2 ^ (8 * Z.of_nat (length bs) - 1)) as E.
  { change 256 with (2 ^ 8). rewrite <- Z.pow_mul_r by lia.
    rewrite <- Z.pow_succ_r by lia. f_equal. lia. }
  assert (2 ^ (8 * Z.of_nat (length bs)) = 2 * 2 ^ (8 * Z.of_nat (length bs) - 1)) as E'.
  { rewrite <- Z.pow_succ_r by lia. f_equal. lia. }
  destruct (Z.ltb_spec (be_uint bs) (2 ^ (8 * Z.of_nat (length bs) - 1))); lia.
Qed.

(** X1.  [analyze_header] either raises [ParsingException], exactly when
    fewer than five bytes are there or the declared size is below five
    or above the bytes there, or it cuts [data] in two at the declared
    size: the packet, header included, and what follows it.  The
    declared size is a signed 32-bit number and the type an unsigned
    byte. *)
Theorem analyze_header_outcome data :
  match analyze_header data with
  | Ok (psize, ptype, pdata, rest) =>
    get_header data = Ok (psize, ptype) /\
    5 <= psize < 2 ^ 31 /\ 0 <= ptype < 256 /\
    pdata ++ rest = data /\ Z.of_nat (length pdata) = psize
  | Raise e =>
    e = ParsingException /\
    ((length data < 5)%nat \/
     exists psize ptype,
       get_header data = Ok (psize, ptype) /\
       (psize < 5 \/ Z.of_nat (length data) < psize))
  end.
Proof.
  unfold analyze_header.
  destruct (Nat.ltb_spec (length data) 5) as [| Hlen]; [auto |].
  destruct (get_header_long data Hlen) as (sz & ty & Hh). rewrite Hh. simpl.
  destruct (Z.ltb_spec sz 5); [split; [done |]; right; eauto 6 |].
  destruct (Z.ltb_spec (Z.of_nat (length data)) sz);
    [split; [done |]; right; eauto 6 |].
  rewrite slice_to_nonneg, slice_from_nonneg by lia.
  rewrite take_drop, length_take.
  unfold get_header in Hh. rewrite slice_to_nonneg in Hh by lia.
  destruct (length (take (Z.to_nat 5) data) =? 5)%nat; [| done].
  injection Hh as <- <-.
  pose proof (be_int_range (take 4 (take (Z.to_nat 5) data))) as Hi.
  pose proof (be_uint_range (drop 4 (take (Z.to_nat 5) data))) as Hu.
  rewrite !length_take in Hi. rewrite length_drop, length_take in Hu.
  replace (4 `min` (Z.to_nat 5 `min` length data))%nat with 4%nat in Hi by lia.
  replace (Z.to_nat 5 `min` length data - 4)%nat with 1%nat in Hu by lia.
  change (2 ^ (8 * Z.of_nat 4 - 1)) with (2 ^ 31) in Hi.
  change (256 ^ Z.of_nat 1) with 256 in Hu.
  repeat split; try lia.
Qed.

(** ** What [_get_data] returns and raises *)

Lemma NoDup_take_prefix {A} (n : nat) (l : list A) : NoDup l -> NoDup (take n l).
Proof.
  intros H. rewrite <- (take_drop n l) in H. by apply NoDup_app in H as [? _].
Qed.

(** X2.  For a format built from the codes of the model
    ([struct_format]): when [_get_data] returns, the keys of the record
    are the first [field_count] names of the tuple, as many as the
    format has fields: names beyond the format are not assigned.  With
    distinct names the record has
    [min (field_count fmt) (len key_names)] entries. *)
Theorem get_data_keys data fmt key_names d :
  struct_format fmt = true ->
  _get_data data fmt key_names = Ok d ->
  NoDup key_names ->
  dom d = list_to_set (layout fmt key_names) /\
  size d = (field_count (list_ascii_of_string (strip fmt))
              `min` length key_names)%nat /\
  forall key, key ∉ layout fmt key_names -> d !! key = None.
Proof.
  intros _ H Hnd. pose proof (_get_data_dom _ _ _ _ H) as Hdom.
  split; [done |]. split.
  - rewrite <- size_dom, Hdom. unfold layout.
    rewrite size_list_to_set by (by apply NoDup_take_prefix).
    by rewrite length_take.
  - intros key Hkey. by eapply record_lacks.
Qed.

(** X3.  For a format built from the codes of the model
    ([struct_format]) in which no array is among the fields that get a
    name, so that these fields take a fixed number [k] of bytes:
    [_get_data] returns exactly when the data has [k] bytes or more,
    and raises [ParsingException] exactly when it has fewer. *)
Theorem get_data_array_free data fmt key_names k :
  struct_format fmt = true ->
  fixed_size (list_ascii_of_string (strip fmt)) (length key_names) = Some k ->
  ((length data < k)%nat <-> _get_data data fmt key_names = Raise ParsingException) /\
  ((k <= length data)%nat <-> exists d, _get_data data fmt key_names = Ok d).
Proof.
  intros _ Hk. pose proof (_get_data_fixed data fmt key_names k Hk) as H.
  destruct (Nat.ltb_spec (length data) k) as [Hlt | Hge].
  - rewrite H. split; split; try done; try lia. by intros [d [=]].
  - destruct H as [d ->]. split; split; try done; try lia. eauto.
Qed.

Lemma unpack_int f bs v :
  is_code f "bBhHiIqQ?" = true ->
  unpack f bs = Ok v ->
  exists z, py_index v = Ok z.
Proof.
  destruct f as [[] [] [] [] [] [] [] []]; vm_compute; intros Hf H;
    first [discriminate Hf | injection H as <-; simpl; eauto].
Qed.

(** On a layout that passes [safe_layout], nothing but
    [ParsingException] is raised. *)
Lemma _get_data_loop_raises fmt key_names i prev_int d tmpdata e :
  safe_layout fmt key_names i prev_int = true ->
  (prev_int = true ->
   exists j asn v z, i = S j /\ key_names !! j = Some asn /\
                     d !! asn = Some v /\ py_index v = Ok z) ->
  _get_data_loop fmt key_names i d tmpdata = Raise e ->
  e = ParsingException.
Proof.
  remember (length fmt) as n eqn:Hn.
  revert fmt Hn i prev_int d tmpdata.
  induction (lt_wf n) as [n _ IH]; intros fmt -> i prev_int d tmpdata.
  destruct fmt as [| f fmt']; simpl; [done |].
  destruct (Nat.leb_spec (length key_names) i) as [Hi | Hi]; [done |].
  destruct (py_nth_nat key_names i Hi) as (name & Hname & Hlook).
  destruct (is_code f " !><").
  { intros Hsafe Hprev. eapply IH; [| reflexivity | exact Hsafe | exact Hprev].
    simpl. lia. }
  destruct (is_code f "A").
  - intros [Hsz Hnext]%andb_prop Hprev.
    assert ((exists a k, array_size fmt' key_names i d tmpdata = Ok a /\
                         py_index a = Ok k) \/
            array_size fmt' key_names i d tmpdata = Raise ParsingException)
      as [(a & k & Ha & Hk) | Hr].
    { unfold array_size.
      destruct (length fmt' =? 1)%nat; [left; simpl; eauto |].
      simpl in Hsz. destruct i as [| j]; [done |].
      replace (Z.of_nat (S j) - 1) with (Z.of_nat j) by lia.
      destruct (py_nth_nat key_names j) as (asn & -> & Hasn); [lia |].
      rewrite Hasn in Hsz. simpl.
      destruct (endswith asn "Size"); simpl; [| by right].
      simpl in Hsz.
      destruct (Hprev Hsz) as (j' & asn' & v & z & [= <-] & Hj & Hd & Hz).
      assert (asn' = asn) as -> by congruence.
      unfold getitem. rewrite Hd. left. eauto. }
    2: { rewrite Hr. simpl. by intros [= <-]. }
    rewrite Ha. simpl. rewrite Hk. simpl. rewrite Hname. simpl.
    destruct fmt' as [| c fmt'']; [done |].
    eapply IH; [| reflexivity | exact Hnext | done]. simpl. lia.
  - destruct (calcsize f) as [sz |] eqn:Hsz; [| done]. simpl.
    intros Hsafe _.
    destruct (length tmpdata <? sz)%nat; [by intros [= <-] |].
    destruct (calcsize_unpack f sz (take sz tmpdata) Hsz) as [v Hv].
    rewrite Hv. simpl. rewrite Hname. simpl.
    eapply IH; [| reflexivity | exact Hsafe |]; [simpl; lia |].
    intros Hint. destruct (unpack_int f _ v Hint Hv) as [z Hz].
    exists i, name, v, z. by rewrite lookup_insert_eq.
Qed.

Lemma _get_data_raises data fmt key_names e :
  safe_layout (list_ascii_of_string (strip fmt)) key_names 0 false = true ->
  _get_data data fmt key_names = Raise e ->
  e = ParsingException.
Proof.
  intros Hsafe. unfold _get_data. by eapply _get_data_loop_raises.
Qed.

(** ** The exceptions of [parse] *)

Ltac decode_raises :=
  rewrite ?decode_into_eq;
  match goal with
  | |- context [_get_data ?pdata ?fmt ?names] =>
    let E := fresh "E" in
    destruct (_get_data pdata fmt names) eqn:E; intros [= <- <-];
    eapply _get_data_raises; [| exact E]; vm_compute; reflexivity
  end.

Lemma message_header_type tmp pdata :
  _get_data pdata "!iB Qbb" (message_names []) = Ok tmp ->
  exists mt, getitem tmp "robotMessageType" = Ok mt.
Proof.
  intros H. apply _get_data_dom in H.
  assert ("robotMessageType" ∈ dom tmp) as [mt Hmt]%elem_of_dom.
  { rewrite H. apply elem_of_list_to_set. unfold layout.
    change (list_ascii_of_string (strip "!iB Qbb"))
      with ["!"; "i"; "B"; " "; "Q"; "b"; "b"]%char.
    simpl. rewrite !elem_of_cons. tauto. }
  unfold getitem. rewrite Hmt. eauto.
Qed.

Lemma parse_message_raises allData pdata s s' e :
  parse_message allData pdata s = (s', Raise e) -> e = ParsingException.
Proof.
  unfold parse_message. rewrite bind_eq. unfold lift.
  destruct (_get_data pdata "!iB Qbb" (message_names [])) as [tmp | e0] eqn:E.
  2: { intros [= <- <-]. eapply _get_data_raises; [| exact E]. reflexivity. }
  rewrite bind_eq. destruct (message_header_type tmp pdata E) as [mt ->].
  split_ifs; try decode_raises. by mstep.
Qed.

Lemma parse_robot_mode_raises allData psize pdata s s' e :
  parse_robot_mode allData psize pdata s = (s', Raise e) -> e = ParsingException.
Proof.
  unfold parse_robot_mode. split_ifs; mstep; decode_raises.
Qed.

Lemma parse_packet_raises allData psize ptype pdata data s s' e :
  parse_packet allData psize ptype pdata data s = (s', Raise e) ->
  e = ParsingException.
Proof.
  unfold parse_packet. rewrite bind_eq. unfold get_version.
  split_ifs; try rewrite bind_eq.
  all: try (rewrite decode_into_eq;
            match goal with
            | |- context [_get_data ?pdata ?fmt ?names] =>
              let E := fresh "E" in
              destruct (_get_data pdata fmt names) eqn:E; [done |];
              intros [= <- <-];
              eapply _get_data_raises; [| exact E]; vm_compute; reflexivity
            end).
  - destruct (parse_robot_mode allData psize pdata s) as [s1 [a | e1]] eqn:E;
      [done |].
    intros [= <- <-]. by eapply parse_robot_mode_raises.
  - done.
  - destruct (parse_message allData pdata s) as [s1 [a | e1]] eqn:E; [done |].
    intros [= <- <-]. by eapply parse_message_raises.
  - by mstep.
Qed.

Lemma parse_loop_raises fuel allData data s s' e :
  parse_loop fuel allData data s = (s', Some (Raise e)) -> e = ParsingException.
Proof.
  revert allData data s.
  induction fuel as [| fuel IH]; intros allData data s.
  - by destruct data.
  - destruct data as [| b data]; [done |].
    cbn [parse_loop]. rewrite parse_body_eq.
    destruct (analyze_header (b :: data)) as [[[[psize ptype] pdata] rest] | e0] eqn:Hh.
    + destruct (parse_packet allData psize ptype pdata rest s)
        as [s1 [[allData1 data1] | e1]] eqn:E.
      * apply IH.
      * intros [= <- <-]. by eapply parse_packet_raises.
    + intros [= <- <-]. by eapply analyze_header_raises.
Qed.

(** X4.  [parse] raises nothing but [ParsingException]: the layouts it
    gives to [_get_data] have a size for every code and a counted field
    before every inner array, and the header analysis raises nothing
    else.  So the [except ParsingException] of [run] catches whatever
    decoding raises. *)
Theorem parse_raises_parsing_exception data s s' e :
  parse data s = (s', Some (Raise e)) -> e = ParsingException.
Proof. apply parse_loop_raises. Qed.

(** ** The fields of the RobotModeData records that [parse] makes *)

Lemma list_length_ge_21 {A} (l : list A) :
  (21 <= length l)%nat ->
  exists a0 a1 a2 a3 a4 a5 a6 a7 a8 a9 a10 a11 a12 a13 a14 a15 a16 a17 a18
         a19 a20 rest,
    l = a0 :: a1 :: a2 :: a3 :: a4 :: a5 :: a6 :: a7 :: a8 :: a9 :: a10
        :: a11 :: a12 :: a13 :: a14 :: a15 :: a16 :: a17 :: a18 :: a19
        :: a20 :: rest.
Proof.
  intros H.
  do 21 (destruct l as [| ? l]; [simpl in H; lia |]).
  by eexists _, _, _, _, _, _, _, _, _, _, _, _, _, _, _, _, _, _, _, _, _, _.
Qed.

Ltac robot_mode_fields k :=
  lazymatch goal with
  | H : _get_data ?pdata ?fmt ?names = Ok ?r |- _ =>
    let Hlen := fresh "Hlen" in
    pose proof (_get_data_fixed pdata fmt names k eq_refl) as Hlen;
    destruct (Nat.ltb_spec (length pdata) k); [congruence |];
    clear Hlen;
    destruct (list_length_ge_21 pdata)
      as (a0 & a1 & a2 & a3 & a4 & a5 & a6 & a7 & a8 & a9 & a10 & a11 & a12
          & a13 & a14 & a15 & a16 & a17 & a18 & a19 & a20 & rest & ->);
      [lia |];
    revert H; unfold _get_data; norm_fmt;
    unfold robot_mode_names_32, robot_mode_names_35, robot_mode_names_30,
      robot_mode_names_legacy; cbn [app];
    do 12 loop_step; intros H;
    split;
    [ rewrite (_get_data_loop_keeps _ _ _ _ _ _ "robotMode" H)
        by (vm_compute; not_in_names);
      eexists; by simplify_map_eq
    | intros key Hkey; unfold mode_flags in Hkey;
      repeat (apply elem_of_cons in Hkey as [-> | Hkey];
              [ rewrite (_get_data_loop_keeps _ _ _ _ _ _ _ H)
                  by (vm_compute; not_in_names);
                eexists; by simplify_map_eq | ]);
      by apply elem_of_nil in Hkey ]
  end.

Lemma robot_mode_decode_30 pdata r :
  _get_data pdata "!IBQ???????BBdd" robot_mode_names_30 = Ok r ->
  (exists z, r !! "robotMode" = Some (VInt z)) /\
  (forall key, key ∈ mode_flags -> exists b, r !! key = Some (VBool b)).
Proof. intros H. robot_mode_fields 38%nat. Qed.

Lemma robot_mode_decode_32 pdata r :
  _get_data pdata "!IBQ???????BBdd" robot_mode_names_32 = Ok r ->
  (exists z, r !! "robotMode" = Some (VInt z)) /\
  (forall key, key ∈ mode_flags -> exists b, r !! key = Some (VBool b)).
Proof. intros H. robot_mode_fields 38%nat. Qed.

Lemma robot_mode_decode_35 pdata r :
  _get_data pdata "!IBQ???????BBddc" robot_mode_names_35 = Ok r ->
  (exists z, r !! "robotMode" = Some (VInt z)) /\
  (forall key, key ∈ mode_flags -> exists b, r !! key = Some (VBool b)).
Proof. intros H. robot_mode_fields 39%nat. Qed.

Lemma robot_mode_decode_legacy pdata r :
  _get_data pdata "!iBQ???????Bd" robot_mode_names_legacy = Ok r ->
  (exists z, r !! "robotMode" = Some (VInt z)) /\
  (forall key, key ∈ mode_flags -> exists b, r !! key = Some (VBool b)).
Proof. intros H. robot_mode_fields 29%nat. Qed.

Lemma parse_robot_mode_flags allData psize pdata s s' allData' :
  parse_robot_mode allData psize pdata s = (s', Ok allData') ->
  mode_flags_stored allData'.
Proof.
  unfold parse_robot_mode.
  split_ifs; mstep;
    destruct (_get_data pdata _ _) as [r |] eqn:E; intros [= <- <-];
    intros rmd; rewrite lookup_insert_eq; intros [= <-].
  - by eapply robot_mode_decode_30.
  - by eapply robot_mode_decode_32.
  - by eapply robot_mode_decode_35.
  - by eapply robot_mode_decode_legacy.
Qed.

(** Only the [ptype == 0] branch assigns the key [RobotModeData]. *)
Lemma parse_packet_keeps_mode allData psize ptype pdata data s s' allData' data' :
  ptype <> 0 ->
  parse_packet allData psize ptype pdata data s = (s', Ok (allData', data')) ->
  allData' !! "RobotModeData" = allData !! "RobotModeData".
Proof.
  intros Hne. unfold parse_packet. rewrite bind_eq. unfold get_version.
  destruct (Z.eqb_spec ptype 0); [done |].
  split_ifs; mstep;
    try (destruct (_get_data pdata _ _); intros [= <- <- <-];
         by rewrite lookup_insert_ne).
  - by intros [= <- <- <-].
  - destruct (parse_message allData pdata s) as [s1 [a | e]] eqn:E;
      intros [= <- <- <-].
    apply parse_message_inv in E as [-> | (key & r & -> & ? & ? & ? & ?)];
      [done |].
    by rewrite lookup_insert_ne.
  - by intros [= <- <- <-].
Qed.

Lemma parse_packet_mode_flags allData psize ptype pdata data s s' allData' data' :
  parse_packet allData psize ptype pdata data s = (s', Ok (allData', data')) ->
  mode_flags_stored allData -> mode_flags_stored allData'.
Proof.
  intros E Hinv. destruct (Z.eq_dec ptype 0) as [-> | Hne].
  - rewrite parse_packet_robot_mode in E.
    destruct (parse_robot_mode allData psize pdata s) as [s1 [a | e]] eqn:E1;
      [| done].
    injection E as <- <- <-. by eapply parse_robot_mode_flags.
  - intros rmd. rewrite (parse_packet_keeps_mode _ _ _ _ _ _ _ _ _ Hne E).
    apply Hinv.
Qed.

Lemma parse_loop_mode_flags fuel allData data s s' allData' :
  parse_loop fuel allData data s = (s', Some (Ok allData')) ->
  mode_flags_stored allData -> mode_flags_stored allData'.
Proof.
  revert allData data s.
  induction fuel as [| fuel IH]; intros allData data s.
  - destruct data; [by intros [= <- <-] | done].
  - destruct data as [| b data]; [by intros [= <- <-] |].
    cbn [parse_loop].
    destruct (parse_body allData (b :: data) s) as [s1 [[allData1 data1] | e]] eqn:E;
      [| done].
    intros Hloop Hinv. eapply IH; [exact Hloop |].
    rewrite parse_body_eq in E.
    destruct (analyze_header (b :: data)) as [[[[psize ptype] pdata] rest] | ?];
      [| done].
    by eapply parse_packet_mode_flags.
Qed.

Lemma parse_mode_flags data s s' allData :
  parse data s = (s', Some (Ok allData)) -> mode_flags_stored allData.
Proof.
  intros H. eapply parse_loop_mode_flags; [exact H |].
  intros rmd. by rewrite lookup_empty.
Qed.

Lemma and_field_ok d rmd status key test v :
  d !! "RobotModeData" = Some rmd ->
  rmd !! key = Some v ->
  and_field d status key test = Ok (status && test v).
Proof.
  intros Hd Hk. unfold and_field, getitem.
  destruct status; [| done]. by rewrite Hd; simpl; rewrite Hk.
Qed.

(** With the fields there, [check_if_running] is the conjunction of its
    six tests. *)
Lemma check_if_running_flags d rmd rmode :
  mode_flags_stored d ->
  d !! "RobotModeData" = Some rmd ->
  exists z enabled estop sstop connected power,
    rmd !! "robotMode" = Some (VInt z) /\
    rmd !! "isRealRobotEnabled" = Some (VBool enabled) /\
    rmd !! "isEmergencyStopped" = Some (VBool estop) /\
    rmd !! "isSecurityStopped" = Some (VBool sstop) /\
    rmd !! "isRobotConnected" = Some (VBool connected) /\
    rmd !! "isPowerOnRobot" = Some (VBool power) /\
    check_if_running d rmode =
      Ok ((z =? rmode) && enabled && negb estop && negb sstop
          && connected && power).
Proof.
  intros Hinv Hd. destruct (Hinv rmd Hd) as [[z Hz] Hflags].
  destruct (Hflags "isRealRobotEnabled") as [enabled He];
    [unfold mode_flags; rewrite !elem_of_cons; tauto |].
  destruct (Hflags "isEmergencyStopped") as [estop Hes];
    [unfold mode_flags; rewrite !elem_of_cons; tauto |].
  destruct (Hflags "isSecurityStopped") as [sstop Hss];
    [unfold mode_flags; rewrite !elem_of_cons; tauto |].
  destruct (Hflags "isRobotConnected") as [connected Hc];
    [unfold mode_flags; rewrite !elem_of_cons; tauto |].
  destruct (Hflags "isPowerOnRobot") as [power Hp];
    [unfold mode_flags; rewrite !elem_of_cons; tauto |].
  exists z, enabled, estop, sstop, connected, power.
  repeat (split; [done |]).
  unfold check_if_running.
  rewrite (and_field_ok d rmd _ _ _ _ Hd Hz). cbn [result_bind py_eq_int].
  rewrite (and_field_ok d rmd _ _ _ _ Hd He). cbn [result_bind].
  rewrite (and_field_ok d rmd _ _ _ _ Hd Hes). cbn [result_bind].
  rewrite (and_field_ok d rmd _ _ _ _ Hd Hss). cbn [result_bind].
  rewrite (and_field_ok d rmd _ _ _ _ Hd Hc). cbn [result_bind].
  rewrite (and_field_ok d rmd _ _ _ _ Hd Hp). cbn [result_bind].
  f_equal. unfold is_bool.
  by destruct (z =? rmode), enabled, estop, sstop, connected, power.
Qed.

(** X5.  No packet ends the loop of [run]: whatever bytes [_get_data]
    hands over, the pass over them ends at the end of the body or at a
    [continue].  [parse] returns, it raises only the exception that
    [run] catches, and the record read by [check_if_running] has the
    fields it reads. *)
Theorem run_packet_continues now data m :
  exists m', run_packet now data m = Next m'.
Proof.
  unfold run_packet.
  destruct (parse data (_parser m)) as [p r] eqn:Hparse.
  destruct (parse_returns data (_parser m)) as [r' Hr].
  rewrite Hparse in Hr. simpl in Hr. subst r.
  destruct r' as [tmpdict | e].
  - pose proof (parse_mode_flags _ _ _ _ Hparse) as Hflags. simpl.
    destruct (tmpdict !! "RobotModeData") as [rmd |] eqn:Hrmd; [| eauto].
    destruct (check_if_running_flags tmpdict rmd
                (if version_ge (version p) (3, 0) then 7 else 0) Hflags Hrmd)
      as (z & b1 & b2 & b3 & b4 & b5 & _ & _ & _ & _ & _ & _ & ->).
    eauto.
  - apply parse_loop_raises in Hparse as ->. eauto.
Qed.

(** X6.  A pass whose batch holds RobotModeData stores the batch, stamps
    the time, notifies the waiters once and sets [running] to the
    conjunction of the six tests, with 7 as the expected [robotMode]
    once the version is at least (3, 0) and 0 before.  It logs the
    record as an error exactly when [running] falls from true to
    false. *)
Theorem run_packet_running now data m p tmpdict rmd :
  parse data (_parser m) = (p, Some (Ok tmpdict)) ->
  tmpdict !! "RobotModeData" = Some rmd ->
  exists z enabled estop sstop connected power m',
    rmd !! "robotMode" = Some (VInt z) /\
    rmd !! "isRealRobotEnabled" = Some (VBool enabled) /\
    rmd !! "isEmergencyStopped" = Some (VBool estop) /\
    rmd !! "isSecurityStopped" = Some (VBool sstop) /\
    rmd !! "isRobotConnected" = Some (VBool connected) /\
    rmd !! "isPowerOnRobot" = Some (VBool power) /\
    run_packet now data m = Next m' /\
    running m' =
      (z =? (if version_ge (version p) (3, 0) then 7 else 0))
      && enabled && negb estop && negb sstop && connected && power /\
    _dict m' = tmpdict /\
    lastpacket_timestamp m' = now /\
    data_events m' = S (data_events m) /\
    version (_parser m') = version p /\
    logger (_parser m') =
      logger p ++ (if running m && negb (running m')
                   then [ErrorNotRunning rmd] else []).
Proof.
  intros Hparse Hrmd.
  pose proof (parse_mode_flags _ _ _ _ Hparse) as Hflags.
  destruct (check_if_running_flags tmpdict rmd
              (if version_ge (version p) (3, 0) then 7 else 0) Hflags Hrmd)
    as (z & b1 & b2 & b3 & b4 & b5 & H1 & H2 & H3 & H4 & H5 & H6 & Hc).
  exists z, b1, b2, b3, b4, b5.
  unfold run_packet. rewrite Hparse. simpl. rewrite Hrmd, Hc.
  set (ok := (z =? _) && b1 && negb b2 && negb b3 && b4 && b5).
  destruct ok, (running m); simpl; eexists;
    (split; [exact H1 |]); (split; [exact H2 |]); (split; [exact H3 |]);
    (split; [exact H4 |]); (split; [exact H5 |]); (split; [exact H6 |]);
    (split; [reflexivity |]); simpl; rewrite ?app_nil_r; done.
Qed.

(** ** The dictionaries a monitor holds *)

Lemma run_pass_dict_inv (P : batch -> Prop) now incoming m :
  (forall data s s' allData, parse data s = (s', Some (Ok allData)) -> P allData) ->
  P (_dict m) ->
  P (_dict (pass_monitor (run_pass now incoming m).1)).
Proof.
  intros Hparse Hm. unfold run_pass.
  destruct (monitor_get_data incoming (drain_one m)) as [[[data |] m1] rest] eqn:Hget;
    apply monitor_get_data_dict in Hget; rewrite drain_one_dict in Hget; simpl.
  - destruct (parse data (_parser m1)) as [p [[tmpdict | e] |]] eqn:E.
    + rewrite (run_packet_dict now data m1 p tmpdict E). by eapply Hparse.
    + unfold run_packet. rewrite E. destruct e; simpl; by rewrite Hget.
    + unfold run_packet. rewrite E. simpl. by rewrite Hget.
  - by rewrite Hget.
Qed.

Lemma reachable_mode_flags m : reachable m -> mode_flags_stored (_dict m).
Proof.
  induction 1 as [| now incoming m _ IH | prog m _ IH].
  - intros rmd. simpl. by rewrite lookup_empty.
  - apply run_pass_dict_inv; [| exact IH]. apply parse_mode_flags.
  - exact IH.
Qed.

(** X7.  On a monitor of a connection that has seen RobotModeData,
    [is_program_running] returns a boolean, the [isProgramRunning] byte
    of the last stored record. *)
Theorem is_program_running_bool m :
  reachable m ->
  is_Some (_dict m !! "RobotModeData") ->
  exists b, is_program_running m = Ok (VBool b).
Proof.
  intros Hr [rmd Hrmd].
  destruct (reachable_mode_flags m Hr rmd Hrmd) as [_ Hflags].
  destruct (Hflags "isProgramRunning") as [b Hb];
    [unfold mode_flags; rewrite !elem_of_cons; tauto |].
  exists b. unfold is_program_running, getitem. rewrite Hrmd. simpl.
  by rewrite Hb.
Qed.

(** ** What the frame scanner returns and logs *)

Lemma get_header_take n data :
  (5 <= n)%nat -> get_header (take n data) = get_header data.
Proof.
  intros Hn. unfold get_header. rewrite !slice_to_nonneg by lia.
  rewrite take_take. by replace (Z.to_nat 5 `min` n)%nat with (Z.to_nat 5) by lia.
Qed.

Lemma header_valid_inv data :
  header_valid data = true ->
  exists sz, get_header data = Ok (sz, 16) /\ 5 <= sz <= 2000 /\
             (5 <= length data)%nat.
Proof.
  unfold header_valid. intros H.
  destruct (Nat.lt_ge_cases (length data) 5) as [Hlen | Hlen].
  { by rewrite get_header_short in H. }
  destruct (get_header data) as [[sz ty] |]; [| done].
  destruct (Z.leb_spec 5 sz), (Z.leb_spec sz 2000), (Z.eqb_spec ty 16);
    try done. subst. eauto with lia.
Qed.

Lemma find_first_packet_loop_found counter limit data s s' frame rest :
  find_first_packet_loop counter limit data s = (s', Ok (Some (frame, rest))) ->
  exists garbage warnings,
    data = garbage ++ frame ++ rest /\
    header_valid frame = true /\
    length frame = declared_size frame /\
    (forall j, (j < length garbage)%nat -> header_valid (drop j data) = false) /\
    version s' = version s /\
    logger s' =
      logger s ++ warnings ++
      DebugGotPacket (Z.of_nat (length frame)) 16 ::
      (if (counter + length garbage =? 0)%nat then []
       else [InfoGarbage (counter + length garbage)]) /\
    ((counter + length garbage <= limit)%nat -> warnings = []).
Proof.
  revert counter limit s.
  induction data as [| b data1 IH]; intros counter limit s; [done |].
  cbn [find_first_packet_loop].
  destruct (Nat.leb_spec 5 (length (b :: data1))) as [Hlen |]; [| done].
  destruct (get_header_long (b :: data1) Hlen) as (sz & ty & Hh).
  rewrite bind_eq. unfold lift. rewrite Hh.
  destruct ((sz <? 5) || (2000 <? sz) || negb (ty =? 16)) eqn:Hbad.
  - assert (header_valid (b :: data1) = false) as Hinv.
    { unfold header_valid. rewrite Hh.
      destruct (Z.leb_spec 5 sz), (Z.leb_spec sz 2000), (Z.eqb_spec ty 16),
        (Z.ltb_spec sz 5), (Z.ltb_spec 2000 sz); simpl in *; (done || lia). }
    destruct (Nat.ltb_spec limit (S counter)) as [Hlim | Hlim].
    + mstep. intros H.
      apply IH in H as (g & w & -> & Hv & Hl & Hj & Hver & Hlog & Hw).
      exists (b :: g), (WarningTried (S counter) sz ty
                        :: WarningDataLength (length (g ++ frame ++ rest)) :: w).
      split; [done |]. split; [done |]. split; [done |]. split.
      { intros [| j] Hlt; [done |]. apply Hj. simpl in Hlt. lia. }
      split; [done |]. split.
      { simpl in *. rewrite Hlog, <- !app_assoc. simpl.
        by replace (counter + S (length g))%nat with (S (counter + length g)) by lia. }
      simpl. lia.
    + intros H.
      apply IH in H as (g & w & -> & Hv & Hl & Hj & Hver & Hlog & Hw).
      exists (b :: g), w.
      split; [done |]. split; [done |]. split; [done |]. split.
      { intros [| j] Hlt; [done |]. apply Hj. simpl in Hlt. lia. }
      split; [done |]. split.
      { simpl in *. rewrite Hlog.
        by replace (counter + S (length g))%nat with (S (counter + length g)) by lia. }
      simpl. intros. apply Hw. lia.
  - assert (5 <= sz <= 2000 /\ ty = 16) as [Hsz ->].
    { destruct (Z.eqb_spec ty 16), (Z.ltb_spec sz 5), (Z.ltb_spec 2000 sz);
        simpl in *; (done || lia). }
    destruct (Z.leb_spec sz (Z.of_nat (length (b :: data1)))) as [Hfit |];
      [| by mstep].
    rewrite slice_to_nonneg, slice_from_nonneg by lia.
    assert (length (take (Z.to_nat sz) (b :: data1)) = Z.to_nat sz) as Hlf.
    { rewrite length_take. lia. }
    assert (header_valid (take (Z.to_nat sz) (b :: data1)) = true /\
            declared_size (take (Z.to_nat sz) (b :: data1)) = Z.to_nat sz)
      as [Hv Hd].
    { unfold header_valid, declared_size.
      rewrite get_header_take, Hh by lia.
      destruct (Z.leb_spec 5 sz), (Z.leb_spec sz 2000); try lia; done. }
    destruct (Nat.eqb_spec counter 0) as [-> | Hc]; mstep; intros [= <- <- <-];
      exists [], []; simpl; rewrite take_drop, Hlf, Z2Nat.id by lia;
      repeat split; try done; try lia.
    rewrite Nat.add_0_r. destruct (Nat.eqb_spec counter 0); [done |].
    by rewrite <- app_assoc.
Qed.

(** X8.  When [find_first_packet] returns a frame, the buffer is the
    skipped bytes, the frame and the rest, in this order: nothing is
    lost or reordered after the skipped bytes.  The frame has a valid
    header and exactly its declared size, between 5 and 2000 bytes, and
    no skipped position had a valid header.  The parser's version is
    untouched. *)
Theorem find_first_packet_frame data s s' frame rest :
  find_first_packet data s = (s', Ok (Some (frame, rest))) ->
  exists garbage,
    data = garbage ++ frame ++ rest /\
    first_valid data (length garbage) /\
    header_valid frame = true /\
    length frame = declared_size frame /\
    (5 <= length frame <= 2000)%nat /\
    version s' = version s.
Proof.
  intros H. apply find_first_packet_loop_found in H
    as (g & w & Hdata & Hv & Hl & Hj & Hver & _ & _).
  exists g. split; [done |]. split.
  { split; [| done]. rewrite Hdata, drop_app_length.
    destruct (header_valid_inv frame Hv) as (sz & Hh & Hsz & Hlen).
    unfold header_valid.
    replace (get_header (frame ++ rest)) with (get_header frame); [done |].
    rewrite <- (get_header_take (length frame) (frame ++ rest)) by done.
    by rewrite take_app_length. }
  split; [done |]. split; [done |]. split; [| done].
  destruct (header_valid_inv frame Hv) as (sz & Hh & Hsz & Hlen).
  unfold declared_size in Hl. rewrite Hh in Hl. lia.
Qed.

(** X9.  The log of a successful scan ends with the packet found and,
    when bytes were skipped, with their number; skipping at most ten
    bytes logs no warning. *)
Theorem find_first_packet_log data s s' frame rest garbage :
  find_first_packet data s = (s', Ok (Some (frame, rest))) ->
  data = garbage ++ frame ++ rest ->
  first_valid data (length garbage) ->
  exists warnings,
    logger s' =
      logger s ++ warnings ++
      DebugGotPacket (Z.of_nat (length frame)) 16 ::
      (if (length garbage =? 0)%nat then [] else [InfoGarbage (length garbage)]) /\
    ((length garbage <= 10)%nat -> warnings = []).
Proof.
  intros H Hdata [Hvalid Hfirst].
  apply find_first_packet_loop_found in H
    as (g & w & Hdata' & Hv & Hl & Hj & Hver & Hlog & Hw).
  assert (length g = length garbage) as Hg.
  { destruct (Nat.lt_trichotomy (length g) (length garbage)) as [Hlt | [? | Hlt]];
      [| done |].
    - specialize (Hfirst _ Hlt). rewrite Hdata', drop_app_length in Hfirst.
      destruct (header_valid_inv frame Hv) as (sz & Hh & Hsz & Hlen).
      unfold header_valid in Hfirst.
      rewrite <- (get_header_take (length frame) (frame ++ rest)) in Hfirst by done.
      rewrite take_app_length in Hfirst. unfold header_valid in Hv.
      congruence.
    - specialize (Hj _ Hlt). congruence. }
  exists w. simpl in Hlog, Hw. rewrite <- Hg. by split.
Qed.

(** ** The iterations of [parse] *)

Lemma parse_body_consumes allData data s s' allData' data' :
  parse_body allData data s = (s', Ok (allData', data')) ->
  (length data' + 5 <= length data)%nat.
Proof.
  rewrite parse_body_eq.
  destruct (analyze_header data) as [[[[psize ptype] pdata] rest] | ?] eqn:Hh;
    [| done].
  apply analyze_header_ok in Hh as (_ & Hsz & -> & ->).
  intros [-> _]%parse_packet_inv.
  destruct (ptype =? 16).
  - rewrite take_drop, slice_from_nonneg by lia. rewrite length_drop. lia.
  - rewrite length_drop. lia.
Qed.

Lemma parse_loop_fuel_irrel fuel1 fuel2 allData data s :
  (length data <= fuel1)%nat -> (length data <= fuel2)%nat ->
  parse_loop fuel1 allData data s = parse_loop fuel2 allData data s.
Proof.
  revert fuel2 allData data s.
  induction fuel1 as [| fuel1 IH]; intros fuel2 allData data s H1 H2.
  - destruct data; [by destruct fuel2 | simpl in H1; lia].
  - destruct data as [| b data]; [by destruct fuel2 |].
    destruct fuel2 as [| fuel2]; [simpl in H2; lia |].
    cbn [parse_loop].
    destruct (parse_body allData (b :: data) s) as [s1 [[allData1 data1] | e]] eqn:E;
      [| done].
    apply parse_body_shorter in E. apply IH; lia.
Qed.

Lemma parse_loop_fuel5 fuel allData data s :
  (length data <= 5 * fuel)%nat ->
  parse_loop fuel allData data s = parse_loop (length data) allData data s.
Proof.
  revert allData data s.
  induction fuel as [| fuel IH]; intros allData data s Hlen.
  - destruct data; [done | simpl in Hlen; lia].
  - destruct data as [| b data]; [done |].
    cbn [parse_loop length].
    destruct (parse_body allData (b :: data) s) as [s1 [[allData1 data1] | e]] eqn:E;
      [| done].
    pose proof (parse_body_consumes _ _ _ _ _ _ E) as Hc.
    rewrite IH by lia. apply parse_loop_fuel_irrel; simpl in Hc; lia.
Qed.

(** X10.  Every iteration of the loop of [parse] takes at least five
    bytes off [data], so [parse] returns, and it returns within
    [len(data) / 5], rounded up, iterations: with that many the loop
    gives what [parse] gives. *)
Theorem parse_iterations fuel data s :
  (length data <= 5 * fuel)%nat ->
  parse_loop fuel ∅ data s = parse data s /\
  exists s' r, parse data s = (s', Some r).
Proof.
  intros Hlen. split; [by apply parse_loop_fuel5 |].
  destruct (parse_returns data s) as [r Hr].
  destruct (parse data s) as [s' o]. simpl in Hr. subst o. eauto.
Qed.

(** ** Groups *)

Lemma list_length_ge_5 {A} (l : list A) :
  (5 <= length l)%nat ->
  exists a0 a1 a2 a3 a4 rest, l = a0 :: a1 :: a2 :: a3 :: a4 :: rest.
Proof.
  intros H. do 5 (destruct l as [| ? l]; [simpl in H; lia |]).
  by eexists _, _, _, _, _, _.
Qed.

(** The two fields decoded with ["!iB"] are the header. *)
Lemma header_record data psize ptype :
  get_header data = Ok (psize, ptype) ->
  _get_data data "!iB" ["size"; "type"] =
  Ok (<["type" := VInt ptype]> {[ "size" := VInt psize ]}).
Proof.
  intros Hh.
  destruct (Nat.lt_ge_cases (length data) 5) as [Hlen | Hlen].
  { by rewrite get_header_short in Hh. }
  destruct (list_length_ge_5 data Hlen) as (a0 & a1 & a2 & a3 & a4 & rest & ->).
  unfold get_header in Hh. rewrite slice_to_nonneg in Hh by lia.
  cbn in Hh. injection Hh as <- <-.
  unfold _get_data. norm_fmt. do 3 loop_step. reflexivity.
Qed.

Lemma parse_group data n s :
  get_header data = Ok (n, 16) ->
  5 <= n <= Z.of_nat (length data) ->
  parse data s =
  parse_loop (length data - 5)
    (<["SecondaryClientData" :=
         <["type" := VInt 16]> {[ "size" := VInt n ]}]> ∅)
    (drop 5 data) s.
Proof.
  intros Hh Hn. unfold parse.
  destruct data as [| b data]; [simpl in Hn; lia |].
  cbn [parse_loop length]. rewrite parse_body_eq.
  rewrite (analyze_header_intro _ n 16) by done.
  unfold parse_packet. rewrite bind_eq. unfold get_version.
  change (16 =? 16) with true. cbv iota.
  rewrite bind_eq, decode_into_eq.
  rewrite (header_record _ n 16) by (rewrite get_header_take by lia; done).
  simpl mret. unfold mret, M_ret.
  rewrite take_drop, slice_from_nonneg by lia.
  apply parse_loop_fuel_irrel; rewrite length_drop; simpl; lia.
Qed.

(** X11.  A type-16 packet is a group: [parse] records its header as
    [SecondaryClientData] and goes on with every byte after the fifth.
    The declared size [n] is checked against the bytes there and is
    otherwise not used: bytes after the [n]-th are decoded as packets of
    the group too. *)
Theorem parse_unwraps_group hdr body n s :
  length hdr = 5%nat ->
  get_header (hdr ++ body) = Ok (n, 16) ->
  5 <= n <= 5 + Z.of_nat (length body) ->
  parse (hdr ++ body) s =
  parse_loop (length body)
    {[ "SecondaryClientData" := <["type" := VInt 16]> {[ "size" := VInt n ]} ]}
    body s.
Proof.
  intros Hhdr Hh Hn.
  rewrite (parse_group _ n) by (rewrite ?length_app; (done || lia)).
  rewrite length_app, Hhdr, <- Hhdr, drop_app_length, Hhdr, insert_empty.
  f_equal. lia.
Qed.

(** ** The monitor's input queue *)

Lemma find_first_packet_loop_version counter limit data s :
  version (find_first_packet_loop counter limit data s).1 = version s.
Proof.
  revert counter limit s.
  induction data as [| b data IH]; intros counter limit s; [done |].
  cbn [find_first_packet_loop].
  destruct (5 <=? length (b :: data))%nat; [| done].
  rewrite bind_eq. unfold lift.
  destruct (get_header (b :: data)) as [[sz ty] |]; [| done].
  split_ifs; mstep; try done; by rewrite IH.
Qed.

(** The scan from the first valid header on, whatever the counters. *)
Lemma find_first_packet_loop_first_valid counter limit data s k :
  first_valid data k ->
  (find_first_packet_loop counter limit data s).2 =
  Ok (if (declared_size (drop k data) <=? length (drop k data))%nat
      then Some (take (declared_size (drop k data)) (drop k data),
                 drop (declared_size (drop k data)) (drop k data))
      else None).
Proof.
  revert data counter limit s.
  induction k as [| k IH]; intros data counter limit s [Hv Hbefore].
  - rewrite drop_0 in *. by apply find_first_packet_loop_valid.
  - destruct (find_first_packet_loop_invalid counter limit data s)
      as (c' & l' & s' & ->).
    { specialize (Hbefore 0%nat). rewrite drop_0 in Hbefore.
      apply Hbefore. lia. }
    replace (drop (S k) data) with (drop k (drop 1 data))
      by (by rewrite drop_drop).
    apply (IH (drop 1 data) c' l' s'). split.
    + by rewrite drop_drop.
    + intros j Hj. rewrite drop_drop. apply Hbefore. lia.
Qed.

Lemma monitor_get_data_fields incoming m r m' remaining :
  monitor_get_data incoming m = (r, m', remaining) ->
  version (_parser m') = version (_parser m) /\
  _prog_queue m' = _prog_queue m /\ running m' = running m /\
  lastpacket_timestamp m' = lastpacket_timestamp m /\
  socket_sent m' = socket_sent m /\ notified m' = notified m /\
  data_events m' = data_events m.
Proof.
  revert m. induction incoming as [| tmp incoming IH]; intros m; simpl.
  - pose proof (find_first_packet_loop_version 0 10 (_dataqueue m) (_parser m)) as Hv.
    unfold find_first_packet.
    destruct (find_first_packet_loop 0 10 (_dataqueue m) (_parser m))
      as [p [[[pk rs] |] | e]]; by intros [= <- <- <-].
  - pose proof (find_first_packet_loop_version 0 10 (_dataqueue m) (_parser m)) as Hv.
    unfold find_first_packet.
    destruct (find_first_packet_loop 0 10 (_dataqueue m) (_parser m))
      as [p [[[pk rs] |] | e]]; try (by intros [= <- <- <-]);
      intros H; apply IH in H; simpl in *; by rewrite <- Hv.
Qed.

Lemma monitor_get_data_found incoming m packet m' remaining :
  monitor_get_data incoming m = (Some packet, m', remaining) ->
  exists consumed garbage,
    incoming = consumed ++ remaining /\
    _dataqueue m ++ concat consumed = garbage ++ packet ++ _dataqueue m' /\
    header_valid packet = true /\
    length packet = declared_size packet /\
    _dict m' = _dict m /\
    version (_parser m') = version (_parser m) /\
    _prog_queue m' = _prog_queue m.
Proof.
  intros H.
  pose proof (monitor_get_data_dict _ _ _ _ _ H) as Hdict.
  pose proof (monitor_get_data_fields _ _ _ _ _ H) as (Hver & Hq & _).
  enough (exists consumed garbage,
            incoming = consumed ++ remaining /\
            _dataqueue m ++ concat consumed = garbage ++ packet ++ _dataqueue m' /\
            header_valid packet = true /\
            length packet = declared_size packet)
    as (c & g & ? & ? & ? & ?) by (exists c, g; done).
  clear Hdict Hver Hq. revert m H.
  induction incoming as [| tmp incoming IH]; intros m; simpl.
  - destruct (find_first_packet (_dataqueue m) (_parser m))
      as [p [[[pk rs] |] | e]] eqn:E; try done.
    intros [= <- <- <-].
    apply find_first_packet_loop_found in E
      as (g & w & Hdata & Hv & Hl & _).
    exists [], g. simpl. by rewrite app_nil_r.
  - destruct (find_first_packet (_dataqueue m) (_parser m))
      as [p [[[pk rs] |] | e]] eqn:E.
    + intros [= <- <- <-].
      apply find_first_packet_loop_found in E
        as (g & w & Hdata & Hv & Hl & _).
      exists [], g. simpl. by rewrite app_nil_r.
    + intros H. apply IH in H as (c & g & -> & Hq & Hv & Hl).
      exists (tmp :: c), g. simpl in *. by rewrite app_assoc.
    + by destruct (find_first_packet_returns (_dataqueue m) (_parser m)) as [ans Ha];
        rewrite E in Ha.
Qed.

(** X12.  [_get_data] of the monitor loses no byte after the packet it
    returns: the old queue and the chunks it read are the skipped bytes,
    the packet and the new queue, in this order, and the chunks it did
    not read are left for later.  The packet has a valid header and
    exactly its declared size.  Only the queue and the log change. *)
Theorem monitor_get_data_packet incoming m packet m' remaining :
  monitor_get_data incoming m = (Some packet, m', remaining) ->
  exists consumed garbage,
    incoming = consumed ++ remaining /\
    _dataqueue m ++ concat consumed = garbage ++ packet ++ _dataqueue m' /\
    header_valid packet = true /\
    length packet = declared_size packet /\
    _dict m' = _dict m /\
    version (_parser m') = version (_parser m) /\
    _prog_queue m' = _prog_queue m.
Proof. apply monitor_get_data_found. Qed.

(** X13.  While no packet is complete, [_get_data] of the monitor reads
    every chunk and drops nothing: the queue grows by all of them,
    skipped bytes included, and at the first valid header of the queue,
    if there is one, fewer bytes than declared are there. *)
Theorem monitor_get_data_waiting incoming m m' remaining :
  monitor_get_data incoming m = (None, m', remaining) ->
  remaining = [] /\
  _dataqueue m' = _dataqueue m ++ concat incoming /\
  _dict m' = _dict m /\
  forall k, first_valid (_dataqueue m') k ->
    (length (drop k (_dataqueue m')) < declared_size (drop k (_dataqueue m')))%nat.
Proof.
  intros H. pose proof (monitor_get_data_dict _ _ _ _ _ H) as Hdict.
  enough (remaining = [] /\
          _dataqueue m' = _dataqueue m ++ concat incoming /\
          exists s, (find_first_packet (_dataqueue m') s).2 = Ok None)
    as (? & ? & s & Hnone).
  { repeat split; try done. intros k Hk.
    unfold find_first_packet in Hnone.
    rewrite (find_first_packet_loop_first_valid _ _ _ _ k Hk) in Hnone.
    destruct (Nat.leb_spec (declared_size (drop k (_dataqueue m')))
                (length (drop k (_dataqueue m')))); [done | lia]. }
  clear Hdict. revert m H.
  induction incoming as [| tmp incoming IH]; intros m; simpl.
  - destruct (find_first_packet (_dataqueue m) (_parser m))
      as [p [[[pk rs] |] | e]] eqn:E; try done.
    + intros [= <- <-]. simpl. rewrite app_nil_r.
      repeat split; try done. exists (_parser m). by rewrite E.
    + by destruct (find_first_packet_returns (_dataqueue m) (_parser m)) as [ans Ha];
        rewrite E in Ha.
  - destruct (find_first_packet (_dataqueue m) (_parser m))
      as [p [[[pk rs] |] | e]] eqn:E; try done.
    + intros H. apply IH in H as (-> & Hq & Hs). simpl in *.
      split; [done |]. split; [by rewrite Hq, <- app_assoc | done].
    + by destruct (find_first_packet_returns (_dataqueue m) (_parser m)) as [ans Ha];
        rewrite E in Ha.
Qed.

(** ** The dictionary that [run] stores *)

Lemma parse_loop_keeps_keys fuel allData data s s' allData' key :
  parse_loop fuel allData data s = (s', Some (Ok allData')) ->
  is_Some (allData !! key) -> is_Some (allData' !! key).
Proof.
  revert allData data s.
  induction fuel as [| fuel IH]; intros allData data s.
  - destruct data; [by intros [= <- <-] | done].
  - destruct data as [| b data]; [by intros [= <- <-] |].
    cbn [parse_loop].
    destruct (parse_body allData (b :: data) s) as [s1 [[allData1 data1] | e]] eqn:E;
      [| done].
    intros Hloop Hkey. eapply IH; [exact Hloop |].
    rewrite parse_body_eq in E.
    destruct (analyze_header (b :: data)) as [[[[psize ptype] pdata] rest] | ?];
      [| done].
    apply parse_packet_inv in E
      as [_ [[_ [r ->]] | [_ [-> | (k & r & -> & _)]]]];
      try done; apply lookup_insert_is_Some'; auto.
Qed.

Lemma parse_valid_frame frame s s' allData :
  header_valid frame = true ->
  length frame = declared_size frame ->
  parse frame s = (s', Some (Ok allData)) ->
  is_Some (allData !! "SecondaryClientData").
Proof.
  intros Hv Hl.
  destruct (header_valid_inv frame Hv) as (sz & Hh & Hsz & Hlen).
  unfold declared_size in Hl. rewrite Hh in Hl.
  rewrite (parse_group frame sz) by (done || lia).
  intros H. eapply parse_loop_keeps_keys; [exact H |].
  by rewrite lookup_insert_eq.
Qed.

(** X14.  Whatever [run] stores as the state dictionary holds the group
    header under [SecondaryClientData]: the dictionary of a monitor is
    the empty one it was constructed with or has that key. *)
Theorem reachable_dict_has_group m :
  reachable m ->
  _dict m = ∅ \/ is_Some (_dict m !! "SecondaryClientData").
Proof.
  induction 1 as [| now incoming m _ IH | prog m _ IH].
  - by left.
  - unfold run_pass.
    destruct (monitor_get_data incoming (drain_one m)) as [[[data |] m1] rest] eqn:Hget.
    + pose proof (monitor_get_data_dict _ _ _ _ _ Hget) as Hd.
      rewrite drain_one_dict in Hd.
      apply monitor_get_data_found in Hget as (_ & _ & _ & _ & Hv & Hl & _).
      simpl.
      destruct (parse data (_parser m1)) as [p [[tmpdict | e] |]] eqn:E.
      * rewrite (run_packet_dict now data m1 p tmpdict E). right.
        by eapply parse_valid_frame.
      * unfold run_packet. rewrite E. destruct e; simpl; by rewrite Hd.
      * unfold run_packet. rewrite E. simpl. by rewrite Hd.
    + apply monitor_get_data_dict in Hget. rewrite drain_one_dict in Hget.
      simpl. by rewrite Hget.
  - exact IH.
Qed.

(** ** The command queue *)

Lemma run_packet_fields now data m :
  _prog_queue (pass_monitor (run_packet now data m)) = _prog_queue m /\
  socket_sent (pass_monitor (run_packet now data m)) = socket_sent m /\
  notified (pass_monitor (run_packet now data m)) = notified m /\
  _dataqueue (pass_monitor (run_packet now data m)) = _dataqueue m.
Proof.
  unfold run_packet.
  destruct (parse data (_parser m)) as [p [[tmpdict | e] |]]; simpl.
  - destruct (tmpdict !! "RobotModeData"); [| done].
    destruct (check_if_running tmpdict _) as [ok |]; [| done].
    simpl. by destruct (ok || negb (running m)).
  - by destruct e.
  - done.
Qed.

(** A pass writes the head of the queue, if there is one, and nothing
    else. *)
Lemma run_pass_queue now incoming m :
  let m' := pass_monitor (run_pass now incoming m).1 in
  socket_sent m' ++ map program (_prog_queue m') =
    socket_sent m ++ map program (_prog_queue m) /\
  (length (socket_sent m') <= S (length (socket_sent m)))%nat /\
  (map program (notified m) = socket_sent m ->
   map program (notified m') = socket_sent m').
Proof.
  unfold run_pass.
  destruct (monitor_get_data incoming (drain_one m)) as [[r m1] rest] eqn:Hget.
  apply monitor_get_data_fields in Hget as (_ & Hq & _ & _ & Hs & Hn & _).
  assert (_prog_queue (pass_monitor
            (match r with
             | Some data => (run_packet now data m1, rest)
             | None => (Waiting m1, rest)
             end).1) = _prog_queue (drain_one m) /\
          socket_sent (pass_monitor
            (match r with
             | Some data => (run_packet now data m1, rest)
             | None => (Waiting m1, rest)
             end).1) = socket_sent (drain_one m) /\
          notified (pass_monitor
            (match r with
             | Some data => (run_packet now data m1, rest)
             | None => (Waiting m1, rest)
             end).1) = notified (drain_one m)) as (-> & -> & ->).
  { destruct r as [data |]; simpl; [| repeat split; assumption].
    destruct (run_packet_fields now data m1) as (-> & -> & -> & _).
    repeat split; assumption. }
  unfold drain_one. destruct (_prog_queue m) as [| data queue] eqn:Hqm; simpl.
  - rewrite Hqm. split; [done |]. split; [lia | done].
  - rewrite <- app_assoc. split; [done |].
    rewrite length_app, !map_app. simpl. split; [lia |]. by intros ->.
Qed.

Lemma run_events_snoc evs ev m :
  run_events (evs ++ [ev]) m = run_event (run_events evs m) ev.
Proof. unfold run_events. by rewrite foldl_app. Qed.

(** X15.  Commands leave in the order they were queued, each once: at
    any time what was written to the socket, followed by what is still
    queued, is the list of the commands queued so far.  A pass writes
    at most one command, and only written commands have been
    notified. *)
Theorem commands_in_order evs :
  let m := run_events evs new_SecondaryMonitor in
  socket_sent m ++ map program (_prog_queue m) = enqueued evs /\
  map program (notified m) = socket_sent m /\
  (length (socket_sent m) <= passes evs)%nat.
Proof.
  induction evs as [| ev evs IH] using rev_ind; [done |].
  rewrite run_events_snoc. cbv zeta in *.
  destruct IH as (Hq & Hn & Hp).
  unfold enqueued, passes in *. rewrite !omap_app, length_app.
  destruct ev as [now incoming | prog]; simpl.
  - destruct (run_pass_queue now incoming (run_events evs new_SecondaryMonitor))
      as (Hq' & Hlen & Hn').
    cbv zeta in *. rewrite Hq', Hq, app_nil_r.
    split; [done |]. split; [by apply Hn' |]. lia.
  - rewrite map_app, app_assoc, Hq. simpl.
    split; [done |]. split; [done |]. lia.
Qed.

(** ** MasterBoardData records *)

Lemma master_board_fields pdata fmt mb :
  fmt = "iBiibbddbbddffffBBb" \/ fmt = "iBhhbbddbbddffffBBb" ->
  _get_data pdata fmt master_board_names = Ok mb ->
  master_board_record mb.
Proof.
  intros Hfmt H. split.
  { rewrite (_get_data_dom _ _ _ _ H). by destruct Hfmt as [-> | ->]. }
  destruct Hfmt as [-> | ->].
  - pose proof (_get_data_fixed pdata "iBiibbddbbddffffBBb"
                  master_board_names 65 eq_refl) as Hlen.
    destruct (Nat.ltb_spec (length pdata) 65) as [| Hge]; [congruence |].
    clear Hlen.
    do 31 (destruct pdata as [| ? pdata]; [simpl in Hge; lia |]).
    revert H. unfold _get_data. norm_fmt. unfold master_board_names.
    do 8 loop_step. intros H.
    pose proof (fun key => _get_data_loop_keeps _ _ _ _ _ _ key H) as Hk.
    rewrite !Hk by (vm_compute; not_in_names). split.
    + eexists _, _. split; [by simplify_map_eq |]. split; [by simplify_map_eq |].
      split; apply (be_int_range [_; _; _; _]); simpl; lia.
    + eexists _, _. split; [by simplify_map_eq |]. split; [by simplify_map_eq |].
      done.
  - pose proof (_get_data_fixed pdata "iBhhbbddbbddffffBBb"
                  master_board_names 61 eq_refl) as Hlen.
    destruct (Nat.ltb_spec (length pdata) 61) as [| Hge]; [congruence |].
    clear Hlen.
    do 27 (destruct pdata as [| ? pdata]; [simpl in Hge; lia |]).
    revert H. unfold _get_data. norm_fmt. unfold master_board_names.
    do 8 loop_step. intros H.
    pose proof (fun key => _get_data_loop_keeps _ _ _ _ _ _ key H) as Hk.
    rewrite !Hk by (vm_compute; not_in_names). split.
    + eexists _, _. split; [by simplify_map_eq |]. split; [by simplify_map_eq |].
      split;
        match goal with
        | |- _ <= be_int ?l < _ =>
          pose proof (be_int_range l) as Hr; simpl in Hr; lia
        end.
    + eexists _, _. split; [by simplify_map_eq |]. split; [by simplify_map_eq |].
      done.
Qed.

Lemma parse_loop_master_board fuel allData data s s' allData' :
  parse_loop fuel allData data s = (s', Some (Ok allData')) ->
  (forall mb, allData !! "MasterBoardData" = Some mb -> master_board_record mb) ->
  forall mb, allData' !! "MasterBoardData" = Some mb -> master_board_record mb.
Proof.
  revert allData data s.
  induction fuel as [| fuel IH]; intros allData data s.
  - destruct data; [by intros [= <- <-] | done].
  - destruct data as [| b data]; [by intros [= <- <-] |].
    cbn [parse_loop].
    destruct (parse_body allData (b :: data) s) as [s1 [[allData1 data1] | e]] eqn:E;
      [| done].
    intros Hloop Hinv. eapply IH; [exact Hloop |].
    rewrite parse_body_eq in E.
    destruct (analyze_header (b :: data)) as [[[[psize ptype] pdata] rest] | ?];
      [| done].
    apply parse_packet_inv in E
      as [_ [[_ [r ->]] | [_ [-> | (key & r & -> & _ & Hkey)]]]].
    + intros mb. rewrite lookup_insert_ne by done. apply Hinv.
    + done.
    + intros mb. destruct (decide (key = "MasterBoardData")) as [-> | ?].
      * rewrite lookup_insert_eq. intros [= <-].
        destruct (Hkey eq_refl) as (fmt & Hfmt & Hr).
        by eapply master_board_fields.
      * rewrite lookup_insert_ne by done. apply Hinv.
Qed.

Lemma reachable_master_board m mb :
  reachable m ->
  _dict m !! "MasterBoardData" = Some mb ->
  master_board_record mb.
Proof.
  intros Hr. revert mb.
  induction Hr as [| now incoming m _ IH | prog m _ IH].
  - intros mb. simpl. by rewrite lookup_empty.
  - apply (run_pass_dict_inv
             (fun d => forall mb, d !! "MasterBoardData" = Some mb ->
                                  master_board_record mb)); [| exact IH].
    intros data s s' allData H. eapply parse_loop_master_board; [exact H |].
    intros mb. by rewrite lookup_empty.
  - exact IH.
Qed.

(** ** Decimal strings *)






(** ** Getters on the monitors of a connection *)


Lemma testbit_sign (v n : Z) :
  - 2 ^ 31 <= v < 2 ^ 31 -> 31 <= n -> Z.testbit v n = (v <? 0).
Proof.
  intros Hv Hn.
  assert (2 ^ 31 <= 2 ^ n) by (apply Z.pow_le_mono_r; lia).
  rewrite Z.testbit_odd, Z.shiftr_div_pow2 by lia.
  destruct (Z.ltb_spec v 0).
  - rewrite <- (Z.div_unique v (2 ^ n) (-1) (v + 2 ^ n)); [done | lia | lia].
  - rewrite Z.div_small by lia. done.
Qed.

(** X17.  The digital words are stored as signed numbers of at most 32
    bits, so a channel number from 31 on reads the sign: the getters
    return 1 exactly when the stored word is negative. *)
Theorem get_digital_beyond_word m n :
  reachable m ->
  is_Some (_dict m !! "MasterBoardData") ->
  31 <= n ->
  exists out inp,
    get_digital_out_bits m = Ok (VInt out) /\
    get_digital_in_bits m = Ok (VInt inp) /\
    - 2 ^ 31 <= out < 2 ^ 31 /\ - 2 ^ 31 <= inp < 2 ^ 31 /\
    get_digital_out n m = Ok (if out <? 0 then 1 else 0) /\
    get_digital_in n m = Ok (if inp <? 0 then 1 else 0).
Proof.
  intros Hr [mb Hmb] Hn.
  destruct (reachable_master_board m mb Hr Hmb)
    as (_ & (out & inp & Hout & Hinp & Hro & Hri) & _).
  exists out, inp.
  unfold get_digital_out_bits, get_digital_in_bits, get_digital_out,
    get_digital_in, getitem.
  rewrite Hmb. simpl. rewrite Hout, Hinp.
  rewrite (get_bit_testbit m _ mb out), (get_bit_testbit m _ mb inp)
    by (done || lia).
  by rewrite !testbit_sign.
Qed.

(** ** Layouts chosen by the version *)

(** X18.  A MasterBoardData packet is decoded with 32-bit digital words
    once the version is at least (3, 0) and with 16-bit words before:
    [digitalInputBits] is the signed number in the bytes after the
    header and [digitalOutputBits] the one in the bytes after those.
    The rest of the layout takes 52 bytes. *)
Theorem master_board_words allData psize hdr inp out tail data s :
  length hdr = 5%nat ->
  length inp = (if version_ge (version s) (3, 0) then 4%nat else 2%nat) ->
  length out = length inp ->
  (52 <= length tail)%nat ->
  exists mb,
    parse_packet allData psize 3 (hdr ++ inp ++ out ++ tail) data s =
      (s, Ok (<["MasterBoardData" := mb]> allData, data)) /\
    mb !! "digitalInputBits" = Some (VInt (be_int inp)) /\
    mb !! "digitalOutputBits" = Some (VInt (be_int out)).
Proof.
  intros Hhdr Hinp Hout Htail.
  unfold parse_packet. rewrite bind_eq. unfold get_version. simpl.
  rewrite bind_eq, decode_into_eq.
  do 5 (destruct hdr as [| ? hdr]; [done |]). destruct hdr; [| done].
  destruct (version_ge (version s) (3, 0)).
  - do 4 (destruct inp as [| ? inp]; [done |]). destruct inp; [| done].
    do 4 (destruct out as [| ? out]; [done |]). destruct out; [| done].
    cbn [app]. unfold _get_data. norm_fmt. unfold master_board_names.
    do 4 loop_step. rewrite drop_0.
    match goal with
    | |- context [_get_data_loop ?fmt ?names ?i ?d ?tmp] =>
      pose proof (_get_data_loop_fixed fmt names i d tmp 52 eq_refl) as Hrest;
      pose proof (fun d' key => _get_data_loop_keeps fmt names i d tmp d' key) as Hk
    end.
    destruct (Nat.ltb_spec (length tail) 52); [lia |].
    destruct Hrest as [mb Hmb]. rewrite Hmb. exists mb. split; [done |].
    rewrite !(Hk mb _ Hmb) by (vm_compute; not_in_names).
    split; by simplify_map_eq.
  - do 2 (destruct inp as [| ? inp]; [done |]). destruct inp; [| done].
    do 2 (destruct out as [| ? out]; [done |]). destruct out; [| done].
    cbn [app]. unfold _get_data. norm_fmt. unfold master_board_names.
    do 4 loop_step. rewrite drop_0.
    match goal with
    | |- context [_get_data_loop ?fmt ?names ?i ?d ?tmp] =>
      pose proof (_get_data_loop_fixed fmt names i d tmp 52 eq_refl) as Hrest;
      pose proof (fun d' key => _get_data_loop_keeps fmt names i d tmp d' key) as Hk
    end.
    destruct (Nat.ltb_spec (length tail) 52); [lia |].
    destruct Hrest as [mb Hmb]. rewrite Hmb. exists mb. split; [done |].
    rewrite !(Hk mb _ Hmb) by (vm_compute; not_in_names).
    split; by simplify_map_eq.
Qed.

(** X19.  A CartesianInfo packet is decoded into the pose alone below
    version (3, 2) and into the pose and the TCP offset from (3, 2) on;
    it needs 53 bytes in the first case and 101 in the second, and
    raises [ParsingException] with fewer. *)
Theorem cartesian_info_layout allData psize pdata data s :
  if Nat.ltb (length pdata) (if version_lt (version s) (3, 2) then 53%nat else 101%nat)
  then parse_packet allData psize 4 pdata data s = (s, Raise ParsingException)
  else exists r,
      parse_packet allData psize 4 pdata data s =
        (s, Ok (<["CartesianInfo" := r]> allData, data)) /\
      dom r =
        list_to_set
          (["size"; "type"; "X"; "Y"; "Z"; "Rx"; "Ry"; "Rz"] ++
           (if version_lt (version s) (3, 2) then []
            else ["tcpOffsetX"; "tcpOffsetY"; "tcpOffsetZ";
                  "tcpOffsetRx"; "tcpOffsetRy"; "tcpOffsetRz"])).
Proof.
  unfold parse_packet. rewrite bind_eq. unfold get_version.
  change (4 =? 16) with false. change (4 =? 0) with false.
  change (4 =? 1) with false. change (4 =? 4) with true. cbv iota.
  rewrite bind_eq.
  destruct (version_lt (version s) (3, 2)); rewrite decode_into_eq.
  - pose proof (_get_data_fixed pdata "iBdddddd"
                  ["size"; "type"; "X"; "Y"; "Z"; "Rx"; "Ry"; "Rz"] 53 eq_refl) as H.
    destruct (length pdata <? 53)%nat; [by rewrite H |].
    destruct H as [r Hr]. rewrite Hr. exists r. split; [done |].
    by rewrite (_get_data_dom _ _ _ _ Hr).
  - pose proof (_get_data_fixed pdata "iBdddddddddddd"
                  ["size"; "type"; "X"; "Y"; "Z"; "Rx"; "Ry"; "Rz";
                   "tcpOffsetX"; "tcpOffsetY"; "tcpOffsetZ";
                   "tcpOffsetRx"; "tcpOffsetRy"; "tcpOffsetRz"] 101 eq_refl) as H.
    destruct (length pdata <? 101)%nat; [by rewrite H |].
    destruct H as [r Hr]. rewrite Hr. exists r. split; [done |].
    by rewrite (_get_data_dom _ _ _ _ Hr).
Qed.

(** X20.  A JointData packet needs 251 bytes and raises
    [ParsingException] with fewer; its record has the fifty keys
    [size], [type] and the eight values of each of the joints 0 to 5. *)
Theorem joint_data_layout allData psize pdata data s :
  if (length pdata <? 251)%nat
  then parse_packet allData psize 1 pdata data s = (s, Raise ParsingException)
  else exists r,
      parse_packet allData psize 1 pdata data s =
        (s, Ok (<["JointData" := r]> allData, data)) /\
      size r = 50%nat /\
      forall i field,
        (i < 6)%nat ->
        field ∈ ["q_actual"; "q_target"; "qd_actual"; "I_actual"; "V_actual";
                 "T_motor"; "T_micro"; "jointMode"] ->
        is_Some (r !! (field +:+ pretty i)).
Proof.
  unfold parse_packet. rewrite bind_eq. unfold get_version.
  change (1 =? 16) with false. change (1 =? 0) with false.
  change (1 =? 1) with true. cbv iota.
  rewrite bind_eq, decode_into_eq.
  pose proof (_get_data_fixed pdata
    "!iB dddffffB dddffffB dddffffBdddffffB dddffffB dddffffB"
    joint_names 251 eq_refl) as H.
  destruct (length pdata <? 251)%nat; [by rewrite H |].
  destruct H as [r Hr]. rewrite Hr. exists r. split; [done |].
  pose proof (_get_data_dom _ _ _ _ Hr) as Hdom. split.
  - rewrite <- size_dom, Hdom. by vm_compute.
  - intros i field Hi Hf. apply elem_of_dom. rewrite Hdom.
    apply elem_of_list_to_set.
    change (layout _ joint_names) with joint_names.
    unfold joint_names. apply elem_of_app. right.
    apply list_elem_of_In, in_flat_map. exists i. split.
    + apply in_seq. lia.
    + apply list_elem_of_In. revert Hf. rewrite !elem_of_cons, !elem_of_nil.
      intros [-> | [-> | [-> | [-> | [-> | [-> | [-> | [-> | []]]]]]]]]; tauto.
Qed.

(** ** The version and the batch *)

Lemma parse_loop_version_without_mode fuel allData data s s' allData' :
  parse_loop fuel allData data s = (s', Some (Ok allData')) ->
  allData' !! "RobotModeData" = None ->
  version s' = version s.
Proof.
  revert allData data s.
  induction fuel as [| fuel IH]; intros allData data s.
  - destruct data; [by intros [= <- <-] | done].
  - destruct data as [| b data]; [by intros [= <- <-] |].
    cbn [parse_loop].
    destruct (parse_body allData (b :: data) s) as [s1 [[allData1 data1] | e]] eqn:E;
      [| done].
    intros Hloop Hnone. rewrite (IH _ _ _ Hloop Hnone).
    rewrite parse_body_eq in E.
    destruct (analyze_header (b :: data)) as [[[[psize ptype] pdata] rest] | ?];
      [| done].
    pose proof (parse_packet_version_ne allData psize ptype pdata rest s) as Hv.
    rewrite E in Hv. simpl in Hv.
    destruct (Z.eq_dec ptype 0) as [-> | Hne]; [| by apply Hv].
    apply parse_packet_inv in E as [_ [[_ [r ->]] | [? _]]]; [| done].
    assert (is_Some (allData' !! "RobotModeData")) as [? ?]; [| congruence].
    eapply parse_loop_keeps_keys; [exact Hloop |]. by rewrite lookup_insert_eq.
Qed.

(** X21.  Only RobotModeData packets touch the version: a [parse] call
    that returns a batch without RobotModeData leaves [self.version] as
    it was. *)
Theorem parse_without_mode_keeps_version data s s' allData :
  parse data s = (s', Some (Ok allData)) ->
  allData !! "RobotModeData" = None ->
  version s' = version s.
Proof. apply parse_loop_version_without_mode. Qed.

(** ** Instances of the further properties *)

Lemma get_data_keys_witness :
  dom (<["type" := VInt 16]> ({[ "size" := VInt 5 ]} : record)) =
    list_to_set (layout "!iB" ["size"; "type"; "extra"]) /\
  size (<["type" := VInt 16]> ({[ "size" := VInt 5 ]} : record)) =
    (field_count (list_ascii_of_string (strip "!iB")) `min`
     length ["size"; "type"; "extra"])%nat /\
  forall key, key ∉ layout "!iB" ["size"; "type"; "extra"] ->
    (<["type" := VInt 16]> ({[ "size" := VInt 5 ]} : record)) !! key = None.
Proof.
  apply (get_data_keys frame_empty_group "!iB" ["size"; "type"; "extra"]).
  - reflexivity.
  - reflexivity.
  - apply (bool_decide_unpack _). vm_compute. exact I.
Defined.

Lemma get_data_array_free_witness :
  ((length [x00] < 5)%nat <->
   _get_data [x00] "!iB" ["size"; "type"] = Raise ParsingException) /\
  ((5 <= length [x00])%nat <->
   exists d, _get_data [x00] "!iB" ["size"; "type"] = Ok d).
Proof.
  apply (get_data_array_free [x00] "!iB" ["size"; "type"] 5); reflexivity.
Defined.

Lemma parse_raises_parsing_exception_witness :
  (parse frame_truncated new_ParserUtils).2 = Some (Raise ParsingException) /\
  ParsingException = ParsingException.
Proof.
  split; [vm_compute; reflexivity |].
  apply (parse_raises_parsing_exception frame_truncated new_ParserUtils
           (parse frame_truncated new_ParserUtils).1 ParsingException).
  vm_compute. reflexivity.
Defined.

Lemma run_packet_running_witness :
  exists m',
    run_packet 1 frame_rmd38 new_SecondaryMonitor = Next m' /\
    running m' = false /\ lastpacket_timestamp m' = 1.
Proof.
  pose (r := parse frame_rmd38 new_ParserUtils).
  pose (tmpdict := match r.2 with Some (Ok d) => d | _ => ∅ end).
  destruct (run_packet_running 1 frame_rmd38 new_SecondaryMonitor r.1 tmpdict
              (default ∅ (tmpdict !! "RobotModeData")))
    as (z & b1 & b2 & b3 & b4 & b5 & m' & Hz & H1 & _ & _ & _ & _ & Hrun
        & Hrunning & _ & Hstamp & _);
    [vm_compute; reflexivity .. |].
  exists m'. split; [exact Hrun |]. split; [| exact Hstamp].
  rewrite Hrunning.
  assert (z = 0) as ->.
  { assert (default ∅ (tmpdict !! "RobotModeData") !! "robotMode"
            = Some (VInt 0)) as E by (vm_compute; reflexivity).
    congruence. }
  reflexivity.
Defined.

Lemma is_program_running_bool_witness :
  exists b,
    is_program_running
      (pass_monitor (run_pass 1 [frame_rmd38] new_SecondaryMonitor).1) =
    Ok (VBool b).
Proof.
  apply is_program_running_bool.
  - apply reachable_pass, reachable_new.
  - apply (bool_decide_unpack _). vm_compute. exact I.
Defined.

Lemma buffer_first_valid : first_valid buffer_with_garbage 2.
Proof.
  split; [reflexivity |].
  intros [| [| j]] Hj; [reflexivity | reflexivity | lia].
Qed.

Lemma find_first_packet_frame_witness :
  exists garbage,
    buffer_with_garbage = garbage ++ frame_empty_group ++ [x01] /\
    first_valid buffer_with_garbage (length garbage) /\
    header_valid frame_empty_group = true /\
    length frame_empty_group = declared_size frame_empty_group /\
    (5 <= length frame_empty_group <= 2000)%nat /\
    version (find_first_packet buffer_with_garbage new_ParserUtils).1 =
      version new_ParserUtils.
Proof.
  apply (find_first_packet_frame buffer_with_garbage new_ParserUtils).
  vm_compute. reflexivity.
Defined.

Lemma find_first_packet_log_witness :
  exists warnings,
    logger (find_first_packet buffer_with_garbage new_ParserUtils).1 =
      logger new_ParserUtils ++ warnings ++
      DebugGotPacket (Z.of_nat (length frame_empty_group)) 16 ::
      (if (length [xff; x00] =? 0)%nat then []
       else [InfoGarbage (length [xff; x00])]) /\
    ((length [xff; x00] <= 10)%nat -> warnings = []).
Proof.
  apply (find_first_packet_log buffer_with_garbage new_ParserUtils _
           frame_empty_group [x01] [xff; x00]).
  - vm_compute. reflexivity.
  - reflexivity.
  - exact buffer_first_valid.
Defined.

Lemma parse_iterations_witness :
  parse_loop 9 ∅ frame_rmd38 new_ParserUtils = parse frame_rmd38 new_ParserUtils /\
  exists s' r, parse frame_rmd38 new_ParserUtils = (s', Some r).
Proof.
  apply (parse_iterations 9 frame_rmd38 new_ParserUtils).
  apply Nat.leb_le. reflexivity.
Defined.

Lemma parse_unwraps_group_witness :
  parse ([x00; x00; x00; x05; x10] ++ robot_mode_packet x26) new_ParserUtils =
  parse_loop (length (robot_mode_packet x26))
    {[ "SecondaryClientData" := <["type" := VInt 16]> {[ "size" := VInt 5 ]} ]}
    (robot_mode_packet x26) new_ParserUtils.
Proof.
  apply (parse_unwraps_group [x00; x00; x00; x05; x10] (robot_mode_packet x26) 5
           new_ParserUtils); [reflexivity | reflexivity |].
  change (length (robot_mode_packet x26)) with 38%nat. lia.
Defined.

Lemma monitor_get_data_packet_witness :
  exists consumed garbage,
    [buffer_with_garbage; [x02]] = consumed ++ [[x02]] /\
    _dataqueue new_SecondaryMonitor ++ concat consumed =
      garbage ++ frame_empty_group ++
      _dataqueue (monitor_get_data [buffer_with_garbage; [x02]]
                    new_SecondaryMonitor).1.2 /\
    header_valid frame_empty_group = true /\
    length frame_empty_group = declared_size frame_empty_group /\
    _dict (monitor_get_data [buffer_with_garbage; [x02]]
             new_SecondaryMonitor).1.2 = _dict new_SecondaryMonitor /\
    version (_parser (monitor_get_data [buffer_with_garbage; [x02]]
                        new_SecondaryMonitor).1.2) =
      version (_parser new_SecondaryMonitor) /\
    _prog_queue (monitor_get_data [buffer_with_garbage; [x02]]
                   new_SecondaryMonitor).1.2 = _prog_queue new_SecondaryMonitor.
Proof.
  apply (monitor_get_data_packet [buffer_with_garbage; [x02]]
           new_SecondaryMonitor).
  vm_compute. reflexivity.
Defined.

Lemma monitor_get_data_waiting_witness :
  ([] : list bytes) = [] /\
  _dataqueue (monitor_get_data [[xff; x00]; [x00; x00]] new_SecondaryMonitor).1.2 =
    _dataqueue new_SecondaryMonitor ++ concat [[xff; x00]; [x00; x00]] /\
  _dict (monitor_get_data [[xff; x00]; [x00; x00]] new_SecondaryMonitor).1.2 =
    _dict new_SecondaryMonitor /\
  forall k,
    first_valid
      (_dataqueue (monitor_get_data [[xff; x00]; [x00; x00]]
                     new_SecondaryMonitor).1.2) k ->
    (length (drop k (_dataqueue (monitor_get_data [[xff; x00]; [x00; x00]]
                                   new_SecondaryMonitor).1.2)) <
     declared_size (drop k (_dataqueue (monitor_get_data [[xff; x00]; [x00; x00]]
                                          new_SecondaryMonitor).1.2)))%nat.
Proof.
  apply (monitor_get_data_waiting [[xff; x00]; [x00; x00]] new_SecondaryMonitor).
  vm_compute. reflexivity.
Defined.

Lemma reachable_dict_has_group_witness :
  _dict monitor_with_board = ∅ \/
  is_Some (_dict monitor_with_board !! "SecondaryClientData").
Proof.
  apply reachable_dict_has_group. apply reachable_pass, reachable_new.
Defined.


Lemma get_digital_beyond_word_witness :
  exists out inp,
    get_digital_out_bits monitor_with_board = Ok (VInt out) /\
    get_digital_in_bits monitor_with_board = Ok (VInt inp) /\
    - 2 ^ 31 <= out < 2 ^ 31 /\ - 2 ^ 31 <= inp < 2 ^ 31 /\
    get_digital_out 40 monitor_with_board = Ok (if out <? 0 then 1 else 0) /\
    get_digital_in 40 monitor_with_board = Ok (if inp <? 0 then 1 else 0).
Proof.
  apply (get_digital_beyond_word monitor_with_board 40).
  - apply reachable_pass, reachable_new.
  - apply (bool_decide_unpack _). vm_compute. exact I.
  - lia.
Defined.

Lemma master_board_words_witness :
  exists mb,
    parse_packet ∅ 61 3
      ([x00; x00; x00; x3d; x03] ++ [x00; x01] ++ [x80; x20] ++ repeat x00 52)
      [] new_ParserUtils =
      (new_ParserUtils, Ok (<["MasterBoardData" := mb]> ∅, [])) /\
    mb !! "digitalInputBits" = Some (VInt (be_int [x00; x01])) /\
    mb !! "digitalOutputBits" = Some (VInt (be_int [x80; x20])).
Proof.
  apply (master_board_words ∅ 61 [x00; x00; x00; x3d; x03] [x00; x01]
           [x80; x20] (repeat x00 52) [] new_ParserUtils);
    [reflexivity | reflexivity | reflexivity |].
  apply Nat.leb_le. reflexivity.
Defined.

Lemma parse_without_mode_keeps_version_witness :
  version (parse frame_additional_info (parse frame_rmd46 new_ParserUtils).1).1 =
  version (parse frame_rmd46 new_ParserUtils).1.
Proof.
  pose (s := (parse frame_rmd46 new_ParserUtils).1).
  apply (parse_without_mode_keeps_version frame_additional_info s
           (parse frame_additional_info s).1
           (match (parse frame_additional_info s).2 with
            | Some (Ok d) => d
            | _ => ∅
            end));
    vm_compute; reflexivity.
Defined.

(** ** The remaining packet types *)

(** X22.  A LaserPointer packet (type 5) has a five-code format but
    only two key names, so its three doubles are never read: every
    framed packet of that type is accepted, whatever follows its
    header, and its record holds the declared size and the type
    alone. *)
Theorem laser_pointer_header_only allData data psize pdata rest s :
  analyze_header data = Ok (psize, 5, pdata, rest) ->
  parse_body allData data s =
  (s, Ok (<["LaserPointer(OBSOLETE)" :=
             <["type" := VInt 5]> {[ "size" := VInt psize ]}]> allData, rest)).
Proof.
  intros Hh. rewrite parse_body_eq, Hh.
  destruct (analyze_header_ok _ _ _ _ _ Hh) as (Hg & Hps & -> & ->).
  assert (length (take (Z.to_nat psize) data) = Z.to_nat psize) as Hlen
    by (rewrite length_take; lia).
  assert (get_header (take (Z.to_nat psize) data) = Ok (psize, 5)) as Hp.
  { rewrite <- Hg. unfold get_header.
    rewrite !slice_to_nonneg by lia.
    rewrite take_take.
    by replace (Z.to_nat 5 `min` Z.to_nat psize)%nat with (Z.to_nat 5) by lia. }
  set (pdata := take (Z.to_nat psize) data) in *.
  apply header_record in Hp.
  unfold parse_packet. rewrite bind_eq. unfold get_version.
  change (5 =? 16) with false. change (5 =? 0) with false.
  change (5 =? 1) with false. change (5 =? 4) with false.
  change (5 =? 5) with true. cbv iota.
  rewrite bind_eq, decode_into_eq.
  assert (_get_data pdata "iBddd" ["size"; "type"] =
          _get_data pdata "!iB" ["size"; "type"]) as ->; [| by rewrite Hp].
  destruct (Nat.lt_ge_cases (length pdata) 5) as [Hl | Hl]; [lia |].
  destruct (list_length_ge_5 pdata Hl) as (a0 & a1 & a2 & a3 & a4 & t & ->).
  unfold _get_data. do 2 norm_fmt. do 2 loop_step.
  symmetry. do 3 loop_step. reflexivity.
Qed.

Lemma laser_pointer_header_only_witness :
  parse_body ∅ ([x00; x00; x00; x05; x05] ++ [xff]) new_ParserUtils =
  (new_ParserUtils,
   Ok (<["LaserPointer(OBSOLETE)" :=
          <["type" := VInt 5]> {[ "size" := VInt 5 ]}]> ∅, [xff])).
Proof.
  apply (laser_pointer_header_only ∅ ([x00; x00; x00; x05; x05] ++ [xff]) 5
           [x00; x00; x00; x05; x05] [xff] new_ParserUtils).
  reflexivity.
Defined.

(** X23.  A ToolData packet (type 2) needs 37 bytes and raises
    [ParsingException] with fewer; its record has the eleven keys of
    the source. *)
Theorem tool_data_layout allData psize pdata data s :
  if (length pdata <? 37)%nat
  then parse_packet allData psize 2 pdata data s = (s, Raise ParsingException)
  else exists r,
      parse_packet allData psize 2 pdata data s =
        (s, Ok (<["ToolData" := r]> allData, data)) /\
      dom r =
        list_to_set
          ["size"; "type"; "analoginputRange2"; "analoginputRange3";
           "analogInput2"; "analogInput3"; "toolVoltage48V";
           "toolOutputVoltage"; "toolCurrent"; "toolTemperature"; "toolMode"] /\
      size r = 11%nat.
Proof.
  unfold parse_packet. rewrite bind_eq. unfold get_version.
  change (2 =? 16) with false. change (2 =? 0) with false.
  change (2 =? 1) with false. change (2 =? 4) with false.
  change (2 =? 5) with false. change (2 =? 3) with false.
  change (2 =? 2) with true. cbv iota.
  rewrite bind_eq, decode_into_eq.
  pose proof (_get_data_fixed pdata "iBbbddfBffB"
                ["size"; "type"; "analoginputRange2"; "analoginputRange3";
                 "analogInput2"; "analogInput3"; "toolVoltage48V";
                 "toolOutputVoltage"; "toolCurrent"; "toolTemperature";
                 "toolMode"] 37 eq_refl) as H.
  destruct (length pdata <? 37)%nat; [by rewrite H |].
  destruct H as [r Hr]. rewrite Hr. exists r. split; [done |].
  split; [by rewrite (_get_data_dom _ _ _ _ Hr) |].
  rewrite <- size_dom, (_get_data_dom _ _ _ _ Hr).
  rewrite size_list_to_set; [done |].
  apply (bool_decide_unpack _). vm_compute. exact I.
Qed.

(** X24.  From version (3, 2) on a ForceModeData packet (type 7) needs
    61 bytes and raises [ParsingException] with fewer; its record has
    the nine keys of the source. *)
Theorem force_mode_data_layout allData psize pdata data s :
  version_ge (version s) (3, 2) = true ->
  if (length pdata <? 61)%nat
  then parse_packet allData psize 7 pdata data s = (s, Raise ParsingException)
  else exists r,
      parse_packet allData psize 7 pdata data s =
        (s, Ok (<["ForceModeData" := r]> allData, data)) /\
      dom r =
        list_to_set
          ["size"; "type"; "x"; "y"; "z"; "rx"; "ry"; "rz"; "robotDexterity"] /\
      size r = 9%nat.
Proof.
  intros Hv.
  unfold parse_packet. rewrite bind_eq. unfold get_version. rewrite Hv.
  change (7 =? 16) with false. change (7 =? 0) with false.
  change (7 =? 1) with false. change (7 =? 4) with false.
  change (7 =? 5) with false. change (7 =? 3) with false.
  change (7 =? 2) with false. change (7 =? 9) with false.
  change (7 =? 8) with false. change (7 =? 7) with true.
  cbv iota. cbn [andb].
  rewrite bind_eq, decode_into_eq.
  pose proof (_get_data_fixed pdata "iBddddddd"
                ["size"; "type"; "x"; "y"; "z"; "rx"; "ry"; "rz";
                 "robotDexterity"] 61 eq_refl) as H.
  destruct (length pdata <? 61)%nat; [by rewrite H |].
  destruct H as [r Hr]. rewrite Hr. exists r. split; [done |].
  split; [by rewrite (_get_data_dom _ _ _ _ Hr) |].
  rewrite <- size_dom, (_get_data_dom _ _ _ _ Hr).
  rewrite size_list_to_set; [done |].
  apply (bool_decide_unpack _). vm_compute. exact I.
Qed.

Lemma force_mode_data_layout_witness :
  parse_packet ∅ 5 7 [x00; x00; x00; x05; x07] []
    (parse frame_rmd46 new_ParserUtils).1 =
  ((parse frame_rmd46 new_ParserUtils).1, Raise ParsingException).
Proof.
  apply (force_mode_data_layout ∅ 5 [x00; x00; x00; x05; x07] []
           (parse frame_rmd46 new_ParserUtils).1).
  vm_compute. reflexivity.
Defined.

(** X25.  A message packet (type 20) shorter than the fifteen bytes of
    the message header raises [ParsingException] before its message
    type is looked at. *)
Theorem short_message_raises allData psize pdata data s :
  (length pdata < 15)%nat ->
  parse_packet allData psize 20 pdata data s = (s, Raise ParsingException).
Proof.
  intros Hlen. rewrite parse_packet_message.
  unfold parse_message. rewrite bind_eq. unfold lift.
  pose proof (_get_data_fixed pdata "!iB Qbb" (message_names []) 15 eq_refl) as H.
  destruct (Nat.ltb_spec (length pdata) 15) as [_ | ?]; [| lia].
  by rewrite H.
Qed.

Lemma short_message_raises_witness :
  parse_packet ∅ 5 20 [x00; x00; x00; x05; x14] [] new_ParserUtils =
  (new_ParserUtils, Raise ParsingException).
Proof.
  apply (short_message_raises ∅ 5 [x00; x00; x00; x05; x14] [] new_ParserUtils).
  apply Nat.ltb_lt. reflexivity.
Defined.

Lemma text_decode (pre : bytes) (text : bytes) :
  length pre = 14%nat ->
  exists r,
    _get_data (pre ++ x00 :: text) "!iBQbb Ac" (message_names ["messageText"])
      = Ok r /\
    r !! "messageText" = Some (VBytes text) /\ size r = 6%nat.
Proof.
  intros Hpre.
  destruct (list_length_14 pre Hpre)
    as (a0 & a1 & a2 & a3 & a4 & a5 & a6 & a7 & a8 & a9 & a10 & a11 & a12 & a13 & ->).
  cbn [app]. unfold _get_data. norm_fmt. unfold message_names. cbn [app].
  do 7 loop_step.
  erewrite loop_array_last by reflexivity.
  eexists. split; [reflexivity |]. split; [by simplify_map_eq |].
  rewrite !map_size_insert_None, map_size_empty; [done | by simplify_map_eq ..].
Qed.

(** X26.  A message packet whose message type is 0 is stored under the
    key [messageText]; the field [messageText] of its record is every
    byte after the fifteen-byte message header, and the parser state
    is left as it was. *)
Theorem parse_text_message (pre text : bytes) allData psize data s :
  length pre = 14%nat ->
  exists r,
    parse_packet allData psize 20 (pre ++ x00 :: text) data s =
      (s, Ok (<["messageText" := r]> allData, data)) /\
    r !! "messageText" = Some (VBytes text) /\ size r = 6%nat.
Proof.
  intros Hpre. rewrite parse_packet_message.
  unfold parse_message. rewrite bind_eq. unfold lift.
  destruct (message_header_decode pre x00 text Hpre) as (tmp & Htmp & Hmt).
  rewrite Htmp. rewrite bind_eq, Hmt.
  change (be_int [x00]) with 0. cbn [py_eq_int Z.eqb Pos.eqb].
  rewrite decode_into_eq.
  destruct (text_decode pre text Hpre) as (r & Hr & Hfields).
  rewrite Hr. by exists r.
Qed.

Lemma parse_text_message_witness :
  exists r,
    parse_packet ∅ 17 20 (repeat x00 14 ++ x00 :: [x68; x69]) [] new_ParserUtils =
      (new_ParserUtils, Ok (<["messageText" := r]> ∅, [])) /\
    r !! "messageText" = Some (VBytes [x68; x69]) /\ size r = 6%nat.
Proof.
  apply (parse_text_message (repeat x00 14) [x68; x69] ∅ 17 [] new_ParserUtils).
  reflexivity.
Defined.
